(** * FuelSync: the Data Verification Engine (DVE)

    A shallow embedding of the edge function [dve-process]: the haversine
    distance, the time-decay and location models, the [submit_report]
    handler with its consensus loop, and the [get_admin_data] projection.

    Numbers.  JavaScript numbers are modelled as the real numbers [R]:
    [Math.pow], [Math.sin], [Math.cos], [Math.sqrt] and [Math.atan2] are the
    real functions and the arithmetic is exact.  The source computes in
    IEEE doubles.  Rounding changes an outcome in kind at one place: for a
    submitter at the antipode of the station the haversine term of
    [calculateDistance] can come out above 1, the distance is then [NaN],
    and [calculateLocationFactor] answers with a valid result whose factor
    is [NaN].  Exact arithmetic has no such case.  Statements on distances
    and on what the handler does with them are therefore made under a
    comparison on the distance or on the haversine term, as the source
    makes them; such a comparison is false for [NaN], and nothing is stated
    there.  Instants ([Date.now()], [getTime()], the [timestamp] column) are
    integers, the number of milliseconds since the epoch.

    Exceptions.  The handler body runs inside [try]; a [TypeError] thrown in
    it is answered with status 500 and the error's message, as V8 words it.
    Two are modelled: reading a member of a [report] that is absent or
    [null], and calling [push] on a member that the grouping object
    inherits.  What was written to the store before the throw stays
    written. *)

From Stdlib Require Import Reals Lra Lia ZArith List String Ascii Bool.
From Stdlib Require Import Permutation Sorted DecimalString DecimalPos DecimalN.
Import ListNotations.

Open Scope R_scope.

(** ** Configuration *)

Record DVEConfig := {
  INITIAL_TRUST_SCORE : R;
  TRUST_INCREMENT : R;
  TRUST_DECREMENT : R;
  MIN_TRUST_SCORE : R;
  MAX_TRUST_SCORE : R;
  TIME_DECAY_HALF_LIFE : R;
  MAX_REPORT_AGE_HOURS : Z;
  MAX_DISTANCE_KM : R;
  OPTIMAL_DISTANCE_KM : R;
  MIN_REPORTS_FOR_CONSENSUS : nat;
  CONSENSUS_THRESHOLD : R;
  CONSENSUS_BONUS : R;
  VERIFICATION_THRESHOLD : R
}.

Definition DVE_CONFIG : DVEConfig := {|
  INITIAL_TRUST_SCORE := 0.5;
  TRUST_INCREMENT := 0.05;
  TRUST_DECREMENT := 0.1;
  MIN_TRUST_SCORE := 0.1;
  MAX_TRUST_SCORE := 1.0;
  TIME_DECAY_HALF_LIFE := 24;
  MAX_REPORT_AGE_HOURS := 168;
  MAX_DISTANCE_KM := 2.0;
  OPTIMAL_DISTANCE_KM := 0.5;
  MIN_REPORTS_FOR_CONSENSUS := 2;
  CONSENSUS_THRESHOLD := 0.6;
  CONSENSUS_BONUS := 0.2;
  VERIFICATION_THRESHOLD := 0.4
|}.

(** ** Geospatial utility *)

(** [Math.atan2 y x] on the reals. *)
Definition atan2 (y x : R) : R :=
  if Rlt_dec 0 x then atan (y / x)
  else if Rlt_dec x 0 then
    (if Rle_dec 0 y then atan (y / x) + PI else atan (y / x) - PI)
  else if Rlt_dec 0 y then PI / 2
  else if Rlt_dec y 0 then - (PI / 2)
  else 0.

(** [calculateDistance] in exact arithmetic.  Here the haversine term [a]
    never leaves [[0, 1]] and both square roots are taken of non-negative
    numbers.  In doubles [a] can exceed 1 by rounding when the points are
    antipodal; [Math.sqrt(1 - a)] and the result are then [NaN], a case this
    definition does not have. *)
Definition calculateDistance (lat1 lon1 lat2 lon2 : R) : R :=
  let R_earth := 6371 in
  let dLat := (lat2 - lat1) * (PI / 180) in
  let dLon := (lon2 - lon1) * (PI / 180) in
  let a := sin (dLat / 2) * sin (dLat / 2) +
           cos (lat1 * (PI / 180)) * cos (lat2 * (PI / 180)) *
           sin (dLon / 2) * sin (dLon / 2) in
  R_earth * 2 * atan2 (sqrt a) (sqrt (1 - a)).

(** ** Temporal decay model *)

Definition MS_PER_HOUR : Z := 1000 * 60 * 60.

(** [(Date.now() - reportTimestamp.getTime()) / (1000 * 60 * 60)] *)
Definition ageHours (dateNow reportTimestamp : Z) : R :=
  IZR (dateNow - reportTimestamp) / IZR MS_PER_HOUR.

(** [calculateTimeDecay]; [dateNow] is the value [Date.now()] returns when
    the function body runs. *)
Definition calculateTimeDecay (dateNow reportTimestamp : Z) : R :=
  let age := ageHours dateNow reportTimestamp in
  if Rgt_dec age (IZR (MAX_REPORT_AGE_HOURS DVE_CONFIG)) then 0
  else Rpower 0.5 (age / TIME_DECAY_HALF_LIFE DVE_CONFIG).

(** ** Location trust model *)

Record LocationResult := {
  factor : R;
  distance : R;
  isValid : bool
}.

Definition calculateLocationFactor (userLat userLon stationLat stationLon : R)
  : LocationResult :=
  let d := calculateDistance userLat userLon stationLat stationLon in
  if Rgt_dec d (MAX_DISTANCE_KM DVE_CONFIG) then
    {| factor := 0; distance := d; isValid := false |}
  else if Rle_dec d (OPTIMAL_DISTANCE_KM DVE_CONFIG) then
    {| factor := 1.0; distance := d; isValid := true |}
  else
    let f := 1 - (d - OPTIMAL_DISTANCE_KM DVE_CONFIG) /
                 (MAX_DISTANCE_KM DVE_CONFIG - OPTIMAL_DISTANCE_KM DVE_CONFIG) in
    {| factor := Rmax 0 f; distance := d; isValid := true |}.

(** ** Data model

    The four tables the engine reads and writes.  Only the columns the engine
    touches are kept.  A nullable column is an [option]. *)

Record Station := {
  stn_id : string;
  stn_name : string;
  stn_lat : option R;
  stn_lon : option R
}.

Record TrustScore := {
  ts_anonymous_user_id : string;
  trust_score : option R
}.

Record Report := {
  report_id : nat;
  station_id : string;
  anonymous_user_id : string;
  fuel_type : string;
  user_lat : option R;
  user_lon : option R;
  timestamp : Z;
  trust_score_at_submission : option R;
  time_decay_factor : option R;
  location_factor : option R;
  dve_score : option R;
  is_verified : bool;
  is_rejected : bool;
  rejection_reason : option string
}.

Record VerifiedFuel := {
  vf_station_id : string;
  vf_fuel_type : string;
  is_available : bool;
  confidence_score : R;
  verified_by_count : nat;
  last_verified_at : Z
}.

Record DB := {
  fuel_stations : list Station;
  user_trust_scores : list TrustScore;
  crowdsourced_reports : list Report;
  verified_fuel_data : list VerifiedFuel
}.

(** ** Requests and responses *)

(** A coordinate member of the report object, as the handler tests it with
    [=== undefined]: absent, [null], or a number. *)
Inductive Coordinate :=
| CoordUndefined
| CoordNull
| CoordNumber (x : R).

(** The members of a [report] object.  For an identifier [None] is a member
    that is absent or [null], which [!] does not tell apart; a present
    identifier is a string. *)
Record ReportInput := {
  in_station_id : option string;
  in_fuel_type : option string;
  in_anonymous_user_id : option string;
  in_user_lat : Coordinate;
  in_user_lon : Coordinate
}.

(** The [report] member of the request body: absent, [null], or an
    object. *)
Inductive ReportMember :=
| ReportAbsent
| ReportNull
| ReportObject (members : ReportInput).

Record Request := {
  method : string;
  action : string;
  report_member : ReportMember
}.

Definition no_members : ReportInput :=
  {| in_station_id := None;
     in_fuel_type := None;
     in_anonymous_user_id := None;
     in_user_lat := CoordUndefined;
     in_user_lon := CoordUndefined |}.

(** The members the request carries in its [report] object: none when
    there is no such object. *)
Definition report (req : Request) : ReportInput :=
  match report_member req with
  | ReportObject members => members
  | ReportAbsent | ReportNull => no_members
  end.

Record DveResult := {
  score : R;
  trustScore : R;
  timeDecay : R;
  locationFactor : R;
  isRejected : bool;
  rejectionReason : option string
}.

Inductive Body :=
| BodyNull
| BodyError (error : string)
| BodySubmit (success : bool) (reportId : option nat) (dveResult : DveResult)
| BodyAdmin (reports : list (Report * option string))
            (trustScores : list TrustScore)
            (verifiedData : list (VerifiedFuel * option string))
            (config : DVEConfig).

Record Response := {
  status : nat;
  body : Body
}.

(** The clock of one request.  [clock_now] is the instant the handler reads
    with [new Date()]; the store's default for [timestamp], the consensus
    cutoff and [last_verified_at] are taken at that same instant.
    [clock_lag] is the number of milliseconds that have passed when
    [calculateTimeDecay] reads [Date.now()] for the date it was handed. *)
Record Clock := {
  clock_now : Z;
  clock_lag : N
}.

(** ** JavaScript helpers *)

(** [!s] is false exactly for a present, non-empty string. *)
Definition truthy_string (s : option string) : bool :=
  match s with
  | Some v => negb (v =? "")%string
  | None => false
  end.

(** [!x] for a nullable number: [null] and [0] are falsy. *)
Definition truthy_number (x : option R) : bool :=
  match x with
  | Some v => if Req_dec_T v 0 then false else true
  | None => false
  end.

(** [x || 0] *)
Definition or_zero (x : option R) : R :=
  match x with
  | Some v => v
  | None => 0
  end.

(** [x ?? d] *)
Definition nullish (x : option R) (d : R) : R :=
  match x with
  | Some v => v
  | None => d
  end.

(** [o?.f] *)
Definition opt_chain {A B : Type} (o : option A) (f : A -> option B) : option B :=
  match o with
  | Some v => f v
  | None => None
  end.

Definition is_some {A : Type} (x : option A) : bool :=
  match x with
  | Some _ => true
  | None => false
  end.

(** [c === undefined] *)
Definition is_undefined (c : Coordinate) : bool :=
  match c with
  | CoordUndefined => true
  | CoordNull | CoordNumber _ => false
  end.

(** A coordinate that is not [undefined]: [null] ([None]) or a number. *)
Definition coordinate_value (c : Coordinate) : option (option R) :=
  match c with
  | CoordUndefined => None
  | CoordNull => Some None
  | CoordNumber x => Some (Some x)
  end.

(** The number arithmetic takes a coordinate for: [null] is 0. *)
Definition ToNumber (x : option R) : R :=
  match x with
  | Some v => v
  | None => 0
  end.

(** The names an object literal inherits from [Object.prototype].  For a
    key [k] among them [{}[k]] is a function, or the prototype itself for
    [__proto__]: a truthy value without a [push] method. *)
Definition Object_prototype_names : list string :=
  ["constructor"; "__defineGetter__"; "__defineSetter__"; "hasOwnProperty";
   "__lookupGetter__"; "__lookupSetter__"; "isPrototypeOf";
   "propertyIsEnumerable"; "toString"; "valueOf"; "__proto__";
   "toLocaleString"]%string.

Definition inherited (k : string) : bool :=
  existsb (String.eqb k) Object_prototype_names.

Fixpoint zero_pad (n : nat) (s : string) : string :=
  match n with
  | O => s
  | S k => String "0" (zero_pad k s)
  end.

(** [x.toFixed(2)] for [|x| < 10^21]: the integer [n] nearest to [|x| * 100]
    (the larger one on a tie), written with a point before its last two
    digits.  From [10^21] on [toFixed] answers in exponent notation, which
    this function does not produce; the handler formats distances only, and
    a distance is at most [6371 * PI]. *)
Definition toFixed2 (x : R) : string :=
  let n := Zfloor (Rabs x * 100 + / 2) in
  let m := NilZero.string_of_uint (N.to_uint (Z.to_N n)) in
  let m := zero_pad (3 - String.length m) m in
  let k := String.length m in
  ((if Rlt_dec x 0 then "-" else "") ++
   substring 0 (k - 2) m ++ "." ++ substring (k - 2) 2 m)%string.

(** ** Store operations *)

(** [.single()] and [.maybeSingle()]: the row when exactly one matches. *)
Definition single {A : Type} (rows : list A) : option A :=
  match rows with
  | [x] => Some x
  | _ => None
  end.

Definition select_station (db : DB) (sid : string) : option Station :=
  single (filter (fun s => (stn_id s =? sid)%string) (fuel_stations db)).

Definition select_trust (db : DB) (uid : string) : option TrustScore :=
  single (filter (fun t => (ts_anonymous_user_id t =? uid)%string)
                 (user_trust_scores db)).

Definition insert_trust (t : TrustScore) (db : DB) : DB :=
  {| fuel_stations := fuel_stations db;
     user_trust_scores := user_trust_scores db ++ [t];
     crowdsourced_reports := crowdsourced_reports db;
     verified_fuel_data := verified_fuel_data db |}.

(** Modelled from the spec: the table definition of [crowdsourced_reports]
    is not part of the sources.  The store gives a new row an identifier no
    stored row has, the submission instant as [timestamp], and
    [is_verified = false]; it keeps the other columns as the handler writes
    them, a [null] coordinate included. *)
Definition next_report_id (rs : list Report) : nat :=
  S (list_max (map report_id rs)).

Definition insert_report (r : Report) (db : DB) : DB :=
  {| fuel_stations := fuel_stations db;
     user_trust_scores := user_trust_scores db;
     crowdsourced_reports := crowdsourced_reports db ++ [r];
     verified_fuel_data := verified_fuel_data db |}.

Definition same_key (sid ft : string) (e : VerifiedFuel) : bool :=
  ((vf_station_id e =? sid) && (vf_fuel_type e =? ft))%string.

(** [.upsert(e, { onConflict: "station_id,fuel_type" })] *)
Fixpoint upsert (e : VerifiedFuel) (tbl : list VerifiedFuel) : list VerifiedFuel :=
  match tbl with
  | [] => [e]
  | x :: tl =>
      if same_key (vf_station_id e) (vf_fuel_type e) x then e :: tl
      else x :: upsert e tl
  end.

Definition upsert_verified (e : VerifiedFuel) (db : DB) : DB :=
  {| fuel_stations := fuel_stations db;
     user_trust_scores := user_trust_scores db;
     crowdsourced_reports := crowdsourced_reports db;
     verified_fuel_data := upsert e (verified_fuel_data db) |}.

Definition set_verified (r : Report) : Report :=
  {| report_id := report_id r;
     station_id := station_id r;
     anonymous_user_id := anonymous_user_id r;
     fuel_type := fuel_type r;
     user_lat := user_lat r;
     user_lon := user_lon r;
     timestamp := timestamp r;
     trust_score_at_submission := trust_score_at_submission r;
     time_decay_factor := time_decay_factor r;
     location_factor := location_factor r;
     dve_score := dve_score r;
     is_verified := true;
     is_rejected := is_rejected r;
     rejection_reason := rejection_reason r |}.

(** [.update({ is_verified: true }).eq("id", rid)] *)
Definition update_verified (rid : nat) (db : DB) : DB :=
  {| fuel_stations := fuel_stations db;
     user_trust_scores := user_trust_scores db;
     crowdsourced_reports :=
       map (fun r => if (report_id r =? rid)%nat then set_verified r else r)
           (crowdsourced_reports db);
     verified_fuel_data := verified_fuel_data db |}.

Definition find_verified (sid ft : string) (db : DB) : option VerifiedFuel :=
  find (same_key sid ft) (verified_fuel_data db).

Definition find_report (rid : nat) (db : DB) : option Report :=
  find (fun r => (report_id r =? rid)%nat) (crowdsourced_reports db).

(** ** Consensus engine *)

Definition cutoffDate (now : Z) : Z :=
  (now - MAX_REPORT_AGE_HOURS DVE_CONFIG * MS_PER_HOUR)%Z.

(** The rows of the consensus query: the station's non-rejected reports
    whose timestamp is not before the cutoff. *)
Definition window (now : Z) (sid : string) (rs : list Report) : list Report :=
  filter (fun r => (station_id r =? sid)%string && negb (is_rejected r) &&
                   (cutoffDate now <=? timestamp r)%Z) rs.

(** [if (!g[ft]) g[ft] = []; g[ft].push(r)] on the own entries of the object
    [g], kept in insertion order.  An own entry gets the row pushed.  A key
    that is not an own entry is looked up in [Object.prototype]: when it
    names an inherited member, that member is found, it is truthy, and
    calling its [push] throws a [TypeError] ([None]); only otherwise is a
    new entry created. *)
Fixpoint push_group (ft : string) (r : Report)
  (g : list (string * list Report)) : option (list (string * list Report)) :=
  match g with
  | [] => if inherited ft then None else Some [(ft, [r])]
  | (k, rs) :: tl =>
      if (k =? ft)%string then Some ((k, rs ++ [r]) :: tl)
      else option_map (cons (k, rs)) (push_group ft r tl)
  end.

(** The grouping loop over the rows of the consensus query. *)
Definition fuelTypeReports (rs : list Report)
  : option (list (string * list Report)) :=
  fold_left (fun acc r =>
               match acc with
               | Some g => push_group (fuel_type r) r g
               | None => None
               end) rs (Some []).

(** The message of the [TypeError] the grouping loop throws. *)
Definition push_error : string :=
  "fuelTypeReports[r.fuel_type].push is not a function".

(** [new Set(fuelReports.map(r => r.anonymous_user_id)).size] *)
Definition uniqueUsers (fuelReports : list Report) : nat :=
  List.length (nodup string_dec (map anonymous_user_id fuelReports)).

Definition avgScore (fuelReports : list Report) : R :=
  fold_left (fun sum r => sum + or_zero (dve_score r)) fuelReports 0
  / INR (List.length fuelReports).

Definition finalScore (fuelReports : list Report) : R :=
  Rmin 1.0 (avgScore fuelReports + CONSENSUS_BONUS DVE_CONFIG).

(** The body of the loop over [Object.entries(fuelTypeReports)]. *)
Definition consensus_group (now : Z) (sid : string) (db : DB)
  (entry : string * list Report) : DB :=
  let (fuelType, fuelReports) := entry in
  if (MIN_REPORTS_FOR_CONSENSUS DVE_CONFIG <=? uniqueUsers fuelReports)%nat then
    if Rge_dec (finalScore fuelReports) (VERIFICATION_THRESHOLD DVE_CONFIG) then
      let db1 := upsert_verified
        {| vf_station_id := sid;
           vf_fuel_type := fuelType;
           is_available := true;
           confidence_score := finalScore fuelReports;
           verified_by_count := uniqueUsers fuelReports;
           last_verified_at := now |} db in
      fold_left (fun d r => update_verified (report_id r) d) fuelReports db1
    else db
  else db.

(** The consensus block: the message of the error it throws, if any, and
    the store it leaves.  The grouping loop comes before every write, so a
    block that throws leaves the store as it found it. *)
Definition consensus_check (now : Z) (sid : string) (db : DB)
  : option string * DB :=
  let reports := window now sid (crowdsourced_reports db) in
  if (MIN_REPORTS_FOR_CONSENSUS DVE_CONFIG <=? List.length reports)%nat then
    match fuelTypeReports reports with
    | Some groups => (None, fold_left (consensus_group now sid) groups db)
    | None => (Some push_error, db)
    end
  else (None, db).

(** The store after the consensus block. *)
Definition run_consensus (now : Z) (sid : string) (db : DB) : DB :=
  snd (consensus_check now sid db).

(** ** Admin projection *)

(** [.order("timestamp", { ascending: false })]: rows with equal timestamps
    keep their table order. *)
Fixpoint insert_desc (r : Report) (l : list Report) : list Report :=
  match l with
  | [] => [r]
  | x :: tl =>
      if (timestamp x <=? timestamp r)%Z then r :: x :: tl
      else x :: insert_desc r tl
  end.

Definition order_desc (rs : list Report) : list Report :=
  fold_right insert_desc [] rs.

(** The embedded [fuel_stations (name)] of a row. *)
Definition station_name (db : DB) (sid : string) : option string :=
  option_map stn_name (select_station db sid).

Definition admin_reports (db : DB) : list (Report * option string) :=
  map (fun r => (r, station_name db (station_id r)))
      (firstn 100 (order_desc (crowdsourced_reports db))).

Definition admin_verified (db : DB) : list (VerifiedFuel * option string) :=
  map (fun e => (e, station_name db (vf_station_id e))) (verified_fuel_data db).

(** ** The request handler

    The store calls succeed.  The catch-all answer with status 500 is
    produced for the two [TypeError]s of the handler body. *)

Definition json_error (code : nat) (msg : string) : Response :=
  {| status := code; body := BodyError msg |}.

(** [submit_report] once the request is validated and the station
    resolved: lines "Get or create user trust score" to the final response.
    A submitter coordinate is [null] ([None]) or a number. *)
Definition process_report (clk : Clock) (db : DB)
  (sid ft uid : string) (ulat ulon : option R) (slat slon : R) : Response * DB :=
  (* Get or create user trust score *)
  let '(userTrust, db1) :=
    match select_trust db uid with
    | Some t => (trust_score t, db)
    | None =>
        (Some (INITIAL_TRUST_SCORE DVE_CONFIG),
         insert_trust
           {| ts_anonymous_user_id := uid;
              trust_score := Some (INITIAL_TRUST_SCORE DVE_CONFIG) |} db)
    end in
  let trustScore := nullish userTrust (INITIAL_TRUST_SCORE DVE_CONFIG) in
  let timeDecay :=
    calculateTimeDecay (clock_now clk + Z.of_N (clock_lag clk)) (clock_now clk) in
  let locationResult :=
    calculateLocationFactor (ToNumber ulat) (ToNumber ulon) slat slon in
  let '(dveScore, isRejected, rejectionReason) :=
    if negb (isValid locationResult) then
      (0, true,
       Some ("User too far from station (" ++
             toFixed2 (distance locationResult) ++ "km)")%string)
    else
      (trustScore * timeDecay * factor locationResult, false, None) in
  let insertedReport :=
    {| report_id := next_report_id (crowdsourced_reports db1);
       station_id := sid;
       anonymous_user_id := uid;
       fuel_type := ft;
       user_lat := ulat;
       user_lon := ulon;
       timestamp := clock_now clk;
       trust_score_at_submission := Some trustScore;
       time_decay_factor := Some timeDecay;
       location_factor := Some (factor locationResult);
       dve_score := Some dveScore;
       is_verified := false;
       is_rejected := isRejected;
       rejection_reason := rejectionReason |} in
  let db2 := insert_report insertedReport db1 in
  (* Run consensus check *)
  match consensus_check (clock_now clk) sid db2 with
  | (Some message, db3) => (json_error 500 message, db3)
  | (None, db3) =>
      ({| status := 200;
          body := BodySubmit true (Some (report_id insertedReport))
            {| score := dveScore;
               trustScore := trustScore;
               timeDecay := timeDecay;
               locationFactor := factor locationResult;
               isRejected := isRejected;
               rejectionReason := rejectionReason |} |}, db3)
  end.

Definition submit_report (clk : Clock) (db : DB) (report : ReportInput)
  : Response * DB :=
  if negb (truthy_string (in_station_id report)) ||
     negb (truthy_string (in_fuel_type report)) ||
     negb (truthy_string (in_anonymous_user_id report)) ||
     is_undefined (in_user_lat report) ||
     is_undefined (in_user_lon report)
  then (json_error 400 "Missing required fields", db)
  else
    match in_station_id report, in_fuel_type report,
          in_anonymous_user_id report,
          coordinate_value (in_user_lat report),
          coordinate_value (in_user_lon report) with
    | Some sid, Some ft, Some uid, Some ulat, Some ulon =>
        let station := select_station db sid in
        if negb (truthy_number (opt_chain station stn_lat)) ||
           negb (truthy_number (opt_chain station stn_lon))
        then (json_error 404 "Station not found or missing coordinates", db)
        else
          match opt_chain station stn_lat, opt_chain station stn_lon with
          | Some slat, Some slon =>
              process_report clk db sid ft uid ulat ulon slat slon
          | _, _ =>
              (json_error 404 "Station not found or missing coordinates", db)
          end
    | _, _, _, _, _ => (json_error 400 "Missing required fields", db)
    end.

(** The message of the [TypeError] that [report.station_id] throws when
    [report] is [undefined] or [null]. *)
Definition no_report_error (what : string) : string :=
  ("Cannot read properties of " ++ what ++ " (reading 'station_id')")%string.

Definition get_admin_data (db : DB) : Response :=
  {| status := 200;
     body := BodyAdmin (admin_reports db) (user_trust_scores db)
                       (admin_verified db) DVE_CONFIG |}.

Definition serve (clk : Clock) (db : DB) (req : Request) : Response * DB :=
  if (method req =? "OPTIONS")%string then
    ({| status := 200; body := BodyNull |}, db)
  else if (action req =? "submit_report")%string then
    match report_member req with
    | ReportObject members => submit_report clk db members
    | ReportAbsent => (json_error 500 (no_report_error "undefined"), db)
    | ReportNull => (json_error 500 (no_report_error "null"), db)
    end
  else if (action req =? "get_admin_data")%string then
    (get_admin_data db, db)
  else (json_error 400 "Invalid action", db).

(** ** Notions the statements use *)

(** The consensus group of a (station, fuel type) pair: the windowed,
    non-rejected reports of the station that carry the fuel type. *)
Definition consensus_group_of (now : Z) (sid ft : string) (rs : list Report)
  : list Report :=
  filter (fun r => (fuel_type r =? ft)%string) (window now sid rs).

(** The arithmetic mean of a list of numbers. *)
Definition mean (xs : list R) : R :=
  fold_right Rplus 0 xs / INR (List.length xs).

Definition dve_scores (rs : list Report) : list R :=
  map (fun r => or_zero (dve_score r)) rs.

(** The rows [ids] names get [is_verified = true]. *)
Definition mark (ids : list nat) (r : Report) : Report :=
  if existsb (Nat.eqb (report_id r)) ids then set_verified r else r.

(** A group reaches consensus and clears the verification threshold. *)
Definition group_passes (fuelReports : list Report) : bool :=
  (MIN_REPORTS_FOR_CONSENSUS DVE_CONFIG <=? uniqueUsers fuelReports)%nat &&
  (if Rge_dec (finalScore fuelReports) (VERIFICATION_THRESHOLD DVE_CONFIG)
   then true else false).

(** The Verified Fuel Entry a passing group is published as. *)
Definition consensus_entry (now : Z) (sid ft : string) (fuelReports : list Report)
  : VerifiedFuel :=
  {| vf_station_id := sid;
     vf_fuel_type := ft;
     is_available := true;
     confidence_score := finalScore fuelReports;
     verified_by_count := uniqueUsers fuelReports;
     last_verified_at := now |}.

(** The identifiers of the reports in the passing groups of a grouping. *)
Definition passing_ids (gs : list (string * list Report)) : list nat :=
  flat_map (fun g => if group_passes (snd g) then map report_id (snd g) else []) gs.

(** Grouping when no key is an inherited name: the entry of the key gets
    the row, or a new entry is added at the end. *)
Fixpoint push_own (ft : string) (r : Report)
  (g : list (string * list Report)) : list (string * list Report) :=
  match g with
  | [] => [(ft, [r])]
  | (k, rs) :: tl =>
      if (k =? ft)%string then (k, rs ++ [r]) :: tl
      else (k, rs) :: push_own ft r tl
  end.

Definition plain_groups (rs : list Report) : list (string * list Report) :=
  fold_left (fun g r => push_own (fuel_type r) r g) rs [].

(** Some row carries a fuel type that names an inherited member. *)
Definition poisoned (rs : list Report) : bool :=
  existsb (fun r => inherited (fuel_type r)) rs.

(** The consensus block of a request for station [sid] at instant [now]
    throws: the query returns at least [MIN_REPORTS_FOR_CONSENSUS] rows and
    one of them is poisoned. *)
Definition consensus_throws (now : Z) (sid : string) (rs : list Report) : bool :=
  (MIN_REPORTS_FOR_CONSENSUS DVE_CONFIG <=? List.length (window now sid rs))%nat &&
  poisoned (window now sid rs).

(** The identifiers a consensus run flags as verified. *)
Definition verified_ids (now : Z) (sid : string) (rs : list Report) : list nat :=
  if (MIN_REPORTS_FOR_CONSENSUS DVE_CONFIG <=? List.length (window now sid rs))%nat &&
     negb (poisoned (window now sid rs))
  then passing_ids (plain_groups (window now sid rs))
  else [].

(** The trust score [submit_report] scores a submitter with. *)
Definition trust_for (db : DB) (uid : string) : R :=
  match select_trust db uid with
  | Some t => nullish (trust_score t) (INITIAL_TRUST_SCORE DVE_CONFIG)
  | None => INITIAL_TRUST_SCORE DVE_CONFIG
  end.

(** The store once the submitter's trust row exists. *)
Definition ensure_trust (db : DB) (uid : string) : DB :=
  match select_trust db uid with
  | Some _ => db
  | None =>
      insert_trust {| ts_anonymous_user_id := uid;
                      trust_score := Some (INITIAL_TRUST_SCORE DVE_CONFIG) |} db
  end.

(** The row [submit_report] inserts for a validated request whose
    submitter coordinates are [ulat], [ulon], each [null] or a number. *)
Definition scored_row (clk : Clock) (db : DB)
  (sid ft uid : string) (ulat ulon : option R) (slat slon : R) : Report :=
  let timeDecay :=
    calculateTimeDecay (clock_now clk + Z.of_N (clock_lag clk)) (clock_now clk) in
  let loc := calculateLocationFactor (ToNumber ulat) (ToNumber ulon) slat slon in
  {| report_id := next_report_id (crowdsourced_reports db);
     station_id := sid;
     anonymous_user_id := uid;
     fuel_type := ft;
     user_lat := ulat;
     user_lon := ulon;
     timestamp := clock_now clk;
     trust_score_at_submission := Some (trust_for db uid);
     time_decay_factor := Some timeDecay;
     location_factor := Some (factor loc);
     dve_score :=
       Some (if isValid loc then trust_for db uid * timeDecay * factor loc else 0);
     is_verified := false;
     is_rejected := negb (isValid loc);
     rejection_reason :=
       if isValid loc then None
       else Some ("User too far from station (" ++
                  toFixed2 (distance loc) ++ "km)")%string |}.

(** The same for coordinates that are numbers. *)
Definition scored_report (clk : Clock) (db : DB)
  (sid ft uid : string) (ulat ulon slat slon : R) : Report :=
  scored_row clk db sid ft uid (Some ulat) (Some ulon) slat slon.

(** The response that reports an inserted row back. *)
Definition submit_response (r : Report) : Response :=
  {| status := 200;
     body := BodySubmit true (Some (report_id r))
       {| score := or_zero (dve_score r);
          trustScore := or_zero (trust_score_at_submission r);
          timeDecay := or_zero (time_decay_factor r);
          locationFactor := or_zero (location_factor r);
          isRejected := is_rejected r;
          rejectionReason := rejection_reason r |} |}.

(** The response to a submission whose row is [r]: the error of the
    consensus block when it throws, else the row reported back. *)
Definition submission_response (now : Z) (sid : string) (rs : list Report)
  (r : Report) : Response :=
  if consensus_throws now sid rs then json_error 500 push_error
  else submit_response r.

(** A request whose five required members are present and truthy. *)
Definition valid_request (sid ft uid : string) (ulat ulon : R) : Request :=
  {| method := "POST";
     action := "submit_report";
     report_member :=
       ReportObject {| in_station_id := Some sid;
                       in_fuel_type := Some ft;
                       in_anonymous_user_id := Some uid;
                       in_user_lat := CoordNumber ulat;
                       in_user_lon := CoordNumber ulon |} |}.

(** [req] is a [submit_report] request that passes validation, with the
    submitter coordinates [ulat], [ulon] ([null] or a number), and resolves
    to a station with the coordinates [slat], [slon]. *)
Definition validated_input (db : DB) (req : Request)
  (sid ft uid : string) (ulat ulon : option R) (slat slon : R) : Prop :=
  method req <> "OPTIONS"%string /\
  action req = "submit_report"%string /\
  in_station_id (report req) = Some sid /\
  in_fuel_type (report req) = Some ft /\
  in_anonymous_user_id (report req) = Some uid /\
  coordinate_value (in_user_lat (report req)) = Some ulat /\
  coordinate_value (in_user_lon (report req)) = Some ulon /\
  sid <> ""%string /\ ft <> ""%string /\ uid <> ""%string /\
  (exists stn, select_station db sid = Some stn /\
               stn_lat stn = Some slat /\ stn_lon stn = Some slon) /\
  slat <> 0 /\ slon <> 0.

(** The same for submitter coordinates that are numbers. *)
Definition accepted_input (db : DB) (req : Request)
  (sid ft uid : string) (ulat ulon slat slon : R) : Prop :=
  validated_input db req sid ft uid (Some ulat) (Some ulon) slat slon.

(** Every stored trust score lies in [[MIN_TRUST_SCORE, MAX_TRUST_SCORE]]. *)
Definition trust_in_range (db : DB) : Prop :=
  Forall (fun t => forall x, trust_score t = Some x ->
                   MIN_TRUST_SCORE DVE_CONFIG <= x <= MAX_TRUST_SCORE DVE_CONFIG)
         (user_trust_scores db).

(** Every stored report has a [dve_score] in [[0, 1]]. *)
Definition scores_in_range (db : DB) : Prop :=
  Forall (fun r => exists v, dve_score r = Some v /\ 0 <= v <= 1)
         (crowdsourced_reports db).

(** The five required members of [req] are present and not empty. *)
Definition required_fields (req : Request) (sid : string) : Prop :=
  method req <> "OPTIONS"%string /\
  action req = "submit_report"%string /\
  in_station_id (report req) = Some sid /\
  truthy_string (in_station_id (report req)) = true /\
  truthy_string (in_fuel_type (report req)) = true /\
  truthy_string (in_anonymous_user_id (report req)) = true /\
  is_undefined (in_user_lat (report req)) = false /\
  is_undefined (in_user_lon (report req)) = false.

(** ** Example data *)

Definition pune_station : Station :=
  {| stn_id := "S1"; stn_name := "Pune Central";
     stn_lat := Some 18.5204; stn_lon := Some 73.8567 |}.

(** A station on the equator. *)
Definition equator_station : Station :=
  {| stn_id := "S0"; stn_name := "Equator"; stn_lat := Some 0; stn_lon := Some 73.8567 |}.

(** A station whose coordinates were never filled in. *)
Definition blank_station : Station :=
  {| stn_id := "S2"; stn_name := "Blank"; stn_lat := None; stn_lon := None |}.

Definition empty_db : DB :=
  {| fuel_stations := [pune_station; equator_station; blank_station];
     user_trust_scores := [];
     crowdsourced_reports := [];
     verified_fuel_data := [] |}.

(** The latitude of the point 3 km due south of [pune_station]. *)
Definition three_km_south : R := 18.5204 - 540 / (6371 * PI).

Definition noon : Clock := {| clock_now := 1000; clock_lag := 0 |}.

(** A pending Diesel report for [pune_station], submitted at the station
    at the instant [ts] by a submitter of trust [trust]. *)
Definition pune_row (rid : nat) (uid : string) (ts : Z) (trust : R) : Report :=
  {| report_id := rid;
     station_id := "S1";
     anonymous_user_id := uid;
     fuel_type := "Diesel";
     user_lat := Some 18.5204;
     user_lon := Some 73.8567;
     timestamp := ts;
     trust_score_at_submission := Some trust;
     time_decay_factor := Some 1;
     location_factor := Some 1.0;
     dve_score := Some (trust * 1 * 1.0);
     is_verified := false;
     is_rejected := false;
     rejection_reason := None |}.

(** The store after a submitter of trust 0.6 has reported Diesel once. *)
Definition one_report_db : DB :=
  {| fuel_stations := fuel_stations empty_db;
     user_trust_scores :=
       [{| ts_anonymous_user_id := "u1"; trust_score := Some 0.6 |}];
     crowdsourced_reports := [pune_row 1 "u1" 0 0.6];
     verified_fuel_data := [] |}.

Definition at_station (now : Z) : Clock := {| clock_now := now; clock_lag := 0 |}.

Definition diesel_at_station (uid : string) : Request :=
  valid_request "S1" "Diesel" uid 18.5204 73.8567.

(** The store after a new submitter has reported Diesel once: the ledger
    holds the row the engine created for them. *)
Definition first_report_db : DB :=
  {| fuel_stations := fuel_stations empty_db;
     user_trust_scores :=
       [{| ts_anonymous_user_id := "u1"; trust_score := Some 0.5 |}];
     crowdsourced_reports := [pune_row 1 "u1" 0 0.5];
     verified_fuel_data := [] |}.

(** The store before anyone has reported: one submitter is already known
    with trust 0.6. *)
Definition seeded_db : DB :=
  {| fuel_stations := fuel_stations empty_db;
     user_trust_scores :=
       [{| ts_anonymous_user_id := "u1"; trust_score := Some 0.6 |}];
     crowdsourced_reports := [];
     verified_fuel_data := [] |}.

(** The store after a second submitter has confirmed the Diesel report. *)
Definition two_report_db : DB :=
  snd (serve (at_station 1000) one_report_db (diesel_at_station "u2")).

(** Three known submitters of low trust, and no report yet. *)
Definition low_trust_db : DB :=
  {| fuel_stations := fuel_stations empty_db;
     user_trust_scores :=
       [{| ts_anonymous_user_id := "u1"; trust_score := Some 0.1 |};
        {| ts_anonymous_user_id := "u2"; trust_score := Some 0.2 |};
        {| ts_anonymous_user_id := "u3"; trust_score := Some 0.25 |}];
     crowdsourced_reports := [];
     verified_fuel_data := [] |}.

Definition hour : Z := 3600000.

(** The store after the three have each reported Diesel at the station, an
    hour apart.  Their mean score stays under 0.2: nothing is verified. *)
Definition pending_db : DB :=
  {| fuel_stations := fuel_stations empty_db;
     user_trust_scores := user_trust_scores low_trust_db;
     crowdsourced_reports :=
       [pune_row 1 "u1" 0 0.1;
        pune_row 2 "u2" hour 0.2;
        pune_row 3 "u3" (2 * hour) 0.25];
     verified_fuel_data := [] |}.

(** A pending report for [pune_station] whose fuel type is the name of a
    member every object inherits. *)
Definition poison_row (rid : nat) (uid : string) (ts : Z) (trust : R) : Report :=
  {| report_id := rid;
     station_id := "S1";
     anonymous_user_id := uid;
     fuel_type := "toString";
     user_lat := Some 18.5204;
     user_lon := Some 73.8567;
     timestamp := ts;
     trust_score_at_submission := Some trust;
     time_decay_factor := Some 1;
     location_factor := Some 1.0;
     dve_score := Some (trust * 1 * 1.0);
     is_verified := false;
     is_rejected := false;
     rejection_reason := None |}.

(** A submission at the station that names the fuel type [toString]. *)
Definition poison_request (uid : string) : Request :=
  valid_request "S1" "toString" uid 18.5204 73.8567.

(** The store after a submitter of trust 0.6 has reported Diesel and a new
    submitter has then reported the fuel type [toString]. *)
Definition poisoned_db : DB :=
  {| fuel_stations := fuel_stations empty_db;
     user_trust_scores :=
       [{| ts_anonymous_user_id := "u1"; trust_score := Some 0.6 |};
        {| ts_anonymous_user_id := "u9";
           trust_score := Some (INITIAL_TRUST_SCORE DVE_CONFIG) |}];
     crowdsourced_reports :=
       [pune_row 1 "u1" 0 0.6;
        poison_row 2 "u9" 500 (INITIAL_TRUST_SCORE DVE_CONFIG)];
     verified_fuel_data := [] |}.

(** A submission from 3 km south of the station. *)
Definition far_request (uid : string) : Request :=
  valid_request "S1" "Diesel" uid three_km_south 73.8567.

(** The reading of "a rejected submission changes no Verified Fuel Entry and
    no stored report": the verified table is the same and every stored row
    is still there as it was. *)
Definition rejected_submission_is_inert : Prop :=
  forall (clk : Clock) (db db' : DB) (req : Request) (resp : Response),
    serve clk db req = (resp, db') ->
    (exists rid res, body resp = BodySubmit true rid res /\ isRejected res = true) ->
    verified_fuel_data db' = verified_fuel_data db /\
    (forall r, In r (crowdsourced_reports db) -> In r (crowdsourced_reports db')).

(** A request lacks one of the five fields: an identifier is absent or
    [null], or a coordinate is not a number.  A body without a [report]
    object lacks all five. *)
Definition lacks_field (req : Request) : Prop :=
  in_station_id (report req) = None \/
  in_fuel_type (report req) = None \/
  in_anonymous_user_id (report req) = None \/
  (forall x, in_user_lat (report req) <> CoordNumber x) \/
  (forall x, in_user_lon (report req) <> CoordNumber x).

(** The reading of "every [submit_report] request missing a field gets a
    client error and persists nothing". *)
Definition missing_field_is_client_error : Prop :=
  forall (clk : Clock) (db : DB) (req : Request),
    method req <> "OPTIONS"%string ->
    action req = "submit_report"%string ->
    lacks_field req ->
    status (fst (serve clk db req)) = 400%nat /\ snd (serve clk db req) = db.

(** The reading of "a group that reaches consensus with a confidence of at
    least the threshold is published": after a validated submission, a
    (station, fuel type) whose group has two distinct submitters and a
    confidence of at least [VERIFICATION_THRESHOLD] has an entry. *)
Definition passing_group_is_published : Prop :=
  forall (clk : Clock) (db : DB) (req : Request)
         (sid ft uid : string) (ulat ulon : option R) (slat slon : R)
         (fuelType : string),
    validated_input db req sid ft uid ulat ulon slat slon ->
    let db' := snd (serve clk db req) in
    let grp :=
      consensus_group_of (clock_now clk) sid fuelType (crowdsourced_reports db') in
    (MIN_REPORTS_FOR_CONSENSUS DVE_CONFIG <= uniqueUsers grp)%nat ->
    Rmin 1.0 (mean (dve_scores grp) + CONSENSUS_BONUS DVE_CONFIG)
      >= VERIFICATION_THRESHOLD DVE_CONFIG ->
    exists e, find_verified sid fuelType db' = Some e.

(** The reading of "the caller of a rejected submission receives a
    successful response". *)
Definition rejection_is_success : Prop :=
  forall (clk : Clock) (db : DB) (req : Request)
         (sid ft uid : string) (ulat ulon : option R) (slat slon : R),
    validated_input db req sid ft uid ulat ulon slat slon ->
    isValid (calculateLocationFactor (ToNumber ulat) (ToNumber ulon) slat slon)
      = false ->
    status (fst (serve clk db req)) = 200%nat.

(** A submission for [pune_station] from its longitude, with the latitude
    given as [null]. *)
Definition null_latitude_request : Request :=
  {| method := "POST";
     action := "submit_report";
     report_member :=
       ReportObject {| in_station_id := Some "S1"%string;
                       in_fuel_type := Some "Diesel"%string;
                       in_anonymous_user_id := Some "u1"%string;
                       in_user_lat := CoordNull;
                       in_user_lon := CoordNumber 73.8567 |} |}.

(** A [submit_report] body without a [report] member. *)
Definition bare_request : Request :=
  {| method := "POST"; action := "submit_report"; report_member := ReportAbsent |}.

(** A store with 101 reports, one per millisecond from instant 1 on. *)
Definition crowded_db : DB :=
  {| fuel_stations := fuel_stations empty_db;
     user_trust_scores :=
       [{| ts_anonymous_user_id := "u1"; trust_score := Some 0.5 |}];
     crowdsourced_reports :=
       map (fun i => pune_row i "u1" (Z.of_nat i) 0.5) (seq 1 101);
     verified_fuel_data := [] |}.

(** The reading of "each persisted report appears in the returned
    [reports[]] array". *)
Definition admin_returns_every_report : Prop :=
  forall (db : DB) (r : Report),
    In r (crowdsourced_reports db) ->
    exists reps ts vs cfg,
      body (get_admin_data db) = BodyAdmin reps ts vs cfg /\
      In r (map fst reps).

(** Newest first. *)
Definition newer_first (a b : Report) : Prop := (timestamp b <= timestamp a)%Z.

(** ** Store invariants *)

(** No two stored reports share an identifier. *)
Definition report_ids_unique (db : DB) : Prop :=
  NoDup (map report_id (crowdsourced_reports db)).

(** No stored report is both rejected and verified. *)
Definition flags_exclusive (db : DB) : Prop :=
  Forall (fun r => is_rejected r = true -> is_verified r = false)
         (crowdsourced_reports db).

Definition vf_key (e : VerifiedFuel) : string * string :=
  (vf_station_id e, vf_fuel_type e).

(** At most one Verified Fuel Entry per (station, fuel type). *)
Definition verified_keys_unique (db : DB) : Prop :=
  NoDup (map vf_key (verified_fuel_data db)).

(** Every Verified Fuel Entry says "available", counts at least
    [MIN_REPORTS_FOR_CONSENSUS] submitters and has a confidence between
    [VERIFICATION_THRESHOLD] and 1. *)
Definition entries_well_formed (db : DB) : Prop :=
  Forall (fun e => is_available e = true /\
                   (MIN_REPORTS_FOR_CONSENSUS DVE_CONFIG <= verified_by_count e)%nat /\
                   VERIFICATION_THRESHOLD DVE_CONFIG <= confidence_score e <= 1)
         (verified_fuel_data db).

(** A stored row after a request: as it was, or flagged verified. *)
Definition kept_or_flagged (r r' : Report) : Prop :=
  r' = r \/ r' = set_verified r.

(** The upserts of a consensus run, on the verified table alone. *)
Definition upsert_passing (now : Z) (sid : string)
  (gs : list (string * list Report)) (tbl : list VerifiedFuel) : list VerifiedFuel :=
  fold_left (fun t g => if group_passes (snd g)
                        then upsert (consensus_entry now sid (fst g) (snd g)) t
                        else t) gs tbl.

(** A grouping with every row marked. *)
Definition mark_groups (ids : list nat) (gs : list (string * list Report))
  : list (string * list Report) :=
  map (fun g => (fst g, map (mark ids) (snd g))) gs.

(** ** The station file reader

    [parseCSVLine] of the static station data: a line is read character by
    character; the function compares characters with the double quote and
    the comma only. *)

Definition dquote : ascii := "034"%char.

Definition comma : ascii := ","%char.

(** The loop of [parseCSVLine], from the state ([result], [current],
    [inQuotes]) over the characters left. *)
Fixpoint parseCSVLine_from (line : string) (result : list string)
  (current : string) (inQuotes : bool) : list string :=
  match line with
  | EmptyString => result ++ [current]
  | String char rest =>
      if (char =? dquote)%char then
        parseCSVLine_from rest result current (negb inQuotes)
      else if (char =? comma)%char && negb inQuotes then
        parseCSVLine_from rest (result ++ [current]) EmptyString inQuotes
      else
        parseCSVLine_from rest result (current ++ String char EmptyString) inQuotes
  end.

Definition parseCSVLine (line : string) : list string :=
  parseCSVLine_from line [] EmptyString false.

(** The characters of a string. *)
Fixpoint has_char (c : ascii) (s : string) : bool :=
  match s with
  | EmptyString => false
  | String a rest => (a =? c)%char || has_char c rest
  end.

Fixpoint count_char (c : ascii) (s : string) : nat :=
  match s with
  | EmptyString => 0
  | String a rest => (if (a =? c)%char then 1 else 0) + count_char c rest
  end.

(** [parseCSV] of the station file.  [String.prototype.trim] and
    [parseFloat] are taken as given functions; [parseFloat] yields [None]
    for [NaN]. *)

Record PumpData := {
  pd_id : nat;
  pumpId : string;
  pd_name : string;
  brand : string;
  address : string;
  review : string;
  rating : R;
  city : string;
  state : string;
  pd_lat : option R;
  pd_lon : option R;
  e20 : bool;
  e10 : bool;
  pure : bool;
  diesel : bool;
  cng : bool;
  washroom : bool;
  airPuncture : bool;
  servicesRating : R;
  staffRating : R;
  evCharging : bool
}.

Definition newline : ascii := "010"%char.

(** [s.split("\n")], from the piece [current] read so far. *)
Fixpoint split_lines_from (s current : string) : list string :=
  match s with
  | EmptyString => [current]
  | String c rest =>
      if (c =? newline)%char then current :: split_lines_from rest EmptyString
      else split_lines_from rest (current ++ String c EmptyString)
  end.

Definition split_lines (s : string) : list string := split_lines_from s EmptyString.

(** [Math.round] *)
Definition Math_round (x : R) : R := IZR (Zfloor (x + / 2)).

(** [parseFloat(s) || 4] *)
Definition rating_or_4 (parseFloat : string -> option R) (s : string) : R :=
  match parseFloat s with
  | Some v => if Req_dec_T v 0 then 4 else v
  | None => 4
  end.

(** The body of the loop of [parseCSV] for the line of index [i]: the pumps
    it pushes, none or one. *)
Definition parseCSV_row (trim : string -> string)
  (parseFloat : string -> option R) (i : nat) (raw : string) : list PumpData :=
  let line := trim raw in
  if (line =? "")%string then []
  else
    let values := parseCSVLine line in
    if (9 <=? List.length values)%nat then
      match values with
      | f_pumpId :: f_name :: f_brand :: f_review :: f_rating :: f_city ::
        f_state :: f_lat :: f_lon :: _ =>
          [{| pd_id := i;
              pumpId := trim f_pumpId;
              pd_name := trim f_name;
              brand := trim f_brand;
              address := (trim f_city ++ ", " ++ trim f_state)%string;
              review := trim f_review;
              rating := rating_or_4 parseFloat f_rating;
              city := trim f_city;
              state := trim f_state;
              pd_lat := parseFloat f_lat;
              pd_lon := parseFloat f_lon;
              e20 := false;
              e10 := false;
              pure := true;
              diesel := true;
              cng := false;
              washroom := false;
              airPuncture := false;
              servicesRating := Math_round (rating_or_4 parseFloat f_rating);
              staffRating := Math_round (rating_or_4 parseFloat f_rating);
              evCharging := false |}]
      | _ => []
      end
    else [].

(** The loop from index [i] over the lines left. *)
Fixpoint parseCSV_from (trim : string -> string)
  (parseFloat : string -> option R) (i : nat) (lines : list string)
  : list PumpData :=
  match lines with
  | [] => []
  | raw :: rest =>
      parseCSV_row trim parseFloat i raw ++
      parseCSV_from trim parseFloat (S i) rest
  end.

Definition parseCSV (trim : string -> string)
  (parseFloat : string -> option R) (csvText : string) : list PumpData :=
  let lines := split_lines (trim csvText) in
  parseCSV_from trim parseFloat 1 (skipn 1 lines).

(** ** The report form

    The state [handleSubmit] of the report dialog reads, and the request it
    sends; [None] when it stops at the "Missing Information" notice. *)

Record ReportForm := {
  selectedStation : string;
  fuelType : string;
  anonymousUserId : string;
  userLocation : option (R * R)
}.

Definition handleSubmit (form : ReportForm) : option Request :=
  if negb (truthy_string (Some (selectedStation form))) ||
     negb (truthy_string (Some (fuelType form))) ||
     negb (is_some (userLocation form))
  then None
  else
    match userLocation form with
    | Some (lat, lon) =>
        Some {| method := "POST";
                action := "submit_report";
                report_member :=
                  ReportObject
                    {| in_station_id := Some (selectedStation form);
                       in_fuel_type := Some (fuelType form);
                       in_anonymous_user_id := Some (anonymousUserId form);
                       in_user_lat := CoordNumber lat;
                       in_user_lon := CoordNumber lon |} |}
    | None => None
    end.

(** Every trust row reads as [INITIAL_TRUST_SCORE]: the ledger holds only
    rows the engine created. *)
Definition ledger_at_initial (db : DB) : Prop :=
  Forall (fun t => nullish (trust_score t) (INITIAL_TRUST_SCORE DVE_CONFIG)
                   = INITIAL_TRUST_SCORE DVE_CONFIG)
         (user_trust_scores db).

(** No stored score is above 0.5 or below 0. *)
Definition scores_at_most_half (db : DB) : Prop :=
  Forall (fun r => 0 <= or_zero (dve_score r) <= 0.5) (crowdsourced_reports db).

(** No published confidence is above 0.7. *)
Definition confidence_at_most_07 (db : DB) : Prop :=
  Forall (fun e => confidence_score e <= 0.7) (verified_fuel_data db).

(** ** Facts on the geospatial utility *)

Lemma atan2_pos_x (y x : R) : 0 < x -> atan2 y x = atan (y / x).
Proof.
  intros Hx. unfold atan2. destruct (Rlt_dec 0 x); [reflexivity | contradiction].
Qed.

(** Along a meridian the haversine formula returns the arc length. *)
Lemma calculateDistance_meridian (lat1 lat2 lon : R) :
  0 <= (lat2 - lat1) * (PI / 180) < PI ->
  calculateDistance lat1 lon lat2 lon = 6371 * ((lat2 - lat1) * (PI / 180)).
Proof.
  intros Hd. unfold calculateDistance.
  set (h := (lat2 - lat1) * (PI / 180) / 2).
  assert (Hh : 0 <= h < PI / 2) by (unfold h; lra).
  replace ((lon - lon) * (PI / 180) / 2) with 0 by lra.
  rewrite sin_0.
  assert (Hs : 0 <= sin h) by (apply sin_ge_0; lra).
  assert (Hc : 0 < cos h) by (apply cos_gt_0; lra).
  replace (sin h * sin h + _ * 0 * 0) with (sin h * sin h) by lra.
  rewrite (sqrt_square (sin h) Hs).
  replace (1 - sin h * sin h) with (cos h * cos h).
  2:{ generalize (sin2_cos2 h). unfold Rsqr. lra. }
  rewrite (sqrt_square (cos h)) by lra.
  rewrite atan2_pos_x by exact Hc.
  change (sin h / cos h) with (tan h).
  rewrite atan_tan by lra.
  unfold h. lra.
Qed.




Lemma atan2_quadrant (y x : R) : 0 <= y -> 0 <= x -> atan2 y x <= PI / 2.
Proof.
  intros Hy Hx. generalize PI_RGT_0; intros HPI. unfold atan2.
  destruct (Rlt_dec 0 x).
  - generalize (atan_bound (y / x)). lra.
  - destruct (Rlt_dec x 0); [lra |].
    destruct (Rlt_dec 0 y); [lra |].
    destruct (Rlt_dec y 0); lra.
Qed.

(** A distance is at most half the circumference of the Earth. *)
Lemma calculateDistance_upper (lat1 lon1 lat2 lon2 : R) :
  calculateDistance lat1 lon1 lat2 lon2 <= 6371 * PI.
Proof.
  unfold calculateDistance.
  match goal with
  | |- context [atan2 (sqrt ?a) (sqrt ?b)] =>
      generalize (atan2_quadrant (sqrt a) (sqrt b) (sqrt_pos a) (sqrt_pos b))
  end.
  lra.
Qed.

Lemma calculateDistance_same (lat lon : R) :
  calculateDistance lat lon lat lon = 0.
Proof.
  rewrite calculateDistance_meridian.
  - lra.
  - generalize PI_RGT_0. lra.
Qed.

(** Unfolds the constants of [DVE_CONFIG]. *)
Ltac unfold_config :=
  cbn [DVE_CONFIG INITIAL_TRUST_SCORE TRUST_INCREMENT TRUST_DECREMENT
       MIN_TRUST_SCORE MAX_TRUST_SCORE TIME_DECAY_HALF_LIFE
       MAX_REPORT_AGE_HOURS MAX_DISTANCE_KM OPTIMAL_DISTANCE_KM
       MIN_REPORTS_FOR_CONSENSUS CONSENSUS_THRESHOLD CONSENSUS_BONUS
       VERIFICATION_THRESHOLD] in *.

Lemma PI_bounds : 3 < PI <= 4.
Proof. generalize PI2_3_2 PI_4. lra. Qed.

(** A point [deg] degrees south of the station, on its meridian. *)
Lemma calculateDistance_south (slat slon deg : R) :
  0 <= deg < 180 ->
  calculateDistance (slat - deg) slon slat slon = 6371 * (deg * (PI / 180)).
Proof.
  intros Hd. generalize PI_bounds; intros HPI.
  rewrite calculateDistance_meridian.
  - f_equal. lra.
  - replace (slat - (slat - deg)) with deg by lra. split.
    + apply Rmult_le_pos; lra.
    + apply Rmult_lt_reg_r with (180 / PI).
      * apply Rdiv_lt_0_compat; lra.
      * field_simplify; lra.
Qed.

(** ** Facts on the temporal decay model *)

Lemma ln_half_neg : ln 0.5 < 0.
Proof.
  rewrite <- ln_1. apply ln_increasing; lra.
Qed.

Lemma Rpower_half_decreasing (x y : R) : x < y -> Rpower 0.5 y < Rpower 0.5 x.
Proof.
  intros Hxy. unfold Rpower. apply exp_increasing.
  generalize ln_half_neg. intros Hln. nra.
Qed.

Lemma Rpower_half_range (x : R) : 0 <= x -> 0 < Rpower 0.5 x <= 1.
Proof.
  intros Hx. split.
  - unfold Rpower. apply exp_pos.
  - destruct Hx as [Hx | Hx].
    + left. rewrite <- (Rpower_O 0.5) by lra. now apply Rpower_half_decreasing.
    + subst x. right. apply Rpower_O. lra.
Qed.

Lemma calculateTimeDecay_young (dateNow ts : Z) :
  ageHours dateNow ts <= 168 ->
  calculateTimeDecay dateNow ts = Rpower 0.5 (ageHours dateNow ts / 24).
Proof.
  intros Ha. unfold calculateTimeDecay. cbn [MAX_REPORT_AGE_HOURS DVE_CONFIG TIME_DECAY_HALF_LIFE].
  destruct (Rgt_dec (ageHours dateNow ts) 168); [lra | reflexivity].
Qed.

Lemma calculateTimeDecay_stale (dateNow ts : Z) :
  ageHours dateNow ts > 168 -> calculateTimeDecay dateNow ts = 0.
Proof.
  intros Ha. unfold calculateTimeDecay. cbn [MAX_REPORT_AGE_HOURS DVE_CONFIG TIME_DECAY_HALF_LIFE].
  destruct (Rgt_dec (ageHours dateNow ts) 168); [reflexivity | lra].
Qed.

Lemma ageHours_lag (now : Z) (lag : N) : 0 <= ageHours (now + Z.of_N lag) now.
Proof.
  unfold ageHours, MS_PER_HOUR.
  replace (now + Z.of_N lag - now)%Z with (Z.of_N lag) by lia.
  apply Rmult_le_pos.
  - apply IZR_le. lia.
  - left. apply Rinv_0_lt_compat. apply IZR_lt. lia.
Qed.

(** The decay factor of a report scored at the instant it is created. *)
Lemma calculateTimeDecay_lag_range (now : Z) (lag : N) :
  0 <= calculateTimeDecay (now + Z.of_N lag) now <= 1.
Proof.
  generalize (ageHours_lag now lag). intros Hage.
  destruct (Rle_dec (ageHours (now + Z.of_N lag) now) 168) as [Hle | Hgt].
  - rewrite calculateTimeDecay_young by exact Hle.
    destruct (Rpower_half_range (ageHours (now + Z.of_N lag) now / 24)) as [H0 H1].
    + lra.
    + lra.
  - rewrite calculateTimeDecay_stale by lra. lra.
Qed.

(** C5. For a report of age [a] hours: when [a <= 168] the decay is
    [0.5 ^ (a / 24)], it is [1] at [a = 0] and strictly decreasing in the
    age on that range; when [a > 168] the decay is [0]. *)
Theorem time_decay_spec (dateNow ts : Z) :
  let a := ageHours dateNow ts in
  (a <= IZR (MAX_REPORT_AGE_HOURS DVE_CONFIG) ->
     calculateTimeDecay dateNow ts =
     Rpower 0.5 (a / TIME_DECAY_HALF_LIFE DVE_CONFIG)) /\
  (a = 0 -> calculateTimeDecay dateNow ts = 1) /\
  (forall dateNow' ts' : Z,
     a < ageHours dateNow' ts' <= IZR (MAX_REPORT_AGE_HOURS DVE_CONFIG) ->
     calculateTimeDecay dateNow' ts' < calculateTimeDecay dateNow ts) /\
  (a > IZR (MAX_REPORT_AGE_HOURS DVE_CONFIG) ->
     calculateTimeDecay dateNow ts = 0).
Proof.
  cbn zeta. cbn [MAX_REPORT_AGE_HOURS DVE_CONFIG TIME_DECAY_HALF_LIFE].
  repeat split.
  - apply calculateTimeDecay_young.
  - intros H0. rewrite calculateTimeDecay_young by lra.
    rewrite H0. replace (0 / 24) with 0 by lra. apply Rpower_O. lra.
  - intros dateNow' ts' [Hlt Hle].
    rewrite !calculateTimeDecay_young by lra.
    apply Rpower_half_decreasing. lra.
  - apply calculateTimeDecay_stale.
Qed.

Lemma time_decay_spec_witness :
  calculateTimeDecay 3600000 0 = Rpower 0.5 (ageHours 3600000 0 / 24) /\
  calculateTimeDecay 0 0 = 1 /\
  calculateTimeDecay 7200000 0 < calculateTimeDecay 3600000 0 /\
  calculateTimeDecay 608400000 0 = 0.
Proof.
  assert (H1 : ageHours 3600000 0 = 1) by (unfold ageHours, MS_PER_HOUR; simpl; lra).
  assert (H2 : ageHours 7200000 0 = 2) by (unfold ageHours, MS_PER_HOUR; simpl; lra).
  assert (H0 : ageHours 0 0 = 0) by (unfold ageHours, MS_PER_HOUR; simpl; lra).
  assert (H169 : ageHours 608400000 0 = 169) by (unfold ageHours, MS_PER_HOUR; simpl; lra).
  repeat split.
  - apply (time_decay_spec 3600000 0). rewrite H1. simpl. lra.
  - apply (time_decay_spec 0 0). exact H0.
  - apply (time_decay_spec 3600000 0). rewrite H1, H2. simpl. lra.
  - apply (time_decay_spec 608400000 0). rewrite H169. simpl. lra.
Defined.

(** ** Facts on the location trust model *)

Lemma calculateLocationFactor_distance (userLat userLon stationLat stationLon : R) :
  distance (calculateLocationFactor userLat userLon stationLat stationLon) =
  calculateDistance userLat userLon stationLat stationLon.
Proof.
  unfold calculateLocationFactor.
  destruct (Rgt_dec _ _); [reflexivity |].
  destruct (Rle_dec _ _); reflexivity.
Qed.

Lemma calculateLocationFactor_far (userLat userLon stationLat stationLon : R) :
  calculateDistance userLat userLon stationLat stationLon > 2 ->
  calculateLocationFactor userLat userLon stationLat stationLon =
  {| factor := 0;
     distance := calculateDistance userLat userLon stationLat stationLon;
     isValid := false |}.
Proof.
  intros Hd. unfold calculateLocationFactor. cbn [MAX_DISTANCE_KM DVE_CONFIG].
  destruct (Rgt_dec _ _); [reflexivity | lra].
Qed.

Lemma calculateLocationFactor_valid_iff (userLat userLon stationLat stationLon : R) :
  isValid (calculateLocationFactor userLat userLon stationLat stationLon) = false <->
  calculateDistance userLat userLon stationLat stationLon > 2.
Proof.
  unfold calculateLocationFactor. cbn [MAX_DISTANCE_KM DVE_CONFIG].
  destruct (Rgt_dec _ _) as [Hgt | Hngt].
  - cbn. split; [intros _; lra | reflexivity].
  - destruct (Rle_dec _ _); cbn; (split; [discriminate | intros; lra]).
Qed.

Lemma calculateLocationFactor_range (userLat userLon stationLat stationLon : R) :
  0 <= factor (calculateLocationFactor userLat userLon stationLat stationLon) <= 1.
Proof.
  unfold calculateLocationFactor.
  cbn [MAX_DISTANCE_KM OPTIMAL_DISTANCE_KM DVE_CONFIG].
  destruct (Rgt_dec _ _) as [Hgt | Hngt]; cbn [factor]; [lra |].
  destruct (Rle_dec _ _) as [Hle | Hnle]; cbn [factor]; [lra |].
  split.
  - apply Rmax_l.
  - apply Rmax_lub; lra.
Qed.



(** ** Facts on grouping by fuel type *)

Lemma filter_none {A : Type} (f : A -> bool) (l : list A) :
  (forall x, In x l -> f x = false) -> filter f l = [].
Proof.
  induction l as [| a l IH]; cbn; intros H; [reflexivity |].
  rewrite (H a) by now left. apply IH. intros x Hx. apply H. now right.
Qed.

Lemma push_own_keys (ft : string) (r : Report) (g : list (string * list Report)) (k : string) :
  In k (map fst (push_own ft r g)) <-> In k (map fst g) \/ k = ft.
Proof.
  induction g as [| [k0 rs0] tl IH]; cbn.
  - intuition.
  - destruct (String.eqb_spec k0 ft) as [-> | Hne]; cbn.
    + intuition.
    + rewrite IH. intuition.
Qed.

Lemma push_own_NoDup (ft : string) (r : Report) (g : list (string * list Report)) :
  NoDup (map fst g) -> NoDup (map fst (push_own ft r g)).
Proof.
  induction g as [| [k0 rs0] tl IH]; cbn; intros Hnd.
  - constructor; [intros [] | constructor].
  - inversion Hnd as [| ? ? Hnotin Hnd']; subst.
    destruct (String.eqb_spec k0 ft) as [-> | Hne]; cbn.
    + constructor; assumption.
    + constructor; [| now apply IH].
      rewrite push_own_keys. intros [Hin | Heq]; [contradiction | congruence].
Qed.

Lemma push_own_In (ft : string) (r : Report) (g : list (string * list Report))
  (k : string) (grp : list Report) :
  NoDup (map fst g) ->
  In (k, grp) (push_own ft r g) ->
  (k <> ft /\ In (k, grp) g) \/
  (k = ft /\ exists grp0, In (k, grp0) g /\ grp = grp0 ++ [r]) \/
  (k = ft /\ ~ In ft (map fst g) /\ grp = [r]).
Proof.
  induction g as [| [k0 rs0] tl IH]; cbn; intros Hnd.
  - intros [Heq | []]. inversion Heq; subst. right; right. intuition.
  - inversion Hnd as [| ? ? Hnotin Hnd']; subst.
    destruct (String.eqb_spec k0 ft) as [-> | Hne]; cbn.
    + intros [Heq | Hin].
      * inversion Heq; subst. right; left. split; [reflexivity |].
        exists rs0. split; [now left | reflexivity].
      * left. split; [| now right].
        intros ->. apply Hnotin. apply (in_map fst) in Hin. exact Hin.
    + intros [Heq | Hin].
      * inversion Heq; subst. left. split; [assumption | now left].
      * destruct (IH Hnd' Hin) as [[Hk Hin'] | [[Hk (grp0 & Hin' & Hgrp)] | (Hk & Hnot & Hgrp)]].
        -- left. split; [assumption | now right].
        -- right; left. split; [assumption |]. exists grp0. split; [now right | assumption].
        -- right; right. split; [assumption |]. split; [| assumption].
           intros [Heq | Hin']; [congruence | contradiction].
Qed.

Lemma plain_groups_snoc (rs : list Report) (r : Report) :
  plain_groups (rs ++ [r]) = push_own (fuel_type r) r (plain_groups rs).
Proof.
  unfold plain_groups. rewrite fold_left_app. reflexivity.
Qed.

Lemma plain_groups_NoDup (rs : list Report) :
  NoDup (map fst (plain_groups rs)).
Proof.
  induction rs as [| r rs IH] using rev_ind.
  - constructor.
  - rewrite plain_groups_snoc. now apply push_own_NoDup.
Qed.

Lemma plain_groups_keys (rs : list Report) (k : string) :
  In k (map fst (plain_groups rs)) <-> exists r, In r rs /\ fuel_type r = k.
Proof.
  induction rs as [| r rs IH] using rev_ind.
  - cbn. split; [intros [] | intros (r & [] & _)].
  - rewrite plain_groups_snoc, push_own_keys, IH. split.
    + intros [(x & Hin & Hx) | ->].
      * exists x. split; [apply in_or_app; now left | assumption].
      * exists r. split; [apply in_or_app; right; now left | reflexivity].
    + intros (x & Hin & Hx). apply in_app_or in Hin as [Hin | [-> | []]].
      * left. now exists x.
      * right. now symmetry.
Qed.

(** Each entry of the grouping holds, in table order, exactly the rows that
    carry its fuel type. *)
Lemma plain_groups_In (rs : list Report) (k : string) (grp : list Report) :
  In (k, grp) (plain_groups rs) ->
  grp = filter (fun r => (fuel_type r =? k)%string) rs /\ grp <> [].
Proof.
  revert k grp. induction rs as [| r rs IH] using rev_ind; intros k grp.
  - intros [].
  - rewrite plain_groups_snoc. intros Hin.
    apply push_own_In in Hin; [| apply plain_groups_NoDup].
    rewrite filter_app. cbn [filter].
    destruct Hin as [[Hk Hin] | [[-> (grp0 & Hin & ->)] | (-> & Hnot & ->)]].
    + destruct (IH _ _ Hin) as [-> Hne].
      destruct (String.eqb_spec (fuel_type r) k); [congruence |].
      rewrite app_nil_r. split; [reflexivity | assumption].
    + destruct (IH _ _ Hin) as [-> Hne].
      rewrite String.eqb_refl. split; [reflexivity |].
      intros Habs. apply app_eq_nil in Habs as [_ Habs]. discriminate.
    + rewrite String.eqb_refl. split; [| discriminate].
      replace (filter _ rs) with (@nil Report); [reflexivity |].
      symmetry. apply filter_none. intros x Hx.
      destruct (String.eqb_spec (fuel_type x) (fuel_type r)) as [Heq | Hneq];
        [| reflexivity].
      exfalso. apply Hnot. apply plain_groups_keys. now exists x.
Qed.

(** On a grouping without inherited keys [push_group] throws exactly for an
    inherited key and otherwise groups as [push_own] does. *)
Lemma push_group_plain (ft : string) (r : Report) (g : list (string * list Report)) :
  (forall k, In k (map fst g) -> inherited k = false) ->
  push_group ft r g = if inherited ft then None else Some (push_own ft r g).
Proof.
  induction g as [| [k rs] tl IH]; cbn [push_group push_own]; intros Hg.
  - reflexivity.
  - destruct (String.eqb_spec k ft) as [<- | Hne].
    + rewrite (Hg k) by now left. reflexivity.
    + rewrite IH by (intros k' Hk'; apply Hg; now right).
      destruct (inherited ft); reflexivity.
Qed.

Lemma poisoned_app (rs1 rs2 : list Report) :
  poisoned (rs1 ++ rs2) = poisoned rs1 || poisoned rs2.
Proof. unfold poisoned. apply existsb_app. Qed.

Lemma poisoned_false (rs : list Report) :
  poisoned rs = false <-> forall r, In r rs -> inherited (fuel_type r) = false.
Proof.
  unfold poisoned. split.
  - intros H r Hr. destruct (inherited (fuel_type r)) eqn:Hi; [| reflexivity].
    rewrite <- H. symmetry. apply existsb_exists. now exists r.
  - intros H. destruct (existsb _ rs) eqn:He; [| reflexivity].
    apply existsb_exists in He as (r & Hr & Hi). rewrite (H r Hr) in Hi. discriminate.
Qed.

Lemma fuelTypeReports_snoc (rs : list Report) (r : Report) :
  fuelTypeReports (rs ++ [r]) =
  match fuelTypeReports rs with
  | Some g => push_group (fuel_type r) r g
  | None => None
  end.
Proof. unfold fuelTypeReports. rewrite fold_left_app. reflexivity. Qed.

(** The grouping loop throws exactly on a poisoned list of rows, and
    otherwise builds the plain grouping. *)
Lemma fuelTypeReports_plain (rs : list Report) :
  fuelTypeReports rs = if poisoned rs then None else Some (plain_groups rs).
Proof.
  induction rs as [| r rs IH] using rev_ind; [reflexivity |].
  rewrite fuelTypeReports_snoc, IH, poisoned_app.
  destruct (poisoned rs) eqn:Hp; cbn [orb]; [reflexivity |].
  rewrite push_group_plain.
  - unfold poisoned at 1. cbn [existsb]. rewrite orb_false_r.
    destruct (inherited (fuel_type r)); [reflexivity |].
    now rewrite plain_groups_snoc.
  - intros k Hk. apply plain_groups_keys in Hk as (x & Hx & <-).
    now apply (proj1 (poisoned_false rs)).
Qed.

(** ** Facts on the store operations *)

Lemma same_key_true (s ft : string) (e : VerifiedFuel) :
  same_key s ft e = true <-> vf_station_id e = s /\ vf_fuel_type e = ft.
Proof.
  unfold same_key. rewrite andb_true_iff, !String.eqb_eq. reflexivity.
Qed.

Lemma find_upsert_same (e : VerifiedFuel) (tbl : list VerifiedFuel) :
  find (same_key (vf_station_id e) (vf_fuel_type e)) (upsert e tbl) = Some e.
Proof.
  assert (He : same_key (vf_station_id e) (vf_fuel_type e) e = true)
    by now apply same_key_true.
  induction tbl as [| x tl IH]; cbn.
  - now rewrite He.
  - destruct (same_key _ _ x) eqn:Hx; cbn.
    + now rewrite He.
    + now rewrite Hx.
Qed.

Lemma find_upsert_other (s ft : string) (e : VerifiedFuel) (tbl : list VerifiedFuel) :
  same_key s ft e = false ->
  find (same_key s ft) (upsert e tbl) = find (same_key s ft) tbl.
Proof.
  intros He. induction tbl as [| x tl IH]; cbn.
  - now rewrite He.
  - destruct (same_key (vf_station_id e) (vf_fuel_type e) x) eqn:Hx; cbn.
    + rewrite He. apply same_key_true in Hx as [Hs Hf].
      replace (same_key s ft x) with (same_key s ft e); [now rewrite He |].
      unfold same_key. now rewrite Hs, Hf.
    + destruct (same_key s ft x); [reflexivity | exact IH].
Qed.

Lemma report_id_mark (ids : list nat) (r : Report) :
  report_id (mark ids r) = report_id r.
Proof. unfold mark. destruct (existsb _ ids); reflexivity. Qed.

Lemma mark_nil (r : Report) : mark [] r = r.
Proof. reflexivity. Qed.

Lemma mark_app (l1 l2 : list nat) (r : Report) :
  mark l2 (mark l1 r) = mark (l1 ++ l2) r.
Proof.
  unfold mark at 1. rewrite report_id_mark. unfold mark.
  rewrite existsb_app.
  destruct (existsb _ l1), (existsb _ l2); reflexivity.
Qed.

Lemma map_mark_nil (rs : list Report) : map (mark []) rs = rs.
Proof. apply map_id. Qed.

Lemma map_mark_app (l1 l2 : list nat) (rs : list Report) :
  map (mark l2) (map (mark l1) rs) = map (mark (l1 ++ l2)) rs.
Proof. rewrite map_map. apply map_ext. intros r. apply mark_app. Qed.

(** What a marked row keeps. *)
Lemma mark_cases (ids : list nat) (r : Report) :
  (mark ids r = r /\ existsb (Nat.eqb (report_id r)) ids = false) \/
  (mark ids r = set_verified r /\ In (report_id r) ids).
Proof.
  unfold mark. destruct (existsb _ ids) eqn:He.
  - right. split; [reflexivity |].
    apply existsb_exists in He as (x & Hin & Hx).
    apply Nat.eqb_eq in Hx. now subst.
  - left. split; reflexivity.
Qed.

Lemma mark_In (ids : list nat) (r : Report) :
  In (report_id r) ids -> mark ids r = set_verified r.
Proof.
  intros Hin. unfold mark.
  replace (existsb _ ids) with true; [reflexivity |].
  symmetry. apply existsb_exists. exists (report_id r).
  split; [assumption | apply Nat.eqb_refl].
Qed.

Lemma mark_not_In (ids : list nat) (r : Report) :
  ~ In (report_id r) ids -> mark ids r = r.
Proof.
  intros Hnot. destruct (mark_cases ids r) as [[H _] | [_ H]];
    [assumption | contradiction].
Qed.

Lemma update_group_eq (grp : list Report) (db : DB) :
  fold_left (fun d r => update_verified (report_id r) d) grp db =
  {| fuel_stations := fuel_stations db;
     user_trust_scores := user_trust_scores db;
     crowdsourced_reports :=
       map (mark (map report_id grp)) (crowdsourced_reports db);
     verified_fuel_data := verified_fuel_data db |}.
Proof.
  revert db. induction grp as [| r grp IH]; intros db; cbn [fold_left map].
  - rewrite map_mark_nil. now destruct db.
  - rewrite IH. unfold update_verified.
    cbn [fuel_stations user_trust_scores crowdsourced_reports verified_fuel_data].
    f_equal.
    change (report_id r :: map report_id grp)
      with ([report_id r] ++ map report_id grp).
    rewrite <- map_mark_app. f_equal.
    apply map_ext. intros x. unfold mark. cbn [existsb].
    now rewrite orb_false_r.
Qed.

(** ** Facts on the consensus engine *)

Lemma consensus_group_eq (now : Z) (sid : string) (db : DB)
  (ft : string) (grp : list Report) :
  consensus_group now sid db (ft, grp) =
  if group_passes grp then
    {| fuel_stations := fuel_stations db;
       user_trust_scores := user_trust_scores db;
       crowdsourced_reports :=
         map (mark (map report_id grp)) (crowdsourced_reports db);
       verified_fuel_data :=
         upsert (consensus_entry now sid ft grp) (verified_fuel_data db) |}
  else db.
Proof.
  unfold consensus_group, group_passes.
  destruct (_ <=? _)%nat; cbn [andb]; [| reflexivity].
  destruct (Rge_dec _ _); [| reflexivity].
  rewrite update_group_eq. reflexivity.
Qed.

Lemma consensus_fold_eq (now : Z) (sid : string)
  (gs : list (string * list Report)) (db : DB) :
  let db' := fold_left (consensus_group now sid) gs db in
  fuel_stations db' = fuel_stations db /\
  user_trust_scores db' = user_trust_scores db /\
  crowdsourced_reports db' = map (mark (passing_ids gs)) (crowdsourced_reports db).
Proof.
  revert db. induction gs as [| [ft grp] gs IH]; intros db; cbn zeta.
  - cbn. rewrite map_mark_nil. auto.
  - cbn [fold_left]. destruct (IH (consensus_group now sid db (ft, grp))) as (H1 & H2 & H3).
    rewrite H1, H2, H3. rewrite consensus_group_eq.
    unfold passing_ids. cbn [flat_map snd].
    destruct (group_passes grp);
      cbn [fuel_stations user_trust_scores crowdsourced_reports].
    + rewrite map_mark_app. auto.
    + auto.
Qed.

Lemma consensus_fold_find_skip (now : Z) (sid s ft : string)
  (gs : list (string * list Report)) (db : DB) :
  (s = sid -> forall grp, In (ft, grp) gs -> group_passes grp = false) ->
  find_verified s ft (fold_left (consensus_group now sid) gs db) =
  find_verified s ft db.
Proof.
  revert db. induction gs as [| [k grp] gs IH]; intros db Hskip; [reflexivity |].
  cbn [fold_left]. rewrite IH.
  - rewrite consensus_group_eq. destruct (group_passes grp) eqn:Hp; [| reflexivity].
    unfold find_verified. cbn [verified_fuel_data].
    apply find_upsert_other. unfold same_key, consensus_entry.
    cbn [vf_station_id vf_fuel_type].
    destruct (String.eqb_spec sid s) as [<- | Hs]; [| reflexivity].
    destruct (String.eqb_spec k ft) as [-> | Hk]; [| reflexivity].
    rewrite (Hskip eq_refl grp) in Hp; [discriminate | now left].
  - intros Hs grp' Hin. apply Hskip; [assumption | now right].
Qed.

Lemma consensus_fold_find_pass (now : Z) (sid ft : string)
  (gs : list (string * list Report)) (grp : list Report) (db : DB) :
  NoDup (map fst gs) ->
  In (ft, grp) gs ->
  group_passes grp = true ->
  find_verified sid ft (fold_left (consensus_group now sid) gs db) =
  Some (consensus_entry now sid ft grp).
Proof.
  revert db. induction gs as [| [k g] gs IH]; intros db Hnd Hin Hp; [destruct Hin |].
  inversion Hnd as [| ? ? Hnotin Hnd']; subst.
  cbn [fold_left]. destruct Hin as [Heq | Hin].
  - inversion Heq; subst. rewrite consensus_fold_find_skip.
    + rewrite consensus_group_eq, Hp. unfold find_verified. cbn [verified_fuel_data].
      apply (find_upsert_same (consensus_entry now sid ft grp)).
    + intros _ grp' Hin'. exfalso. apply Hnotin.
      apply (in_map fst) in Hin'. exact Hin'.
  - now apply IH.
Qed.

Lemma nodup_length_le {A : Type} (dec : forall x y : A, {x = y} + {x <> y}) (l : list A) :
  (List.length (nodup dec l) <= List.length l)%nat.
Proof.
  induction l as [| a l IH]; cbn; [lia |].
  destruct (in_dec dec a l); cbn; lia.
Qed.

Lemma uniqueUsers_le (grp : list Report) :
  (uniqueUsers grp <= List.length grp)%nat.
Proof.
  unfold uniqueUsers. etransitivity; [apply nodup_length_le |].
  now rewrite length_map.
Qed.

(** [uniqueUsers] counts the distinct submitters: it is the length of any
    duplicate-free list of exactly the submitters of the group. *)
Lemma uniqueUsers_spec (grp : list Report) (users : list string) :
  NoDup users ->
  (forall u, In u users <-> exists r, In r grp /\ anonymous_user_id r = u) ->
  uniqueUsers grp = List.length users.
Proof.
  intros Hnd Hiff. unfold uniqueUsers. apply Permutation_length.
  apply NoDup_Permutation; [apply NoDup_nodup | exact Hnd |].
  intros u. rewrite nodup_In, in_map_iff, Hiff.
  split; intros (r & H1 & H2); exists r; auto.
Qed.

Lemma group_passes_users (grp : list Report) :
  group_passes grp = true -> (2 <= uniqueUsers grp)%nat.
Proof.
  unfold group_passes. unfold_config. intros H.
  apply andb_true_iff in H as [H _]. now apply Nat.leb_le in H.
Qed.

Lemma consensus_group_of_length (now : Z) (sid ft : string) (rs : list Report) :
  (List.length (consensus_group_of now sid ft rs) <=
   List.length (window now sid rs))%nat.
Proof. unfold consensus_group_of. apply filter_length_le. Qed.

(** The consensus block, in terms of the plain grouping. *)
Lemma consensus_check_eq (now : Z) (sid : string) (db : DB) :
  consensus_check now sid db =
  (if consensus_throws now sid (crowdsourced_reports db)
   then Some push_error else None,
   if (MIN_REPORTS_FOR_CONSENSUS DVE_CONFIG <=?
       List.length (window now sid (crowdsourced_reports db)))%nat &&
      negb (poisoned (window now sid (crowdsourced_reports db)))
   then fold_left (consensus_group now sid)
          (plain_groups (window now sid (crowdsourced_reports db))) db
   else db).
Proof.
  unfold consensus_check, consensus_throws.
  destruct (_ <=? _)%nat; cbn [andb]; [| reflexivity].
  rewrite fuelTypeReports_plain.
  destruct (poisoned _); reflexivity.
Qed.

Lemma run_consensus_eq (now : Z) (sid : string) (db : DB) :
  run_consensus now sid db =
  if (MIN_REPORTS_FOR_CONSENSUS DVE_CONFIG <=?
      List.length (window now sid (crowdsourced_reports db)))%nat &&
     negb (poisoned (window now sid (crowdsourced_reports db)))
  then fold_left (consensus_group now sid)
         (plain_groups (window now sid (crowdsourced_reports db))) db
  else db.
Proof. unfold run_consensus. now rewrite consensus_check_eq. Qed.

(** A block that throws has written nothing. *)
Lemma run_consensus_throws (now : Z) (sid : string) (db : DB) :
  consensus_throws now sid (crowdsourced_reports db) = true ->
  run_consensus now sid db = db.
Proof.
  intros Ht. rewrite run_consensus_eq. unfold consensus_throws in Ht.
  apply andb_true_iff in Ht as [-> ->]. reflexivity.
Qed.

(** The Verified Fuel Entry of a key after a consensus run. *)
Lemma run_consensus_find (now : Z) (sid s ft : string) (db : DB) :
  find_verified s ft (run_consensus now sid db) =
  if negb (consensus_throws now sid (crowdsourced_reports db)) &&
     (s =? sid)%string &&
     group_passes (consensus_group_of now sid ft (crowdsourced_reports db))
  then Some (consensus_entry now sid ft
               (consensus_group_of now sid ft (crowdsourced_reports db)))
  else find_verified s ft db.
Proof.
  set (grp := consensus_group_of now sid ft (crowdsourced_reports db)).
  destruct (consensus_throws now sid (crowdsourced_reports db)) eqn:Ht;
    cbn [negb andb].
  { now rewrite run_consensus_throws. }
  rewrite run_consensus_eq. unfold consensus_throws in Ht.
  destruct (String.eqb_spec s sid) as [-> | Hs]; cbn [andb].
  - destruct (group_passes grp) eqn:Hp.
    + assert (Hlen : (2 <= List.length (window now sid (crowdsourced_reports db)))%nat).
      { apply group_passes_users in Hp.
        generalize (uniqueUsers_le grp)
                   (consensus_group_of_length now sid ft (crowdsourced_reports db)).
        fold grp. lia. }
      unfold_config. apply Nat.leb_le in Hlen. rewrite Hlen in *.
      cbn [andb] in Ht. rewrite Ht. cbn [negb andb].
      apply consensus_fold_find_pass; [apply plain_groups_NoDup | | exact Hp].
      assert (Hkey : In ft (map fst (plain_groups
                                       (window now sid (crowdsourced_reports db))))).
      { apply plain_groups_keys.
        destruct grp as [| r grp'] eqn:Hgrp; [discriminate |].
        assert (Hr : In r (consensus_group_of now sid ft (crowdsourced_reports db)))
          by (fold grp; rewrite Hgrp; now left).
        unfold consensus_group_of in Hr. apply filter_In in Hr as [Hr Hft].
        exists r. split; [assumption | now apply String.eqb_eq]. }
      apply in_map_iff in Hkey as ([k g] & Hk & Hin). cbn in Hk. subst k.
      destruct (plain_groups_In _ _ _ Hin) as [-> _]. exact Hin.
    + match goal with |- context [if ?c then fold_left _ _ _ else _] =>
        destruct c end; [| reflexivity].
      apply consensus_fold_find_skip. intros _ g Hin.
      destruct (plain_groups_In _ _ _ Hin) as [-> _]. exact Hp.
  - match goal with |- context [if ?c then fold_left _ _ _ else _] =>
      destruct c end; [| reflexivity].
    apply consensus_fold_find_skip. intros Habs. contradiction.
Qed.

Lemma run_consensus_frame (now : Z) (sid : string) (db : DB) :
  fuel_stations (run_consensus now sid db) = fuel_stations db /\
  user_trust_scores (run_consensus now sid db) = user_trust_scores db /\
  crowdsourced_reports (run_consensus now sid db) =
    map (mark (verified_ids now sid (crowdsourced_reports db)))
        (crowdsourced_reports db).
Proof.
  rewrite run_consensus_eq. unfold verified_ids.
  destruct (_ && _).
  - apply consensus_fold_eq.
  - rewrite map_mark_nil. auto.
Qed.

Lemma filter_map_comm {A : Type} (f : A -> bool) (g : A -> A) (l : list A) :
  (forall x, f (g x) = f x) -> filter f (map g l) = map g (filter f l).
Proof.
  intros Hfg. induction l as [| a l IH]; cbn; [reflexivity |].
  rewrite Hfg. destruct (f a); cbn; now rewrite IH.
Qed.

Lemma mark_fields (ids : list nat) (r : Report) :
  station_id (mark ids r) = station_id r /\
  anonymous_user_id (mark ids r) = anonymous_user_id r /\
  fuel_type (mark ids r) = fuel_type r /\
  timestamp (mark ids r) = timestamp r /\
  dve_score (mark ids r) = dve_score r /\
  is_rejected (mark ids r) = is_rejected r /\
  rejection_reason (mark ids r) = rejection_reason r /\
  trust_score_at_submission (mark ids r) = trust_score_at_submission r /\
  time_decay_factor (mark ids r) = time_decay_factor r /\
  location_factor (mark ids r) = location_factor r.
Proof.
  unfold mark. destruct (existsb _ ids); cbn; repeat split; reflexivity.
Qed.

Lemma window_mark (now : Z) (sid : string) (ids : list nat) (rs : list Report) :
  window now sid (map (mark ids) rs) = map (mark ids) (window now sid rs).
Proof.
  unfold window. apply filter_map_comm. intros r.
  destruct (mark_fields ids r) as (-> & _ & _ & -> & _ & -> & _). reflexivity.
Qed.

Lemma consensus_group_of_mark (now : Z) (sid ft : string) (ids : list nat)
  (rs : list Report) :
  consensus_group_of now sid ft (map (mark ids) rs) =
  map (mark ids) (consensus_group_of now sid ft rs).
Proof.
  unfold consensus_group_of. rewrite window_mark.
  apply filter_map_comm. intros r.
  destruct (mark_fields ids r) as (_ & _ & -> & _). reflexivity.
Qed.

Lemma uniqueUsers_mark (ids : list nat) (rs : list Report) :
  uniqueUsers (map (mark ids) rs) = uniqueUsers rs.
Proof.
  unfold uniqueUsers. rewrite map_map. f_equal. f_equal.
  apply map_ext. intros r. apply (mark_fields ids r).
Qed.

Lemma dve_scores_mark (ids : list nat) (rs : list Report) :
  dve_scores (map (mark ids) rs) = dve_scores rs.
Proof.
  unfold dve_scores. rewrite map_map. apply map_ext. intros r.
  destruct (mark_fields ids r) as (_ & _ & _ & _ & -> & _). reflexivity.
Qed.

Lemma fold_left_sum (f : Report -> R) (l : list Report) (a : R) :
  fold_left (fun sum r => sum + f r) l a = a + fold_right Rplus 0 (map f l).
Proof.
  revert a. induction l as [| r l IH]; intros a; cbn.
  - lra.
  - rewrite IH. lra.
Qed.

(** The running sum of the loop is the arithmetic mean of the scores. *)
Lemma avgScore_mean (grp : list Report) :
  avgScore grp = mean (dve_scores grp).
Proof.
  unfold avgScore, mean, dve_scores. rewrite fold_left_sum, length_map.
  f_equal. lra.
Qed.

Lemma finalScore_mark (ids : list nat) (rs : list Report) :
  finalScore (map (mark ids) rs) = finalScore rs.
Proof.
  unfold finalScore. now rewrite !avgScore_mean, dve_scores_mark.
Qed.

Lemma group_passes_mark (ids : list nat) (rs : list Report) :
  group_passes (map (mark ids) rs) = group_passes rs.
Proof.
  unfold group_passes. now rewrite uniqueUsers_mark, finalScore_mark.
Qed.

Lemma group_passes_iff (grp : list Report) :
  group_passes grp = true <->
  (2 <= uniqueUsers grp)%nat /\ finalScore grp >= 0.4.
Proof.
  unfold group_passes. unfold_config.
  rewrite andb_true_iff, Nat.leb_le.
  destruct (Rge_dec _ _); intuition; discriminate.
Qed.

Lemma passing_ids_In (gs : list (string * list Report)) (n : nat) :
  In n (passing_ids gs) <->
  exists ft grp r, In (ft, grp) gs /\ group_passes grp = true /\
                   In r grp /\ report_id r = n.
Proof.
  unfold passing_ids. rewrite in_flat_map. split.
  - intros ([ft grp] & Hin & Hn). cbn [snd] in Hn.
    destruct (group_passes grp) eqn:Hp; [| destruct Hn].
    apply in_map_iff in Hn as (r & Hr & Hin').
    exists ft, grp, r. auto.
  - intros (ft & grp & r & Hin & Hp & Hr & Hn).
    exists (ft, grp). split; [assumption |]. cbn [snd]. rewrite Hp.
    apply in_map_iff. now exists r.
Qed.

(** The rows a consensus run flags are exactly the rows of the passing
    consensus groups, when the block does not throw. *)
Lemma verified_ids_In (now : Z) (sid : string) (rs : list Report) (n : nat) :
  In n (verified_ids now sid rs) <->
  consensus_throws now sid rs = false /\
  exists r, In r (window now sid rs) /\ report_id r = n /\
            group_passes (consensus_group_of now sid (fuel_type r) rs) = true.
Proof.
  unfold verified_ids, consensus_throws. split.
  - destruct (_ <=? _)%nat; cbn [andb]; [| intros []].
    destruct (poisoned _); cbn [negb]; [intros [] |].
    rewrite passing_ids_In. intros (ft & grp & r & Hin & Hp & Hr & Hn).
    split; [reflexivity |].
    destruct (plain_groups_In _ _ _ Hin) as [-> _].
    apply filter_In in Hr as [Hr Hft]. apply String.eqb_eq in Hft.
    exists r. unfold consensus_group_of. rewrite Hft. auto.
  - intros (Hnt & r & Hr & Hn & Hp).
    assert (Hin : In r (consensus_group_of now sid (fuel_type r) rs)).
    { unfold consensus_group_of. apply filter_In.
      split; [assumption | apply String.eqb_refl]. }
    assert (Hlen : (2 <= List.length (window now sid rs))%nat).
    { apply group_passes_users in Hp.
      generalize (uniqueUsers_le (consensus_group_of now sid (fuel_type r) rs))
                 (consensus_group_of_length now sid (fuel_type r) rs). lia. }
    unfold_config. apply Nat.leb_le in Hlen. rewrite Hlen in *.
    cbn [andb] in *. rewrite Hnt. cbn [negb].
    apply passing_ids_In.
    assert (Hkey : In (fuel_type r) (map fst (plain_groups (window now sid rs)))).
    { apply plain_groups_keys. now exists r. }
    apply in_map_iff in Hkey as ([k g] & Hk & Hg). cbn in Hk. subst k.
    destruct (plain_groups_In _ _ _ Hg) as [-> _].
    exists (fuel_type r), (consensus_group_of now sid (fuel_type r) rs), r.
    auto.
Qed.

Lemma window_In (now : Z) (sid : string) (rs : list Report) (r : Report) :
  In r (window now sid rs) ->
  In r rs /\ station_id r = sid /\ is_rejected r = false.
Proof.
  unfold window. rewrite filter_In, !andb_true_iff, negb_true_iff, String.eqb_eq.
  tauto.
Qed.

(** ** Facts on the request handler *)

Lemma next_report_id_fresh (rs : list Report) (r : Report) :
  In r rs -> (report_id r < next_report_id rs)%nat.
Proof.
  intros Hin. unfold next_report_id.
  assert (H : (list_max (map report_id rs) <= list_max (map report_id rs))%nat) by lia.
  apply list_max_le in H. rewrite Forall_forall in H.
  specialize (H (report_id r) (in_map report_id _ _ Hin)). lia.
Qed.

Lemma ensure_trust_frame (db : DB) (uid : string) :
  fuel_stations (ensure_trust db uid) = fuel_stations db /\
  crowdsourced_reports (ensure_trust db uid) = crowdsourced_reports db /\
  verified_fuel_data (ensure_trust db uid) = verified_fuel_data db.
Proof.
  unfold ensure_trust. destruct (select_trust db uid); cbn; auto.
Qed.

Lemma ensure_trust_throws (now : Z) (sid uid : string) (db : DB) (r : Report) :
  consensus_throws now sid
    (crowdsourced_reports (insert_report r (ensure_trust db uid))) =
  consensus_throws now sid (crowdsourced_reports db ++ [r]).
Proof.
  cbn [insert_report crowdsourced_reports].
  now destruct (ensure_trust_frame db uid) as (_ & -> & _).
Qed.

(** The handler past validation: score, insert, then run consensus. *)
Lemma process_report_eq (clk : Clock) (db : DB)
  (sid ft uid : string) (ulat ulon : option R) (slat slon : R) :
  process_report clk db sid ft uid ulat ulon slat slon =
  (submission_response (clock_now clk) sid
     (crowdsourced_reports db ++ [scored_row clk db sid ft uid ulat ulon slat slon])
     (scored_row clk db sid ft uid ulat ulon slat slon),
   run_consensus (clock_now clk) sid
     (insert_report (scored_row clk db sid ft uid ulat ulon slat slon)
                    (ensure_trust db uid))).
Proof.
  set (r := scored_row clk db sid ft uid ulat ulon slat slon).
  set (db2 := insert_report r (ensure_trust db uid)).
  assert (H : process_report clk db sid ft uid ulat ulon slat slon =
              match consensus_check (clock_now clk) sid db2 with
              | (Some message, db3) => (json_error 500 message, db3)
              | (None, db3) => (submit_response r, db3)
              end).
  { unfold db2, r, process_report, scored_row, submit_response, trust_for,
      ensure_trust.
    destruct (select_trust db uid) as [t |];
      destruct (isValid (calculateLocationFactor (ToNumber ulat) (ToNumber ulon)
                                                 slat slon));
      reflexivity. }
  rewrite H. unfold run_consensus, submission_response.
  rewrite <- (ensure_trust_throws (clock_now clk) sid uid db). fold db2.
  rewrite consensus_check_eq.
  destruct (consensus_throws (clock_now clk) sid (crowdsourced_reports db2));
    reflexivity.
Qed.

Lemma truthy_string_Some (v : string) :
  truthy_string (Some v) = true <-> v <> ""%string.
Proof.
  cbn. rewrite negb_true_iff. split.
  - intros H ->. discriminate.
  - intros H. now apply String.eqb_neq.
Qed.

Lemma truthy_number_Some (v : R) :
  truthy_number (Some v) = true <-> v <> 0.
Proof.
  cbn. destruct (Req_dec_T v 0); split; intros; congruence.
Qed.

Lemma coordinate_value_defined (c : Coordinate) (v : option R) :
  coordinate_value c = Some v -> is_undefined c = false.
Proof. destruct c; cbn; intros H; (discriminate || reflexivity). Qed.

(** A request that carries an identifier carries a [report] object. *)
Lemma report_object (req : Request) (sid : string) :
  in_station_id (report req) = Some sid ->
  report_member req = ReportObject (report req).
Proof.
  unfold report. destruct (report_member req); cbn; intros H;
    (discriminate || reflexivity).
Qed.

Lemma serve_accepted (clk : Clock) (db : DB) (req : Request)
  (sid ft uid : string) (ulat ulon : option R) (slat slon : R) :
  validated_input db req sid ft uid ulat ulon slat slon ->
  serve clk db req = process_report clk db sid ft uid ulat ulon slat slon.
Proof.
  intros (Hm & Ha & Hsid & Hft & Huid & Hlat & Hlon & Hs & Hf & Hu &
          (stn & Hstn & Hslat & Hslon) & Hla & Hlo).
  unfold serve. apply String.eqb_neq in Hm. rewrite Hm, Ha. cbn [String.eqb].
  change ("submit_report" =? "submit_report")%string with true. cbn iota.
  rewrite (report_object req sid Hsid).
  unfold submit_report. rewrite Hsid, Hft, Huid, Hlat, Hlon.
  apply truthy_string_Some in Hs, Hf, Hu. rewrite Hs, Hf, Hu.
  rewrite (coordinate_value_defined _ _ Hlat), (coordinate_value_defined _ _ Hlon).
  cbn [negb orb]. rewrite Hstn. cbn [opt_chain]. rewrite Hslat, Hslon.
  apply truthy_number_Some in Hla, Hlo. rewrite Hla, Hlo.
  reflexivity.
Qed.

(** A request either leaves the store as it is and answers without a
    submission body, or it is a validated submission. *)
Lemma serve_cases (clk : Clock) (db : DB) (req : Request) :
  (snd (serve clk db req) = db /\
   forall s rid res, body (fst (serve clk db req)) <> BodySubmit s rid res) \/
  (exists sid ft uid ulat ulon slat slon,
     validated_input db req sid ft uid ulat ulon slat slon).
Proof.
  unfold serve.
  destruct (String.eqb_spec (method req) "OPTIONS") as [Hm | Hm];
    [left; split; [reflexivity | discriminate] |].
  destruct (String.eqb_spec (action req) "submit_report") as [Ha | Ha].
  2:{ left. destruct (_ =? _)%string; split; (reflexivity || discriminate). }
  unfold validated_input, report.
  destruct (report_member req) as [| | members];
    [left; split; [reflexivity | discriminate] ..|].
  unfold submit_report.
  destruct (in_station_id members) as [sid |] eqn:Hsid;
    [| left; split; [reflexivity | discriminate]].
  destruct (truthy_string (Some sid)) eqn:Hs;
    [| left; split; [reflexivity | discriminate]].
  destruct (in_fuel_type members) as [ft |] eqn:Hft;
    [| left; split; [reflexivity | discriminate]].
  destruct (truthy_string (Some ft)) eqn:Hf;
    [| left; split; [reflexivity | discriminate]].
  destruct (in_anonymous_user_id members) as [uid |] eqn:Huid;
    [| left; split; [reflexivity | discriminate]].
  destruct (truthy_string (Some uid)) eqn:Hu;
    [| left; split; [reflexivity | discriminate]].
  destruct (in_user_lat members) as [| | x] eqn:Hlat;
    [left; split; [reflexivity | discriminate] | |];
    (destruct (in_user_lon members) as [| | y] eqn:Hlon;
     [left; split; [reflexivity | discriminate] | |]);
    cbn [negb orb is_undefined coordinate_value];
    (destruct (select_station db sid) as [stn |] eqn:Hstn;
       [| left; split; [reflexivity | discriminate]]);
    cbn [opt_chain];
    (destruct (stn_lat stn) as [slat |] eqn:Hslat;
       [| left; split; [reflexivity | discriminate]]);
    (destruct (truthy_number (Some slat)) eqn:Hla;
       [| left; split; [reflexivity | discriminate]]);
    (destruct (stn_lon stn) as [slon |] eqn:Hslon;
       [| left; split; [reflexivity | discriminate]]);
    (destruct (truthy_number (Some slon)) eqn:Hlo;
       [| left; split; [reflexivity | discriminate]]);
    right; exists sid, ft, uid; eexists; eexists; exists slat, slon;
    apply truthy_string_Some in Hs, Hf, Hu;
    apply truthy_number_Some in Hla, Hlo;
    (repeat split; try assumption; try reflexivity);
    exists stn; auto.
Qed.

Lemma serve_accepted_db (clk : Clock) (db : DB) (req : Request)
  (sid ft uid : string) (ulat ulon : option R) (slat slon : R) :
  validated_input db req sid ft uid ulat ulon slat slon ->
  serve clk db req =
  (submission_response (clock_now clk) sid
     (crowdsourced_reports db ++ [scored_row clk db sid ft uid ulat ulon slat slon])
     (scored_row clk db sid ft uid ulat ulon slat slon),
   run_consensus (clock_now clk) sid
     (insert_report (scored_row clk db sid ft uid ulat ulon slat slon)
                    (ensure_trust db uid))).
Proof.
  intros H. rewrite (serve_accepted _ _ _ _ _ _ _ _ _ _ H).
  apply process_report_eq.
Qed.

(** The store a submission leaves, whatever the response. *)
Lemma serve_accepted_store (clk : Clock) (db : DB) (req : Request)
  (sid ft uid : string) (ulat ulon : option R) (slat slon : R) :
  validated_input db req sid ft uid ulat ulon slat slon ->
  snd (serve clk db req) =
  run_consensus (clock_now clk) sid
    (insert_report (scored_row clk db sid ft uid ulat ulon slat slon)
                   (ensure_trust db uid)).
Proof. intros H. now rewrite (serve_accepted_db _ _ _ _ _ _ _ _ _ _ H). Qed.

(** A response with a submission body is the inserted row reported back,
    and the consensus block has not thrown. *)
Lemma submission_response_body (now : Z) (sid : string) (rs : list Report)
  (r : Report) (s : bool) (rid : option nat) (res : DveResult) :
  body (submission_response now sid rs r) = BodySubmit s rid res ->
  consensus_throws now sid rs = false /\
  submission_response now sid rs r = submit_response r.
Proof.
  unfold submission_response. destruct (consensus_throws now sid rs).
  - discriminate.
  - auto.
Qed.

(** ** Validation and station lookup *)

Lemma window_length (now : Z) (sid : string) (rs : list Report) :
  (List.length (window now sid rs) <= List.length rs)%nat.
Proof. unfold window. apply filter_length_le. Qed.

(** The consensus block cannot throw with fewer than two rows in the
    query. *)
Lemma consensus_throws_short (now : Z) (sid : string) (rs : list Report) :
  (List.length (window now sid rs) < 2)%nat -> consensus_throws now sid rs = false.
Proof.
  intros Hlen. unfold consensus_throws. unfold_config.
  apply Nat.leb_gt in Hlen. now rewrite Hlen.
Qed.

Lemma consensus_throws_plain (now : Z) (sid : string) (rs : list Report) :
  (forall r, In r rs -> inherited (fuel_type r) = false) ->
  consensus_throws now sid rs = false.
Proof.
  intros Hplain. unfold consensus_throws.
  replace (poisoned (window now sid rs)) with false; [apply andb_false_r |].
  symmetry. apply poisoned_false. intros r Hr.
  apply window_In in Hr as [Hr _]. now apply Hplain.
Qed.

Lemma submission_response_status (now : Z) (sid : string) (rs : list Report)
  (r : Report) :
  status (submission_response now sid rs r) =
  if consensus_throws now sid rs then 500%nat else 200%nat.
Proof. unfold submission_response. now destruct (consensus_throws now sid rs). Qed.

(** A request that passes validation is answered with 404, 200 or 500. *)
Lemma validated_status (clk : Clock) (db : DB) (members : ReportInput) :
  truthy_string (in_station_id members) = true ->
  truthy_string (in_fuel_type members) = true ->
  truthy_string (in_anonymous_user_id members) = true ->
  is_undefined (in_user_lat members) = false ->
  is_undefined (in_user_lon members) = false ->
  status (fst (submit_report clk db members)) <> 400%nat.
Proof.
  intros Hs Hf Hu Hlat Hlon. unfold submit_report.
  rewrite Hs, Hf, Hu, Hlat, Hlon. cbn [negb orb].
  destruct (in_station_id members) as [sid |]; [| discriminate].
  destruct (in_fuel_type members) as [ft |]; [| discriminate].
  destruct (in_anonymous_user_id members) as [uid |]; [| discriminate].
  destruct (in_user_lat members) as [| | x]; [discriminate | |];
    (destruct (in_user_lon members) as [| | y]; [discriminate | |]);
    cbn [coordinate_value];
    (destruct (_ || _); [cbn; discriminate |]);
    (destruct (opt_chain _ stn_lat); [| cbn; discriminate]);
    (destruct (opt_chain _ stn_lon); [| cbn; discriminate]);
    rewrite process_report_eq; cbn [fst]; rewrite submission_response_status;
    destruct (consensus_throws _ _ _); discriminate.
Qed.

(** C7, as the handler has it.  For a [submit_report] request that carries
    a [report] object: when station id, fuel type or submitter id is absent,
    [null] or empty, or latitude or longitude is absent, the answer is the
    client error 400 and the whole store is unchanged, and the answer is 400
    in no other case, so a coordinate given as [null] is not missing; when
    the request passes validation and names an unknown station, or a
    station whose latitude or longitude is missing, the answer is the
    not-found error 404 and the whole store is unchanged.  A request whose
    [report] member is absent or [null] leaves the store unchanged as well,
    and is answered with the error 500 that reading [report.station_id]
    throws. *)
Theorem invalid_submission_persists_nothing (clk : Clock) (db : DB) (req : Request) :
  method req <> "OPTIONS"%string ->
  action req = "submit_report"%string ->
  (forall members,
     report_member req = ReportObject members ->
     let missing :=
       truthy_string (in_station_id members) = false \/
       truthy_string (in_fuel_type members) = false \/
       truthy_string (in_anonymous_user_id members) = false \/
       in_user_lat members = CoordUndefined \/
       in_user_lon members = CoordUndefined in
     (missing ->
      serve clk db req = (json_error 400 "Missing required fields", db)) /\
     (status (fst (serve clk db req)) = 400%nat -> missing)) /\
  (forall sid,
     required_fields req sid ->
     select_station db sid = None \/
     (exists stn, select_station db sid = Some stn /\
                  (stn_lat stn = None \/ stn_lon stn = None)) ->
     serve clk db req =
     (json_error 404 "Station not found or missing coordinates", db)) /\
  (report_member req = ReportAbsent ->
   serve clk db req = (json_error 500 (no_report_error "undefined"), db)) /\
  (report_member req = ReportNull ->
   serve clk db req = (json_error 500 (no_report_error "null"), db)).
Proof.
  intros Hm Ha. apply String.eqb_neq in Hm.
  assert (Hserve : serve clk db req =
                   match report_member req with
                   | ReportObject members => submit_report clk db members
                   | ReportAbsent => (json_error 500 (no_report_error "undefined"), db)
                   | ReportNull => (json_error 500 (no_report_error "null"), db)
                   end).
  { unfold serve. rewrite Hm, Ha. reflexivity. }
  rewrite Hserve. split; [| split; [| split]].
  - intros members Hobj. cbn zeta. rewrite Hobj. split.
    + intros Hmiss. unfold submit_report.
      destruct Hmiss as [H | [H | [H | [H | H]]]]; rewrite H;
        cbn [is_undefined negb orb]; rewrite ?orb_true_r; reflexivity.
    + intros H400.
      destruct (truthy_string (in_station_id members)) eqn:Hs; [| now left].
      destruct (truthy_string (in_fuel_type members)) eqn:Hf; [| right; now left].
      destruct (truthy_string (in_anonymous_user_id members)) eqn:Hu;
        [| right; right; now left].
      destruct (in_user_lat members) as [| | x] eqn:Hlat;
        [right; right; right; now left | |];
        (destruct (in_user_lon members) as [| | y] eqn:Hlon;
           [right; right; right; now right | |]);
        exfalso; revert H400; apply validated_status; try assumption;
        rewrite ?Hlat, ?Hlon; reflexivity.
  - intros sid (_ & _ & Hsid & Hs & Hf & Hu & Hlat & Hlon) Hstn.
    unfold report in *.
    destruct (report_member req) as [| | members]; [discriminate | discriminate |].
    unfold submit_report. rewrite Hs, Hf, Hu, Hlat, Hlon. cbn [negb orb].
    rewrite Hsid.
    destruct (in_fuel_type members) as [ft |]; [| discriminate].
    destruct (in_anonymous_user_id members) as [uid |]; [| discriminate].
    destruct (in_user_lat members) as [| | x]; [discriminate | |];
      (destruct (in_user_lon members) as [| | y]; [discriminate | |]);
      cbn [coordinate_value];
      (destruct Hstn as [Hnone | (stn & Hsome & [Hnull | Hnull])];
       [ rewrite Hnone; reflexivity
       | rewrite Hsome; cbn [opt_chain]; rewrite Hnull; reflexivity
       | rewrite Hsome; cbn [opt_chain]; rewrite Hnull;
         cbn [truthy_number negb]; rewrite orb_true_r; reflexivity ]).
  - intros ->. reflexivity.
  - intros ->. reflexivity.
Qed.

Lemma invalid_submission_persists_nothing_witness :
  serve noon empty_db
    {| method := "POST"; action := "submit_report";
       report_member :=
         ReportObject {| in_station_id := Some "S1"%string; in_fuel_type := None;
                         in_anonymous_user_id := Some "u1"%string;
                         in_user_lat := CoordNumber 18.5204;
                         in_user_lon := CoordNumber 73.8567 |} |}
  = (json_error 400 "Missing required fields", empty_db) /\
  serve noon empty_db (valid_request "S9" "Diesel" "u1" 18.5204 73.8567)
  = (json_error 404 "Station not found or missing coordinates", empty_db) /\
  serve noon empty_db (valid_request "S2" "Diesel" "u1" 18.5204 73.8567)
  = (json_error 404 "Station not found or missing coordinates", empty_db) /\
  serve noon empty_db bare_request
  = (json_error 500 (no_report_error "undefined"), empty_db).
Proof.
  split; [| split; [| split]].
  - eapply invalid_submission_persists_nothing.
    + discriminate.
    + reflexivity.
    + reflexivity.
    + right; left. reflexivity.
  - eapply (invalid_submission_persists_nothing noon empty_db
              (valid_request "S9" "Diesel" "u1" 18.5204 73.8567)).
    + discriminate.
    + reflexivity.
    + unfold required_fields. repeat split; (reflexivity || discriminate).
    + left. reflexivity.
  - eapply (invalid_submission_persists_nothing noon empty_db
              (valid_request "S2" "Diesel" "u1" 18.5204 73.8567)).
    + discriminate.
    + reflexivity.
    + unfold required_fields. repeat split; (reflexivity || discriminate).
    + right. exists blank_station. split; [reflexivity | left; reflexivity].
  - apply (invalid_submission_persists_nothing noon empty_db bare_request).
    + discriminate.
    + reflexivity.
    + reflexivity.
Defined.

(** C10. When the station a validated request names is stored with latitude
    0 or longitude 0, the handler answers "Station not found or missing
    coordinates" with status 404 and leaves the store unchanged: the
    presence test on the coordinates takes the number 0 for absent. *)
Theorem zero_coordinate_station_not_found (clk : Clock) (db : DB) (req : Request)
  (sid : string) (stn : Station) :
  required_fields req sid ->
  select_station db sid = Some stn ->
  stn_lat stn = Some 0 \/ stn_lon stn = Some 0 ->
  serve clk db req =
  (json_error 404 "Station not found or missing coordinates", db).
Proof.
  intros (Hm & Ha & Hsid & Hs & Hf & Hu & Hlat & Hlon) Hstn Hzero.
  apply String.eqb_neq in Hm.
  unfold serve. rewrite Hm, Ha. cbn [String.eqb].
  change ("submit_report" =? "submit_report")%string with true. cbn iota.
  rewrite (report_object req sid Hsid).
  unfold submit_report. rewrite Hs, Hf, Hu, Hlat, Hlon. cbn [negb orb].
  rewrite Hsid.
  destruct (in_fuel_type (report req)) as [ft |]; [| discriminate].
  destruct (in_anonymous_user_id (report req)) as [uid |]; [| discriminate].
  assert (Hz : truthy_number (Some 0) = false).
  { cbn. destruct (Req_dec_T 0 0); [reflexivity | contradiction]. }
  destruct (in_user_lat (report req)) as [| | ulat]; [discriminate | |];
    (destruct (in_user_lon (report req)) as [| | ulon]; [discriminate | |]);
    cbn [coordinate_value]; rewrite Hstn; cbn [opt_chain];
    (destruct Hzero as [H0 | H0]; rewrite H0, Hz; cbn [negb orb];
     [reflexivity | rewrite orb_true_r; reflexivity]).
Qed.

Lemma zero_coordinate_station_not_found_witness :
  serve noon empty_db (valid_request "S0" "Diesel" "u1" 0.001 73.8567)
  = (json_error 404 "Station not found or missing coordinates", empty_db).
Proof.
  apply (zero_coordinate_station_not_found noon empty_db
           (valid_request "S0" "Diesel" "u1" 0.001 73.8567)
           "S0"%string equator_station).
  - unfold required_fields. repeat split; (reflexivity || discriminate).
  - reflexivity.
  - left. reflexivity.
Defined.

(** ** Formatting of the distance *)

(** [toFixed2] on a number that is a whole count [n] of hundredths. *)
Lemma toFixed2_hundredths (n : Z) :
  (0 <= n)%Z ->
  toFixed2 (IZR n / 100) =
  (let m := NilZero.string_of_uint (N.to_uint (Z.to_N n)) in
   let m := zero_pad (3 - String.length m) m in
   substring 0 (String.length m - 2) m ++ "." ++
   substring (String.length m - 2) 2 m)%string.
Proof.
  intros Hn. unfold toFixed2.
  assert (Hpos : 0 <= IZR n / 100).
  { apply Rmult_le_pos; [now apply IZR_le | lra]. }
  rewrite Rabs_right by lra.
  replace (Zfloor (IZR n / 100 * 100 + / 2)) with n.
  2:{ symmetry. apply Zfloor_eq. lra. }
  destruct (Rlt_dec (IZR n / 100) 0); [lra | reflexivity].
Qed.

Lemma toFixed2_3 : toFixed2 3 = "3.00"%string.
Proof.
  replace 3 with (IZR 300 / 100) by lra.
  rewrite toFixed2_hundredths by lia. reflexivity.
Qed.

Lemma toFixed2_examples :
  toFixed2 0 = "0.00"%string /\ toFixed2 (5 / 100) = "0.05"%string /\
  toFixed2 (12345 / 100) = "123.45"%string.
Proof.
  replace 0 with (IZR 0 / 100) by lra.
  rewrite !toFixed2_hundredths by lia. repeat split.
Qed.

Lemma string_length_append (a b : string) :
  String.length (a ++ b) = (String.length a + String.length b)%nat.
Proof. induction a as [| c a IH]; cbn; [reflexivity | now rewrite IH]. Qed.

Lemma substring_length (n m : nat) (s : string) :
  (n + m <= String.length s)%nat -> String.length (substring n m s) = m.
Proof.
  revert n m. induction s as [| c s IH]; intros n m Hlen.
  - cbn in Hlen. assert (n = 0%nat) by lia. assert (m = 0%nat) by lia. now subst.
  - destruct n as [| n].
    + destruct m as [| m]; [reflexivity |]. cbn. f_equal.
      apply (IH 0%nat m). cbn in Hlen. lia.
    + cbn. apply IH. cbn in Hlen. lia.
Qed.

Lemma substring_all (s : string) : substring 0 (String.length s) s = s.
Proof. induction s as [| c s IH]; cbn; [reflexivity | now rewrite IH]. Qed.

Lemma substring_split (n : nat) (s : string) :
  (n <= String.length s)%nat ->
  (substring 0 n s ++ substring n (String.length s - n) s)%string = s.
Proof.
  revert n. induction s as [| c s IH]; intros n Hlen.
  - cbn in Hlen. assert (n = 0%nat) by lia. now subst.
  - destruct n as [| n].
    + cbn. f_equal. apply substring_all.
    + cbn. f_equal. apply IH. cbn in Hlen. lia.
Qed.

Lemma zero_pad_length (k : nat) (s : string) :
  String.length (zero_pad k s) = (k + String.length s)%nat.
Proof. induction k as [| k IH]; cbn; [reflexivity | now rewrite IH]. Qed.

Lemma zero_pad_digits (k : nat) (s : string) (d : Decimal.uint) :
  NilEmpty.uint_of_string s = Some d ->
  exists d', NilEmpty.uint_of_string (zero_pad k s) = Some d' /\
             N.of_uint d' = N.of_uint d.
Proof.
  intros Hs. induction k as [| k (d' & Hd' & Hv)]; [now exists d |].
  exists (Decimal.D0 d'). cbn [zero_pad NilEmpty.uint_of_string]. rewrite Hd'.
  split; [reflexivity | exact Hv].
Qed.

Lemma string_app_assoc (a b c : string) : ((a ++ b) ++ c = a ++ (b ++ c))%string.
Proof. induction a as [| x a IH]; cbn; [reflexivity | now rewrite IH]. Qed.

Lemma string_app_nil_r (a : string) : (a ++ "")%string = a.
Proof. induction a as [| x a IH]; cbn; [reflexivity | now rewrite IH]. Qed.

Lemma nzhead_head (d d' : Decimal.uint) : Decimal.nzhead d <> Decimal.D0 d'.
Proof. induction d; cbn; try discriminate. exact IHd. Qed.

(** The decimal numeral of a number is ["0"] or starts with another
    digit. *)
Lemma to_uint_no_leading_zero (n : N) :
  N.to_uint n = Decimal.D0 Decimal.Nil \/
  forall d', N.to_uint n <> Decimal.D0 d'.
Proof.
  assert (Hnorm : Decimal.unorm (N.to_uint n) = N.to_uint n).
  { rewrite <- DecimalN.Unsigned.to_of, DecimalN.Unsigned.of_to. reflexivity. }
  unfold Decimal.unorm in Hnorm.
  destruct (Decimal.nzhead (N.to_uint n)) eqn:Hh;
    try (right; intros d' Hd'; rewrite <- Hnorm in Hd'; discriminate).
  - left. now rewrite <- Hnorm.
  - exfalso. exact (nzhead_head _ _ Hh).
Qed.

Lemma string_of_uint_head (d : Decimal.uint) (rest : string) :
  NilEmpty.string_of_uint d = String "0" rest -> exists d', d = Decimal.D0 d'.
Proof. destruct d; cbn; intros H; try discriminate. now eexists. Qed.

(** The shape of [x.toFixed(2)] for [x >= 0]: an integer part of at least
    one digit that is ["0"] or does not start with 0, a point and two
    digits; read as one numeral the digits give the integer nearest to
    [100 x], the larger one on a tie. *)
Lemma toFixed2_shape (x : R) :
  0 <= x ->
  exists (int frac : string) (d : Decimal.uint),
    toFixed2 x = (int ++ "." ++ frac)%string /\
    (1 <= String.length int)%nat /\
    String.length frac = 2%nat /\
    (int = "0"%string \/ forall rest, int <> String "0" rest) /\
    NilZero.uint_of_string (int ++ frac) = Some d /\
    Z.of_N (N.of_uint d) = Zfloor (x * 100 + / 2).
Proof.
  intros Hx. unfold toFixed2.
  rewrite Rabs_right by lra.
  destruct (Rlt_dec x 0) as [Hneg | _]; [lra |].
  set (n := Zfloor (x * 100 + / 2)).
  set (u := N.to_uint (Z.to_N n)).
  set (m0 := NilZero.string_of_uint u).
  set (m := zero_pad (3 - String.length m0) m0).
  assert (Hn : (0 <= n)%Z).
  { unfold n. apply Zfloor_lub. simpl. lra. }
  assert (Hk : (3 <= String.length m)%nat).
  { unfold m. rewrite zero_pad_length. lia. }
  assert (Hnn : u <> Decimal.Nil).
  { unfold u. destruct (Z.to_N n); [discriminate |].
    apply DecimalPos.Unsigned.to_uint_nonnil. }
  assert (Hm0' : m0 = NilEmpty.string_of_uint u).
  { unfold m0, NilZero.string_of_uint. destruct u; [contradiction | reflexivity ..]. }
  assert (Hm0 : exists d0, NilEmpty.uint_of_string m0 = Some d0 /\
                           N.of_uint d0 = Z.to_N n).
  { exists u. split; [| apply DecimalN.Unsigned.of_to].
    rewrite Hm0'. apply NilEmpty.usu. }
  destruct Hm0 as (d0 & Hd0 & Hv0).
  destruct (zero_pad_digits (3 - String.length m0) m0 d0 Hd0) as (d & Hd & Hv).
  fold m in Hd.
  exists (substring 0 (String.length m - 2) m),
         (substring (String.length m - 2) 2 m), d.
  split; [reflexivity |]. split; [| split; [| split; [| split]]].
  - rewrite substring_length by lia. lia.
  - apply substring_length. lia.
  - destruct (3 - String.length m0)%nat as [| k] eqn:Hpad.
    + right. intros rest Hint.
      assert (Hlen0 : (3 <= String.length m0)%nat) by lia.
      unfold m in Hint. cbn [zero_pad] in Hint.
      destruct m0 as [| c m1] eqn:Hm0s; [cbn in Hlen0; lia |].
      cbn [String.length] in Hint, Hlen0.
      replace (S (String.length m1) - 2)%nat
        with (S (String.length m1 - 2)) in Hint by lia.
      cbn [substring] in Hint. inversion Hint as [[Hc Hrest]]. subst c.
      destruct (string_of_uint_head u m1 (eq_sym Hm0')) as (d' & Hu).
      destruct (to_uint_no_leading_zero (Z.to_N n)) as [Hzero | Hnz].
      * fold u in Hzero. rewrite Hzero in Hm0'. cbn in Hm0'.
        inversion Hm0'. subst m1. cbn in Hlen0. lia.
      * exact (Hnz d' Hu).
    + left. assert (Hlen : String.length m = 3%nat).
      { unfold m. rewrite ?Hpad, zero_pad_length. lia. }
      rewrite Hlen. unfold m. rewrite ?Hpad. cbn [zero_pad Nat.sub substring].
      now destruct (zero_pad k m0).
  - assert (Hsplit := substring_split (String.length m - 2) m ltac:(lia)).
    replace (String.length m - (String.length m - 2))%nat with 2%nat in Hsplit by lia.
    rewrite Hsplit.
    unfold NilZero.uint_of_string. destruct m; [cbn in Hk; lia | exact Hd].
  - rewrite Hv, Hv0. now apply Z2N.id.
Qed.

(** ** The scoring branch *)

Lemma find_report_absent (n : nat) (rs : list Report) :
  (forall x, In x rs -> report_id x <> n) ->
  find (fun x => (report_id x =? n)%nat) rs = None.
Proof.
  intros H. induction rs as [| a rs IH]; cbn; [reflexivity |].
  destruct (Nat.eqb_spec (report_id a) n) as [Heq | Hne].
  - exfalso. apply (H a); [now left | assumption].
  - apply IH. intros x Hx. apply H. now right.
Qed.

Lemma find_report_last (ids : list nat) (rs : list Report) (r : Report) :
  (forall x, In x rs -> report_id x <> report_id r) ->
  find (fun x => (report_id x =? report_id r)%nat) (map (mark ids) (rs ++ [r])) =
  Some (mark ids r).
Proof.
  intros H. induction rs as [| a rs IH]; cbn.
  - now rewrite report_id_mark, Nat.eqb_refl.
  - rewrite report_id_mark.
    destruct (Nat.eqb_spec (report_id a) (report_id r)) as [Heq | Hne].
    + exfalso. apply (H a); [now left | assumption].
    + apply IH. intros x Hx. apply H. now right.
Qed.

Lemma scored_row_fresh (clk : Clock) (db : DB)
  (sid ft uid : string) (ulat ulon : option R) (slat slon : R) (x : Report) :
  In x (crowdsourced_reports db) ->
  report_id x <> report_id (scored_row clk db sid ft uid ulat ulon slat slon).
Proof.
  intros Hin. apply next_report_id_fresh in Hin.
  unfold scored_row. cbn [report_id]. lia.
Qed.

Lemma single_In {A : Type} (l : list A) (x : A) : single l = Some x -> In x l.
Proof.
  destruct l as [| a [| b l]]; cbn; intros H; try discriminate.
  inversion H. now left.
Qed.

Lemma trust_for_range (db : DB) (uid : string) :
  trust_in_range db -> 0.1 <= trust_for db uid <= 1.
Proof.
  intros Hr. unfold trust_for.
  destruct (select_trust db uid) as [t |] eqn:Ht; unfold_config; [| lra].
  destruct (trust_score t) as [x |] eqn:Hx; cbn [nullish]; [| lra].
  unfold select_trust in Ht. apply single_In in Ht. apply filter_In in Ht as [Ht _].
  unfold trust_in_range in Hr. rewrite Forall_forall in Hr.
  specialize (Hr t Ht x Hx). unfold_config. lra.
Qed.

Lemma ensure_trust_range (db : DB) (uid : string) :
  trust_in_range db -> trust_in_range (ensure_trust db uid).
Proof.
  intros Hr. unfold ensure_trust. destruct (select_trust db uid); [assumption |].
  unfold trust_in_range, insert_trust. cbn [user_trust_scores].
  apply Forall_app. split; [exact Hr |].
  constructor; [| constructor]. cbn [trust_score]. intros x Hx.
  inversion Hx; subst. unfold_config. lra.
Qed.

Lemma scored_row_score (clk : Clock) (db : DB)
  (sid ft uid : string) (ulat ulon : option R) (slat slon : R) :
  trust_in_range db ->
  exists v, dve_score (scored_row clk db sid ft uid ulat ulon slat slon) = Some v /\
            0 <= v <= 1.
Proof.
  intros Hr. unfold scored_row. cbn [dve_score].
  eexists. split; [reflexivity |].
  generalize (trust_for_range db uid Hr)
             (calculateTimeDecay_lag_range (clock_now clk) (clock_lag clk))
             (calculateLocationFactor_range (ToNumber ulat) (ToNumber ulon) slat slon).
  intros Ht Hd Hl.
  destruct (isValid _); [| lra].
  split.
  - apply Rmult_le_pos; [apply Rmult_le_pos |]; lra.
  - assert (H1 : trust_for db uid *
                 calculateTimeDecay (clock_now clk + Z.of_N (clock_lag clk)) (clock_now clk)
                 <= 1) by nra.
    assert (H0 : 0 <= trust_for db uid *
                 calculateTimeDecay (clock_now clk + Z.of_N (clock_lag clk)) (clock_now clk))
      by (apply Rmult_le_pos; lra).
    nra.
Qed.

(** The rows a submission leaves: the stored rows and the new one, some
    flagged verified. *)
Lemma serve_accepted_rows (clk : Clock) (db : DB) (req : Request)
  (sid ft uid : string) (ulat ulon : option R) (slat slon : R) :
  validated_input db req sid ft uid ulat ulon slat slon ->
  let r := scored_row clk db sid ft uid ulat ulon slat slon in
  let rs := crowdsourced_reports db ++ [r] in
  crowdsourced_reports (snd (serve clk db req)) =
    map (mark (verified_ids (clock_now clk) sid rs)) rs /\
  user_trust_scores (snd (serve clk db req)) =
    user_trust_scores (ensure_trust db uid) /\
  fuel_stations (snd (serve clk db req)) = fuel_stations db /\
  find_report (report_id r) db = None /\
  find_report (report_id r) (snd (serve clk db req)) =
    Some (mark (verified_ids (clock_now clk) sid rs) r).
Proof.
  intros Hacc. cbn zeta.
  rewrite (serve_accepted_store _ _ _ _ _ _ _ _ _ _ Hacc).
  set (r := scored_row clk db sid ft uid ulat ulon slat slon).
  destruct (run_consensus_frame (clock_now clk) sid
              (insert_report r (ensure_trust db uid))) as (Hst & Htrust & Hreports).
  cbn [insert_report fuel_stations user_trust_scores crowdsourced_reports]
    in Hst, Htrust, Hreports.
  destruct (ensure_trust_frame db uid) as (Hst' & Hrs & _).
  rewrite Hrs in Hreports. rewrite Hst' in Hst.
  assert (Hfresh : forall x, In x (crowdsourced_reports db) ->
                             report_id x <> report_id r).
  { intros x Hx. now apply scored_row_fresh. }
  repeat split; try assumption.
  - unfold find_report. now apply find_report_absent.
  - unfold find_report. rewrite Hreports. now apply find_report_last.
Qed.

(** C1.  For a validated submission, with [trust] the submitter's score in
    the ledger ([INITIAL_TRUST_SCORE] when there is no row or the row holds
    none), [decay] the value of [calculateTimeDecay] for the submission
    instant and [loc] the result of [calculateLocationFactor]: under stored
    trust scores in [[0.1, 1.0]], [trust] is in that range and [decay] in
    [[0, 1]]; a row is persisted under a fresh identifier with these three
    values as its snapshot columns; when the distance is at most 2.0 km the
    row is not rejected and its [dve_score] is [trust * decay * factor loc],
    a number in [[0, 1]]; when the distance exceeds 2.0 km the row is
    rejected and its [dve_score] is 0.  Either way the trust scores stay in
    range and every stored [dve_score] stays in [[0, 1]], and a submission
    response reports the row's values. *)
Theorem dve_score_product_and_range (clk : Clock) (db : DB) (req : Request)
  (sid ft uid : string) (ulat ulon : option R) (slat slon : R) :
  trust_in_range db ->
  validated_input db req sid ft uid ulat ulon slat slon ->
  let d := calculateDistance (ToNumber ulat) (ToNumber ulon) slat slon in
  let loc := calculateLocationFactor (ToNumber ulat) (ToNumber ulon) slat slon in
  let decay :=
    calculateTimeDecay (clock_now clk + Z.of_N (clock_lag clk)) (clock_now clk) in
  let trust :=
    match select_trust db uid with
    | Some t => nullish (trust_score t) (INITIAL_TRUST_SCORE DVE_CONFIG)
    | None => INITIAL_TRUST_SCORE DVE_CONFIG
    end in
  let rid := next_report_id (crowdsourced_reports db) in
  let db' := snd (serve clk db req) in
  MIN_TRUST_SCORE DVE_CONFIG <= trust <= MAX_TRUST_SCORE DVE_CONFIG /\
  0 <= decay <= 1 /\
  trust_in_range db' /\
  exists r,
    find_report rid db = None /\
    find_report rid db' = Some r /\
    station_id r = sid /\ fuel_type r = ft /\ anonymous_user_id r = uid /\
    trust_score_at_submission r = Some trust /\
    time_decay_factor r = Some decay /\
    location_factor r = Some (factor loc) /\
    (d <= MAX_DISTANCE_KM DVE_CONFIG ->
       is_rejected r = false /\
       0 <= factor loc <= 1 /\
       dve_score r = Some (trust * decay * factor loc) /\
       0 <= trust * decay * factor loc <= 1 /\
       (scores_in_range db -> scores_in_range db')) /\
    (d > MAX_DISTANCE_KM DVE_CONFIG ->
       is_rejected r = true /\
       dve_score r = Some 0 /\
       (scores_in_range db -> scores_in_range db')) /\
    (forall s rid' res,
       body (fst (serve clk db req)) = BodySubmit s rid' res ->
       rid' = Some rid /\ Some (score res) = dve_score r /\
       trustScore res = trust /\ timeDecay res = decay /\
       locationFactor res = factor loc).
Proof.
  intros Hr Hacc. cbn zeta.
  fold (trust_for db uid).
  destruct (serve_accepted_rows clk db req _ _ _ _ _ _ _ Hacc)
    as (Hreports & Htrust & _ & Hnew & Hfind).
  cbn zeta in Hreports, Hnew, Hfind.
  set (r := scored_row clk db sid ft uid ulat ulon slat slon) in *.
  set (ids := verified_ids (clock_now clk) sid (crowdsourced_reports db ++ [r])) in *.
  destruct (scored_row_score clk db sid ft uid ulat ulon slat slon Hr)
    as (v & Hv & Hrange). fold r in Hv.
  assert (Hscores : scores_in_range db -> scores_in_range (snd (serve clk db req))).
  { intros Hs. unfold scores_in_range. rewrite Hreports.
    rewrite Forall_map, Forall_app. split.
    - eapply Forall_impl; [| exact Hs]. cbn beta. intros a (w & Hw & Hwr).
      exists w. destruct (mark_fields ids a) as (_ & _ & _ & _ & -> & _). auto.
    - constructor; [| constructor]. exists v.
      destruct (mark_fields ids r) as (_ & _ & _ & _ & -> & _). auto. }
  split; [generalize (trust_for_range db uid Hr); unfold_config; lra |].
  split; [apply calculateTimeDecay_lag_range |].
  split; [unfold trust_in_range; rewrite Htrust; now apply ensure_trust_range |].
  exists (mark ids r).
  destruct (mark_fields ids r)
    as (Hsid & Huid & Hft & _ & Hdve & Hrej & _ & Hts & Htd & Hlf).
  rewrite Hsid, Huid, Hft, Hdve, Hrej, Hts, Htd, Hlf.
  change (next_report_id (crowdsourced_reports db)) with (report_id r).
  split; [exact Hnew |]. split; [exact Hfind |].
  unfold r at 1 2 3 4 5 6 7 8 9 10. unfold scored_row.
  cbn [station_id fuel_type anonymous_user_id trust_score_at_submission
       time_decay_factor location_factor is_rejected dve_score].
  repeat (split; [reflexivity |]).
  split; [| split].
  - intros Hd. unfold_config.
    assert (Hvalid : isValid (calculateLocationFactor (ToNumber ulat) (ToNumber ulon)
                                                      slat slon) = true).
    { destruct (isValid _) eqn:Hv'; [reflexivity |].
      apply calculateLocationFactor_valid_iff in Hv'. lra. }
    unfold r, scored_row in Hv. cbn [dve_score] in Hv. rewrite Hvalid in Hv.
    inversion Hv as [Hv']. rewrite Hvalid. cbn [negb].
    split; [reflexivity |].
    split; [apply calculateLocationFactor_range |].
    split; [reflexivity |]. split; [rewrite Hv'; exact Hrange | exact Hscores].
  - intros Hd. unfold_config.
    assert (Hvalid : isValid (calculateLocationFactor (ToNumber ulat) (ToNumber ulon)
                                                      slat slon) = false).
    { apply calculateLocationFactor_valid_iff. lra. }
    rewrite Hvalid. cbn [negb]. auto.
  - intros s rid' res Hb.
    rewrite (serve_accepted_db _ _ _ _ _ _ _ _ _ _ Hacc) in Hb. cbn [fst] in Hb.
    fold r in Hb.
    destruct (submission_response_body _ _ _ _ _ _ _ Hb) as [_ Heq].
    rewrite Heq in Hb. cbn [submit_response body] in Hb.
    inversion Hb as [[Hs Hrid Hres]]. unfold r, scored_row.
    cbn [report_id score trustScore timeDecay locationFactor dve_score
         trust_score_at_submission time_decay_factor location_factor or_zero].
    repeat split.
Qed.

Lemma pune_request_accepted (db : DB) (ft uid : string) (ulat ulon : R) :
  fuel_stations db = fuel_stations empty_db ->
  ft <> ""%string -> uid <> ""%string ->
  validated_input db (valid_request "S1" ft uid ulat ulon)
                  "S1" ft uid (Some ulat) (Some ulon) 18.5204 73.8567.
Proof.
  intros Hst Hft Huid. unfold validated_input, valid_request, report.
  cbn [method action report_member in_station_id in_fuel_type
       in_anonymous_user_id in_user_lat in_user_lon coordinate_value].
  repeat split; try assumption; try discriminate; try lra.
  exists pune_station. unfold select_station. rewrite Hst.
  repeat split.
Qed.

(** ** The rejection branch *)

Lemma verified_ids_stored (now : Z) (sid : string) (rs : list Report) (n : nat) :
  In n (verified_ids now sid rs) ->
  exists r, In r rs /\ report_id r = n /\ station_id r = sid /\ is_rejected r = false.
Proof.
  intros Hin. apply verified_ids_In in Hin as (_ & r & Hr & Hn & _).
  apply window_In in Hr as (Hr & Hs & Hrej). exists r. auto.
Qed.

(** A rejected row with a fresh identifier is never flagged. *)
Lemma rejected_not_flagged (now : Z) (sid : string) (rs : list Report) (r : Report) :
  is_rejected r = true ->
  (forall x, In x rs -> report_id x <> report_id r) ->
  ~ In (report_id r) (verified_ids now sid (rs ++ [r])).
Proof.
  intros Hrej Hfresh Hin.
  apply verified_ids_stored in Hin as (x & Hx & Hid & _ & Hxrej).
  apply in_app_or in Hx as [Hx | [<- | []]].
  - exact (Hfresh x Hx Hid).
  - congruence.
Qed.

Lemma window_snoc_rejected (now : Z) (sid : string) (rs : list Report) (r : Report) :
  is_rejected r = true -> window now sid (rs ++ [r]) = window now sid rs.
Proof.
  intros Hrej. unfold window. rewrite filter_app. cbn [filter].
  rewrite Hrej, andb_false_r. cbn [negb andb]. apply app_nil_r.
Qed.

(** A rejected row does not enter the consensus query, so it cannot make
    the block throw. *)
Lemma consensus_throws_snoc_rejected (now : Z) (sid : string) (rs : list Report)
  (r : Report) :
  is_rejected r = true ->
  consensus_throws now sid (rs ++ [r]) = consensus_throws now sid rs.
Proof.
  intros Hrej. unfold consensus_throws.
  now rewrite window_snoc_rejected by exact Hrej.
Qed.

(** A block that throws on the stored rows throws with one more row. *)
Lemma consensus_throws_snoc (now : Z) (sid : string) (rs : list Report)
  (r : Report) :
  consensus_throws now sid rs = true ->
  consensus_throws now sid (rs ++ [r]) = true.
Proof.
  unfold consensus_throws, window. rewrite filter_app, length_app, poisoned_app.
  intros H. apply andb_true_iff in H as [Hlen ->].
  apply Nat.leb_le in Hlen. apply andb_true_iff. split; [| reflexivity].
  apply Nat.leb_le. lia.
Qed.

Lemma scored_row_rejected (clk : Clock) (db : DB)
  (sid ft uid : string) (ulat ulon : option R) (slat slon : R) :
  isValid (calculateLocationFactor (ToNumber ulat) (ToNumber ulon) slat slon) = false ->
  let r := scored_row clk db sid ft uid ulat ulon slat slon in
  is_rejected r = true /\ is_verified r = false /\ dve_score r = Some 0 /\
  location_factor r = Some 0 /\
  rejection_reason r =
    Some ("User too far from station (" ++
          toFixed2 (calculateDistance (ToNumber ulat) (ToNumber ulon) slat slon) ++
          "km)")%string.
Proof.
  intros Hv. cbn zeta. unfold scored_row.
  cbn [is_rejected is_verified dve_score location_factor rejection_reason].
  rewrite Hv, calculateLocationFactor_distance.
  apply calculateLocationFactor_valid_iff in Hv.
  rewrite calculateLocationFactor_far by exact Hv.
  repeat split.
Qed.

(** C6.  A validated submission whose location result is invalid (the
    haversine distance [d] exceeds 2.0 km, and it stays below the [10^21]
    from which [toFixed] changes notation) is persisted as a new row with
    [is_rejected = true], [is_verified = false], [dve_score = 0] and the
    reason ["User too far from station (<int>.<frac>km)"], where [<int>] has
    at least one digit and no leading zero unless it is ["0"], [<frac>] has
    two digits, and the digits together are the numeral of the integer
    nearest to [100 d]; at [d = 3] the reason reads "3.00km".  When the
    consensus block does not throw, the response has status 200 and carries
    the row's identifier, score 0, the rejection flag and that reason; when
    it throws, the row is persisted all the same and the status is 500. *)
Theorem far_submission_rejected (clk : Clock) (db : DB) (req : Request)
  (sid ft uid : string) (ulat ulon : option R) (slat slon : R) :
  validated_input db req sid ft uid ulat ulon slat slon ->
  isValid (calculateLocationFactor (ToNumber ulat) (ToNumber ulon) slat slon) = false ->
  let d := calculateDistance (ToNumber ulat) (ToNumber ulon) slat slon in
  let out := serve clk db req in
  let throws := consensus_throws (clock_now clk) sid (crowdsourced_reports db) in
  MAX_DISTANCE_KM DVE_CONFIG < d < 10 ^ 21 /\
  exists (int frac : string) (digits : Decimal.uint) (rid : nat) (r : Report),
    let reason :=
      ("User too far from station (" ++ int ++ "." ++ frac ++ "km)")%string in
    (1 <= String.length int)%nat /\
    String.length frac = 2%nat /\
    (int = "0"%string \/ forall rest, int <> String "0" rest) /\
    NilZero.uint_of_string (int ++ frac) = Some digits /\
    Z.of_N (N.of_uint digits) = Zfloor (d * 100 + / 2) /\
    (d = 3 -> reason = "User too far from station (3.00km)"%string) /\
    find_report rid db = None /\
    find_report rid (snd out) = Some r /\
    station_id r = sid /\ fuel_type r = ft /\ anonymous_user_id r = uid /\
    is_rejected r = true /\ is_verified r = false /\
    dve_score r = Some 0 /\ location_factor r = Some 0 /\
    rejection_reason r = Some reason /\
    (throws = false ->
       exists res,
         fst out = {| status := 200; body := BodySubmit true (Some rid) res |} /\
         score res = 0 /\ locationFactor res = 0 /\
         isRejected res = true /\ rejectionReason res = Some reason) /\
    (throws = true -> status (fst out) = 500%nat).
Proof.
  intros Hacc Hv. cbn zeta.
  destruct (scored_row_rejected clk db sid ft uid ulat ulon slat slon Hv)
    as (Hrej & Hver & Hdve & Hlf & Hreason).
  destruct (serve_accepted_rows clk db req _ _ _ _ _ _ _ Hacc)
    as (_ & _ & _ & Hnew & Hfind).
  cbn zeta in Hnew, Hfind.
  set (r := scored_row clk db sid ft uid ulat ulon slat slon) in *.
  set (d := calculateDistance (ToNumber ulat) (ToNumber ulon) slat slon) in *.
  assert (Hd : d > 2) by now apply calculateLocationFactor_valid_iff.
  destruct (toFixed2_shape d) as (int & frac & digits & Hfmt & Hint & Hfrac &
                                  Hlead & Hdig & Hval); [lra |].
  assert (Hwords : ("User too far from station (" ++ toFixed2 d ++ "km)")%string =
                   ("User too far from station (" ++ int ++ "." ++ frac ++ "km)")%string).
  { rewrite Hfmt, !string_app_assoc. reflexivity. }
  rewrite Hwords in Hreason.
  assert (Hfresh : forall x, In x (crowdsourced_reports db) ->
                             report_id x <> report_id r).
  { intros x Hx. now apply scored_row_fresh. }
  rewrite mark_not_In in Hfind by now apply rejected_not_flagged.
  split.
  { generalize (calculateDistance_upper (ToNumber ulat) (ToNumber ulon) slat slon)
               PI_bounds.
    fold d. unfold_config. cbn [pow]. lra. }
  exists int, frac, digits, (report_id r), r.
  split; [exact Hint |]. split; [exact Hfrac |]. split; [exact Hlead |].
  split; [exact Hdig |]. split; [exact Hval |].
  split; [intros H3; rewrite <- Hwords, H3, toFixed2_3; reflexivity |].
  split; [exact Hnew |]. split; [exact Hfind |].
  do 3 (split; [reflexivity |]).
  split; [exact Hrej |]. split; [exact Hver |]. split; [exact Hdve |].
  split; [exact Hlf |]. split; [exact Hreason |].
  rewrite (serve_accepted_db _ _ _ _ _ _ _ _ _ _ Hacc). fold r. cbn [fst].
  unfold submission_response.
  rewrite consensus_throws_snoc_rejected by exact Hrej.
  split; intros Ht; rewrite Ht.
  - eexists. split; [reflexivity |].
    cbn [score locationFactor isRejected rejectionReason].
    rewrite Hdve, Hlf, Hrej, Hreason. repeat split.
  - reflexivity.
Qed.

Lemma three_km_south_distance :
  calculateDistance three_km_south 73.8567 18.5204 73.8567 = 3.
Proof.
  generalize PI_bounds; intros HPI. unfold three_km_south.
  assert (Hpos : 0 < 6371 * PI) by lra.
  assert (Hdeg : 0 < 540 / (6371 * PI) < 1).
  { split.
    - apply Rdiv_lt_0_compat; lra.
    - apply Rmult_lt_reg_r with (6371 * PI); [exact Hpos |].
      unfold Rdiv. rewrite Rmult_assoc, Rinv_l by lra. lra. }
  rewrite calculateDistance_south by lra. field. lra.
Qed.

Lemma far_request_accepted (db : DB) (uid : string) :
  fuel_stations db = fuel_stations empty_db ->
  uid <> ""%string ->
  validated_input db (far_request uid) "S1" "Diesel" uid
                  (Some three_km_south) (Some 73.8567) 18.5204 73.8567 /\
  isValid (calculateLocationFactor (ToNumber (Some three_km_south))
             (ToNumber (Some 73.8567)) 18.5204 73.8567) = false.
Proof.
  intros Hst Huid. split.
  - apply pune_request_accepted; [assumption | discriminate | assumption].
  - apply calculateLocationFactor_valid_iff. cbn [ToNumber].
    rewrite three_km_south_distance. lra.
Qed.

Lemma far_submission_rejected_witness :
  (exists rid r res,
     fst (serve noon empty_db (far_request "u1")) =
       {| status := 200; body := BodySubmit true (Some rid) res |} /\
     score res = 0 /\ isRejected res = true /\
     rejectionReason res = Some "User too far from station (3.00km)"%string /\
     find_report rid (snd (serve noon empty_db (far_request "u1"))) = Some r /\
     is_rejected r = true /\ dve_score r = Some 0 /\
     rejection_reason r = Some "User too far from station (3.00km)"%string) /\
  (exists rid r,
     status (fst (serve (at_station 1000) poisoned_db (far_request "u3"))) = 500%nat /\
     find_report rid poisoned_db = None /\
     find_report rid (snd (serve (at_station 1000) poisoned_db (far_request "u3")))
       = Some r /\
     is_rejected r = true /\ dve_score r = Some 0).
Proof.
  split.
  - destruct (far_request_accepted empty_db "u1" eq_refl ltac:(discriminate))
      as [Hacc Hv].
    destruct (far_submission_rejected noon empty_db _ _ _ _ _ _ _ _ Hacc Hv)
      as (_ & int & frac & digits & rid & r & _ & _ & _ & _ & _ & H3 & _ & Hfind &
          _ & _ & _ & Hrej & _ & Hdve & _ & Hreason & Hok & _).
    cbn zeta in H3, Hreason, Hok.
    specialize (H3 three_km_south_distance).
    destruct (Hok eq_refl) as (res & Hresp & Hs & _ & Hrj & Hrr).
    exists rid, r, res. rewrite <- H3. auto 10.
  - destruct (far_request_accepted poisoned_db "u3" eq_refl ltac:(discriminate))
      as [Hacc Hv].
    destruct (far_submission_rejected (at_station 1000) poisoned_db _ _ _ _ _ _ _ _
                Hacc Hv)
      as (_ & int & frac & digits & rid & r & _ & _ & _ & _ & _ & _ & Hnew & Hfind &
          _ & _ & _ & Hrej & _ & Hdve & _ & _ & _ & Hthrow).
    exists rid, r. split; [apply Hthrow; reflexivity |]. auto.
Defined.

Lemma dve_score_product_and_range_witness :
  (exists r,
     find_report 1 (snd (serve noon empty_db
                           (valid_request "S1" "Diesel" "u1" 18.5204 73.8567)))
       = Some r /\
     trust_score_at_submission r = Some (INITIAL_TRUST_SCORE DVE_CONFIG) /\
     is_rejected r = false /\
     dve_score r =
       Some (INITIAL_TRUST_SCORE DVE_CONFIG *
             calculateTimeDecay (1000 + 0) 1000 *
             factor (calculateLocationFactor 18.5204 73.8567 18.5204 73.8567)) /\
     0 <= INITIAL_TRUST_SCORE DVE_CONFIG *
          calculateTimeDecay (1000 + 0) 1000 *
          factor (calculateLocationFactor 18.5204 73.8567 18.5204 73.8567) <= 1) /\
  (exists r,
     find_report 1 (snd (serve noon empty_db (far_request "u1"))) = Some r /\
     is_rejected r = true /\ dve_score r = Some 0).
Proof.
  assert (Hrange : trust_in_range empty_db) by constructor.
  split.
  - assert (Hacc := pune_request_accepted empty_db "Diesel" "u1" 18.5204 73.8567
                      eq_refl ltac:(discriminate) ltac:(discriminate)).
    destruct (dve_score_product_and_range noon empty_db _ _ _ _ _ _ _ _ Hrange Hacc)
      as (_ & _ & _ & r & _ & Hfind & _ & _ & _ & Hts & _ & _ & Hnear & _ & _).
    cbn zeta in Hnear. destruct Hnear as (Hrej & _ & Hdve & Hbound & _).
    { cbn [ToNumber]. rewrite calculateDistance_same. unfold_config. lra. }
    exists r. auto.
  - destruct (far_request_accepted empty_db "u1" eq_refl ltac:(discriminate))
      as [Hacc _].
    destruct (dve_score_product_and_range noon empty_db _ _ _ _ _ _ _ _ Hrange Hacc)
      as (_ & _ & _ & r & _ & Hfind & _ & _ & _ & _ & _ & _ & _ & Hfar & _).
    cbn zeta in Hfar. destruct Hfar as (Hrej & Hdve & _).
    { cbn [ToNumber]. rewrite three_km_south_distance. unfold_config. lra. }
    exists r. auto.
Defined.

(** ** The consensus loop *)

Lemma nodup_all_equal {A : Type} (dec : forall x y : A, {x = y} + {x <> y})
  (u : A) (l : list A) :
  (forall x, In x l -> x = u) -> (List.length (nodup dec l) <= 1)%nat.
Proof.
  induction l as [| a l IH]; cbn; intros H; [lia |].
  destruct (in_dec dec a l) as [Hin | Hnot].
  - apply IH. intros x Hx. apply H. now right.
  - destruct l as [| b l]; [cbn; lia |].
    exfalso. apply Hnot. left.
    rewrite (H a) by now left. apply H. right. now left.
Qed.

(** The store a submission's consensus run starts from and the rows it
    leaves. *)
Lemma serve_accepted_reports (clk : Clock) (db : DB) (req : Request)
  (sid ft uid : string) (ulat ulon : option R) (slat slon : R) :
  validated_input db req sid ft uid ulat ulon slat slon ->
  let r := scored_row clk db sid ft uid ulat ulon slat slon in
  let rs := crowdsourced_reports db ++ [r] in
  crowdsourced_reports (snd (serve clk db req)) =
    map (mark (verified_ids (clock_now clk) sid rs)) rs /\
  forall s fuelType,
    find_verified s fuelType (snd (serve clk db req)) =
    if negb (consensus_throws (clock_now clk) sid rs) &&
       (s =? sid)%string &&
       group_passes (consensus_group_of (clock_now clk) sid fuelType rs)
    then Some (consensus_entry (clock_now clk) sid fuelType
                 (consensus_group_of (clock_now clk) sid fuelType rs))
    else find_verified s fuelType db.
Proof.
  intros Hacc. cbn zeta.
  rewrite (serve_accepted_store _ _ _ _ _ _ _ _ _ _ Hacc).
  destruct (ensure_trust_frame db uid) as (_ & Hrs & Hvf).
  split.
  - destruct (run_consensus_frame (clock_now clk) sid
                (insert_report (scored_row clk db sid ft uid ulat ulon slat slon)
                               (ensure_trust db uid))) as (_ & _ & Hreports).
    cbn [insert_report crowdsourced_reports] in Hreports.
    now rewrite Hrs in Hreports.
  - intros s fuelType. rewrite run_consensus_find.
    cbn [insert_report crowdsourced_reports]. rewrite Hrs.
    unfold find_verified. cbn [insert_report verified_fuel_data].
    now rewrite Hvf.
Qed.

(** Flagging rows changes neither the query's rows' fuel types nor their
    number. *)
Lemma consensus_throws_mark (now : Z) (sid : string) (ids : list nat)
  (rs : list Report) :
  consensus_throws now sid (map (mark ids) rs) = consensus_throws now sid rs.
Proof.
  unfold consensus_throws. rewrite window_mark, length_map. f_equal.
  unfold poisoned. induction (window now sid rs) as [| r l IH]; [reflexivity |].
  cbn [map existsb]. rewrite IH.
  now destruct (mark_fields ids r) as (_ & _ & -> & _).
Qed.

(** C3. Handling a request never creates or updates the Verified Fuel Entry
    of a (station, fuel type) whose windowed report group has fewer than
    [MIN_REPORTS_FOR_CONSENSUS = 2] distinct submitters; in particular not
    when all stored reports of that station and fuel type come from one
    submitter. *)
Theorem no_entry_below_two_submitters (clk : Clock) (db : DB) (req : Request)
  (s fuelType : string) :
  let db' := snd (serve clk db req) in
  ((uniqueUsers (consensus_group_of (clock_now clk) s fuelType
                                    (crowdsourced_reports db'))
    < MIN_REPORTS_FOR_CONSENSUS DVE_CONFIG)%nat ->
   find_verified s fuelType db' = find_verified s fuelType db) /\
  (forall u,
     (forall r, In r (crowdsourced_reports db') ->
                station_id r = s -> fuel_type r = fuelType ->
                anonymous_user_id r = u) ->
     find_verified s fuelType db' = find_verified s fuelType db).
Proof.
  cbn zeta.
  assert (Hmain :
    (uniqueUsers (consensus_group_of (clock_now clk) s fuelType
                    (crowdsourced_reports (snd (serve clk db req)))) < 2)%nat ->
    find_verified s fuelType (snd (serve clk db req)) = find_verified s fuelType db).
  { intros Hfew.
    destruct (serve_cases clk db req) as [[Hdb _] | Hacc]; [now rewrite Hdb |].
    destruct Hacc as (sid & ft & uid & ulat & ulon & slat & slon & Hacc).
    destruct (serve_accepted_reports clk db req _ _ _ _ _ _ _ Hacc) as [Hrs Hfind].
    rewrite Hfind. rewrite Hrs in Hfew.
    destruct (consensus_throws _ _ _); cbn [negb andb]; [reflexivity |].
    destruct (String.eqb_spec s sid) as [-> | Hs]; cbn [andb]; [| reflexivity].
    rewrite consensus_group_of_mark, uniqueUsers_mark in Hfew.
    destruct (group_passes _) eqn:Hp; [| reflexivity].
    apply group_passes_users in Hp. lia. }
  split; [exact Hmain |].
  intros u Hone. apply Hmain.
  apply Nat.le_lt_trans with 1%nat; [| lia].
  unfold uniqueUsers. apply (nodup_all_equal string_dec u).
  intros x Hx. apply in_map_iff in Hx as (r & <- & Hr).
  unfold consensus_group_of in Hr. apply filter_In in Hr as [Hr Hft].
  apply String.eqb_eq in Hft. apply window_In in Hr as (Hr & Hs & _).
  now apply Hone.
Qed.

(** C2.  After a validated submission, for each fuel type, with [grp] the
    group of windowed non-rejected reports of the station that carry it and
    [confidence = min 1.0 (mean dve_score + 0.2)]: when the consensus block
    does not throw, the status is 200; if [grp] has at least two distinct
    submitters and [confidence >= 0.4], the store holds under (station, fuel
    type) the entry with availability true, that confidence, the number of
    distinct submitters as verified-by count and the current instant as
    last-verified time, and every report of the group has
    [is_verified = true]; and an entry that this request wrote carries
    exactly that confidence.  When the block throws, because a windowed
    report names an inherited member as its fuel type, the status is 500,
    no entry is written and no report is flagged, whatever the groups. *)
Theorem consensus_publishes_entry (clk : Clock) (db : DB) (req : Request)
  (sid ft uid : string) (ulat ulon : option R) (slat slon : R) (fuelType : string) :
  validated_input db req sid ft uid ulat ulon slat slon ->
  let now := clock_now clk in
  let db' := snd (serve clk db req) in
  let grp := consensus_group_of now sid fuelType (crowdsourced_reports db') in
  let confidence :=
    Rmin 1.0 (mean (dve_scores grp) + CONSENSUS_BONUS DVE_CONFIG) in
  let throws := consensus_throws now sid (crowdsourced_reports db') in
  (throws = false ->
   status (fst (serve clk db req)) = 200%nat /\
   ((MIN_REPORTS_FOR_CONSENSUS DVE_CONFIG <= uniqueUsers grp)%nat ->
    confidence >= VERIFICATION_THRESHOLD DVE_CONFIG ->
    find_verified sid fuelType db' =
      Some {| vf_station_id := sid;
              vf_fuel_type := fuelType;
              is_available := true;
              confidence_score := confidence;
              verified_by_count := uniqueUsers grp;
              last_verified_at := now |} /\
    Forall (fun r => is_verified r = true) grp) /\
   (forall e,
      find_verified sid fuelType db' = Some e ->
      find_verified sid fuelType db <> Some e ->
      (MIN_REPORTS_FOR_CONSENSUS DVE_CONFIG <= uniqueUsers grp)%nat /\
      confidence >= VERIFICATION_THRESHOLD DVE_CONFIG /\
      confidence_score e = confidence)) /\
  (throws = true ->
   status (fst (serve clk db req)) = 500%nat /\
   verified_fuel_data db' = verified_fuel_data db /\
   exists r, crowdsourced_reports db' = crowdsourced_reports db ++ [r] /\
             is_verified r = false).
Proof.
  intros Hacc. cbn zeta.
  destruct (serve_accepted_reports clk db req _ _ _ _ _ _ _ Hacc) as [Hrs Hfind].
  cbn zeta in Hrs, Hfind.
  assert (Hstatus : status (fst (serve clk db req)) =
                    if consensus_throws (clock_now clk) sid
                         (crowdsourced_reports db ++
                          [scored_row clk db sid ft uid ulat ulon slat slon])
                    then 500%nat else 200%nat).
  { rewrite (serve_accepted_db _ _ _ _ _ _ _ _ _ _ Hacc). cbn [fst].
    apply submission_response_status. }
  assert (Hstore := serve_accepted_store clk _ _ _ _ _ _ _ _ _ Hacc).
  set (r := scored_row clk db sid ft uid ulat ulon slat slon) in *.
  set (rs := crowdsourced_reports db ++ [r]) in *.
  set (ids := verified_ids (clock_now clk) sid rs) in *.
  rewrite Hrs, consensus_throws_mark. split.
  - intros Hnt. rewrite Hnt in Hstatus. split; [exact Hstatus |].
    rewrite Hfind, Hnt, String.eqb_refl. cbn [negb andb].
    rewrite consensus_group_of_mark, uniqueUsers_mark, dve_scores_mark.
    set (grp := consensus_group_of (clock_now clk) sid fuelType rs).
    assert (Hfinal : finalScore grp =
                     Rmin 1.0 (mean (dve_scores grp) + CONSENSUS_BONUS DVE_CONFIG)).
    { unfold finalScore. now rewrite avgScore_mean. }
    rewrite <- Hfinal. split.
    + intros Husers Hconf.
      assert (Hp : group_passes grp = true) by now apply group_passes_iff.
      rewrite Hp. split; [reflexivity |].
      rewrite Forall_map. apply Forall_forall. intros x Hx.
      rewrite mark_In; [reflexivity |].
      unfold ids. apply verified_ids_In. split; [exact Hnt |]. exists x.
      unfold grp, consensus_group_of in Hx. apply filter_In in Hx as [Hx Hft].
      apply String.eqb_eq in Hft. rewrite Hft. fold grp. auto.
    + intros e He Hne. destruct (group_passes grp) eqn:Hp; [| contradiction].
      apply group_passes_iff in Hp as [Husers Hconf].
      inversion He; subst e. cbn [consensus_entry confidence_score].
      unfold_config. auto.
  - intros Ht. rewrite Ht in Hstatus. split; [exact Hstatus |].
    assert (Hsame : snd (serve clk db req) = insert_report r (ensure_trust db uid)).
    { rewrite Hstore. apply run_consensus_throws.
      now rewrite ensure_trust_throws. }
    destruct (ensure_trust_frame db uid) as (_ & Hrows & Hvf).
    split.
    + rewrite Hsame. cbn [insert_report verified_fuel_data]. exact Hvf.
    + exists r. split; [| reflexivity].
      rewrite <- Hrs, Hsame. cbn [insert_report crowdsourced_reports].
      now rewrite Hrows.
Qed.

(** ** Worked submissions at the station *)

Lemma calculateTimeDecay_now (now : Z) :
  calculateTimeDecay (now + Z.of_N 0) now = 1.
Proof.
  assert (Hage : ageHours (now + Z.of_N 0) now = 0).
  { unfold ageHours. replace (now + Z.of_N 0 - now)%Z with 0%Z by lia. lra. }
  rewrite calculateTimeDecay_young by lra.
  rewrite Hage. replace (0 / 24) with 0 by lra. apply Rpower_O. lra.
Qed.

Lemma calculateLocationFactor_same (lat lon : R) :
  calculateLocationFactor lat lon lat lon =
  {| factor := 1.0; distance := calculateDistance lat lon lat lon; isValid := true |}.
Proof.
  unfold calculateLocationFactor. rewrite calculateDistance_same. unfold_config.
  destruct (Rgt_dec 0 2.0); [lra |].
  destruct (Rle_dec 0 0.5); [reflexivity | lra].
Qed.

Lemma scored_row_at_station (now : Z) (db : DB) (ft uid : string) :
  scored_row (at_station now) db "S1" ft uid
             (Some 18.5204) (Some 73.8567) 18.5204 73.8567 =
  {| report_id := next_report_id (crowdsourced_reports db);
     station_id := "S1";
     anonymous_user_id := uid;
     fuel_type := ft;
     user_lat := Some 18.5204;
     user_lon := Some 73.8567;
     timestamp := now;
     trust_score_at_submission := Some (trust_for db uid);
     time_decay_factor := Some 1;
     location_factor := Some 1.0;
     dve_score := Some (trust_for db uid * 1 * 1.0);
     is_verified := false;
     is_rejected := false;
     rejection_reason := None |}.
Proof.
  unfold scored_row, at_station. cbn [clock_now clock_lag ToNumber].
  rewrite calculateLocationFactor_same, calculateTimeDecay_now.
  reflexivity.
Qed.

Lemma scored_report_at_station (now : Z) (db : DB) (uid : string) :
  scored_row (at_station now) db "S1" "Diesel" uid
             (Some 18.5204) (Some 73.8567) 18.5204 73.8567 =
  pune_row (next_report_id (crowdsourced_reports db)) uid now (trust_for db uid).
Proof. apply scored_row_at_station. Qed.

Lemma diesel_at_station_accepted (db : DB) (uid : string) :
  fuel_stations db = fuel_stations empty_db ->
  uid <> ""%string ->
  validated_input db (diesel_at_station uid) "S1" "Diesel" uid
                  (Some 18.5204) (Some 73.8567) 18.5204 73.8567.
Proof.
  intros Hst Huid. apply pune_request_accepted; [assumption | discriminate | assumption].
Qed.

(** Scenario D: the submitter of the stored report reports Diesel again. *)
Lemma scenario_D_group :
  exists ids,
    consensus_group_of 1000 "S1" "Diesel"
      (crowdsourced_reports
         (snd (serve (at_station 1000) one_report_db (diesel_at_station "u1")))) =
    map (mark ids) [pune_row 1 "u1" 0 0.6; pune_row 2 "u1" 1000 0.6].
Proof.
  assert (Hacc := diesel_at_station_accepted one_report_db "u1" eq_refl
                    ltac:(discriminate)).
  destruct (serve_accepted_reports (at_station 1000) _ _ _ _ _ _ _ _ _ Hacc)
    as [Hrs _].
  rewrite Hrs, scored_report_at_station.
  eexists. rewrite consensus_group_of_mark. reflexivity.
Qed.

Lemma no_entry_below_two_submitters_witness :
  find_verified "S1" "Diesel"
    (snd (serve (at_station 1000) one_report_db (diesel_at_station "u1"))) = None.
Proof.
  change None with (find_verified "S1" "Diesel" one_report_db).
  apply (no_entry_below_two_submitters (at_station 1000) one_report_db
           (diesel_at_station "u1") "S1" "Diesel").
  destruct scenario_D_group as [ids Hgrp].
  change (clock_now (at_station 1000)) with 1000%Z.
  rewrite Hgrp, uniqueUsers_mark.
  apply Nat.ltb_lt. reflexivity.
Defined.

(** Scenario C: a second submitter reports Diesel. *)
Lemma scenario_C_group :
  exists ids,
    consensus_group_of 1000 "S1" "Diesel"
      (crowdsourced_reports
         (snd (serve (at_station 1000) one_report_db (diesel_at_station "u2")))) =
    map (mark ids) [pune_row 1 "u1" 0 0.6; pune_row 2 "u2" 1000 0.5].
Proof.
  assert (Hacc := diesel_at_station_accepted one_report_db "u2" eq_refl
                    ltac:(discriminate)).
  destruct (serve_accepted_reports (at_station 1000) _ _ _ _ _ _ _ _ _ Hacc)
    as [Hrs _].
  rewrite Hrs, scored_report_at_station.
  eexists. rewrite consensus_group_of_mark. reflexivity.
Qed.

Lemma scenario_C_confidence :
  Rmin 1.0 (mean (dve_scores [pune_row 1 "u1" 0 0.6; pune_row 2 "u2" 1000 0.5])
            + CONSENSUS_BONUS DVE_CONFIG) = 0.75.
Proof.
  unfold mean, dve_scores, pune_row. unfold_config.
  cbn [map dve_score or_zero fold_right List.length INR].
  rewrite Rmin_right; lra.
Qed.

(** The same submission on the poisoned store: the Diesel group is the
    same pair of reports, next to the report that names [toString]. *)
Lemma poisoned_rows :
  exists ids,
    crowdsourced_reports
      (snd (serve (at_station 1000) poisoned_db (diesel_at_station "u2"))) =
    map (mark ids) [pune_row 1 "u1" 0 0.6; poison_row 2 "u9" 500 0.5;
                    pune_row 3 "u2" 1000 0.5].
Proof.
  assert (Hacc := diesel_at_station_accepted poisoned_db "u2" eq_refl
                    ltac:(discriminate)).
  destruct (serve_accepted_reports (at_station 1000) _ _ _ _ _ _ _ _ _ Hacc)
    as [Hrs _].
  rewrite Hrs, scored_report_at_station.
  eexists. reflexivity.
Qed.

Lemma poisoned_pair_confidence :
  Rmin 1.0 (mean (dve_scores [pune_row 1 "u1" 0 0.6; pune_row 3 "u2" 1000 0.5])
            + CONSENSUS_BONUS DVE_CONFIG) = 0.75.
Proof.
  unfold mean, dve_scores, pune_row. unfold_config.
  cbn [map dve_score or_zero fold_right List.length INR].
  rewrite Rmin_right; lra.
Qed.

Lemma consensus_publishes_entry_witness :
  (let out := serve (at_station 1000) one_report_db (diesel_at_station "u2") in
   let grp := consensus_group_of 1000 "S1" "Diesel" (crowdsourced_reports (snd out)) in
   uniqueUsers grp = 2%nat /\
   Rmin 1.0 (mean (dve_scores grp) + CONSENSUS_BONUS DVE_CONFIG) = 0.75 /\
   status (fst out) = 200%nat /\
   find_verified "S1" "Diesel" (snd out) =
     Some {| vf_station_id := "S1";
             vf_fuel_type := "Diesel";
             is_available := true;
             confidence_score :=
               Rmin 1.0 (mean (dve_scores grp) + CONSENSUS_BONUS DVE_CONFIG);
             verified_by_count := uniqueUsers grp;
             last_verified_at := 1000 |} /\
   Forall (fun r => is_verified r = true) grp) /\
  (let out := serve (at_station 1000) poisoned_db (diesel_at_station "u2") in
   let grp := consensus_group_of 1000 "S1" "Diesel" (crowdsourced_reports (snd out)) in
   uniqueUsers grp = 2%nat /\
   Rmin 1.0 (mean (dve_scores grp) + CONSENSUS_BONUS DVE_CONFIG) = 0.75 /\
   status (fst out) = 500%nat /\
   find_verified "S1" "Diesel" (snd out) = None /\
   exists r, crowdsourced_reports (snd out) =
             crowdsourced_reports poisoned_db ++ [r] /\ is_verified r = false).
Proof.
  split; cbn zeta.
  - assert (Hacc := diesel_at_station_accepted one_report_db "u2" eq_refl
                      ltac:(discriminate)).
    destruct scenario_C_group as [ids Hgrp].
    assert (Husers :
      uniqueUsers (consensus_group_of 1000 "S1" "Diesel"
        (crowdsourced_reports
           (snd (serve (at_station 1000) one_report_db (diesel_at_station "u2")))))
      = 2%nat).
    { rewrite Hgrp, uniqueUsers_mark. reflexivity. }
    assert (Hconf :
      Rmin 1.0 (mean (dve_scores (consensus_group_of 1000 "S1" "Diesel"
        (crowdsourced_reports
           (snd (serve (at_station 1000) one_report_db (diesel_at_station "u2"))))))
        + CONSENSUS_BONUS DVE_CONFIG) = 0.75).
    { rewrite Hgrp, dve_scores_mark. apply scenario_C_confidence. }
    destruct (consensus_publishes_entry (at_station 1000) one_report_db
                (diesel_at_station "u2") _ _ _ _ _ _ _ "Diesel" Hacc)
      as [Hok _].
    destruct Hok as (Hstatus & Hpub & _).
    { destruct (serve_accepted_reports (at_station 1000) _ _ _ _ _ _ _ _ _ Hacc)
        as [Hrs _].
      rewrite Hrs, consensus_throws_mark, scored_report_at_station. reflexivity. }
    split; [exact Husers |]. split; [exact Hconf |]. split; [exact Hstatus |].
    apply Hpub.
    + change (clock_now (at_station 1000)) with 1000%Z.
      rewrite Husers. unfold_config. lia.
    + change (clock_now (at_station 1000)) with 1000%Z.
      rewrite Hconf. unfold_config. lra.
  - assert (Hacc := diesel_at_station_accepted poisoned_db "u2" eq_refl
                      ltac:(discriminate)).
    destruct poisoned_rows as [ids Hrows].
    destruct (consensus_publishes_entry (at_station 1000) poisoned_db
                (diesel_at_station "u2") _ _ _ _ _ _ _ "Diesel" Hacc)
      as [_ Hthrown].
    destruct Hthrown as (Hstatus & Hsame & Hnew).
    { rewrite Hrows, consensus_throws_mark. reflexivity. }
    rewrite Hrows, consensus_group_of_mark, uniqueUsers_mark, dve_scores_mark.
    change (consensus_group_of 1000 "S1" "Diesel"
              [pune_row 1 "u1" 0 0.6; poison_row 2 "u9" 500 0.5;
               pune_row 3 "u2" 1000 0.5])
      with [pune_row 1 "u1" 0 0.6; pune_row 3 "u2" 1000 0.5].
    split; [reflexivity |]. split; [apply poisoned_pair_confidence |].
    split; [exact Hstatus |]. split.
    + unfold find_verified. rewrite Hsame. reflexivity.
    + rewrite <- Hrows. exact Hnew.
Defined.

(** ** Rejected submissions and the consensus run *)

Lemma consensus_group_insert (now : Z) (sid : string) (db : DB) (r : Report)
  (ft : string) (grp : list Report) :
  (forall x, In x grp -> report_id x <> report_id r) ->
  consensus_group now sid (insert_report r db) (ft, grp) =
  insert_report r (consensus_group now sid db (ft, grp)).
Proof.
  intros Hfresh. rewrite !consensus_group_eq.
  destruct (group_passes grp); [| reflexivity].
  unfold insert_report.
  cbn [fuel_stations user_trust_scores crowdsourced_reports verified_fuel_data].
  f_equal. rewrite map_app. cbn [map]. f_equal. f_equal.
  apply mark_not_In. intros Hin. apply in_map_iff in Hin as (x & Hid & Hx).
  exact (Hfresh x Hx Hid).
Qed.

Lemma consensus_fold_insert (now : Z) (sid : string)
  (gs : list (string * list Report)) (db : DB) (r : Report) :
  (forall ft grp x, In (ft, grp) gs -> In x grp -> report_id x <> report_id r) ->
  fold_left (consensus_group now sid) gs (insert_report r db) =
  insert_report r (fold_left (consensus_group now sid) gs db).
Proof.
  revert db. induction gs as [| [ft grp] gs IH]; intros db Hfresh; [reflexivity |].
  cbn [fold_left]. rewrite consensus_group_insert.
  - apply IH. intros ft' grp' x Hin. apply (Hfresh ft' grp' x). now right.
  - intros x Hx. apply (Hfresh ft grp x); [now left | assumption].
Qed.

(** Appending a rejected row with a fresh identifier commutes with a
    consensus run. *)
Lemma run_consensus_insert_rejected (now : Z) (sid : string) (db : DB) (r : Report) :
  is_rejected r = true ->
  (forall x, In x (crowdsourced_reports db) -> report_id x <> report_id r) ->
  run_consensus now sid (insert_report r db) =
  insert_report r (run_consensus now sid db).
Proof.
  intros Hrej Hfresh. rewrite !run_consensus_eq.
  cbn [insert_report crowdsourced_reports].
  rewrite window_snoc_rejected by exact Hrej.
  destruct (_ && _); [| reflexivity].
  apply (consensus_fold_insert now sid _ db r).
  intros ft grp x Hin Hx.
  destruct (plain_groups_In _ _ _ Hin) as [-> _].
  apply filter_In in Hx as [Hx _]. apply window_In in Hx as [Hx _].
  now apply Hfresh.
Qed.

Lemma run_consensus_ensure_trust (now : Z) (sid uid : string) (db : DB) :
  crowdsourced_reports (run_consensus now sid (ensure_trust db uid)) =
    crowdsourced_reports (run_consensus now sid db) /\
  forall s ft,
    find_verified s ft (run_consensus now sid (ensure_trust db uid)) =
    find_verified s ft (run_consensus now sid db).
Proof.
  destruct (ensure_trust_frame db uid) as (_ & Hrs & Hvf).
  split.
  - destruct (run_consensus_frame now sid (ensure_trust db uid)) as (_ & _ & ->).
    destruct (run_consensus_frame now sid db) as (_ & _ & ->).
    now rewrite Hrs.
  - intros s ft. rewrite !run_consensus_find, Hrs.
    unfold find_verified. now rewrite Hvf.
Qed.

(** The store a rejected submission leaves. *)
Lemma serve_rejected_db (clk : Clock) (db : DB) (req : Request)
  (sid ft uid : string) (ulat ulon : option R) (slat slon : R) :
  validated_input db req sid ft uid ulat ulon slat slon ->
  isValid (calculateLocationFactor (ToNumber ulat) (ToNumber ulon) slat slon) = false ->
  snd (serve clk db req) =
  insert_report (scored_row clk db sid ft uid ulat ulon slat slon)
                (run_consensus (clock_now clk) sid (ensure_trust db uid)).
Proof.
  intros Hacc Hv.
  rewrite (serve_accepted_store _ _ _ _ _ _ _ _ _ _ Hacc).
  destruct (scored_row_rejected clk db sid ft uid ulat ulon slat slon Hv)
    as (Hrej & _).
  apply run_consensus_insert_rejected; [exact Hrej |].
  destruct (ensure_trust_frame db uid) as (_ & -> & _).
  intros x Hx. now apply scored_row_fresh.
Qed.


(** The response to a rejected submission. *)
Lemma serve_rejected_response (clk : Clock) (db : DB) (req : Request)
  (sid ft uid : string) (ulat ulon : option R) (slat slon : R) :
  validated_input db req sid ft uid ulat ulon slat slon ->
  isValid (calculateLocationFactor (ToNumber ulat) (ToNumber ulon) slat slon) = false ->
  fst (serve clk db req) =
  if consensus_throws (clock_now clk) sid (crowdsourced_reports db)
  then json_error 500 push_error
  else submit_response (scored_row clk db sid ft uid ulat ulon slat slon).
Proof.
  intros Hacc Hv.
  rewrite (serve_accepted_db _ _ _ _ _ _ _ _ _ _ Hacc). cbn [fst].
  unfold submission_response.
  destruct (scored_row_rejected clk db sid ft uid ulat ulon slat slon Hv)
    as (Hrej & _).
  now rewrite consensus_throws_snoc_rejected.
Qed.

(** Evaluates [consensus_throws] on rows that are given. *)
Ltac no_throw :=
  match goal with
  | |- context [consensus_throws ?n ?s ?rs] =>
      change (consensus_throws n s rs) with false; cbn [negb andb]
  end.

Lemma one_report_db_reached :
  snd (serve (at_station 0) seeded_db (diesel_at_station "u1")) = one_report_db.
Proof.
  assert (Hacc := diesel_at_station_accepted seeded_db "u1" eq_refl
                    ltac:(discriminate)).
  rewrite (serve_accepted_db (at_station 0) _ _ _ _ _ _ _ _ _ Hacc).
  rewrite scored_report_at_station. reflexivity.
Qed.

Lemma diesel_pair_passes :
  group_passes [pune_row 1 "u1" 0 0.6; pune_row 2 "u2" 1000 0.5] = true.
Proof.
  apply group_passes_iff. split; [apply Nat.leb_le; reflexivity |].
  unfold finalScore. rewrite avgScore_mean, scenario_C_confidence. lra.
Qed.

Lemma two_report_db_facts :
  fuel_stations two_report_db = fuel_stations empty_db /\
  (exists ids,
     crowdsourced_reports two_report_db =
     map (mark ids) [pune_row 1 "u1" 0 0.6; pune_row 2 "u2" 1000 0.5]) /\
  find_verified "S1" "Diesel" two_report_db =
    Some (consensus_entry 1000 "S1" "Diesel"
            [pune_row 1 "u1" 0 0.6; pune_row 2 "u2" 1000 0.5]).
Proof.
  assert (Hacc := diesel_at_station_accepted one_report_db "u2" eq_refl
                    ltac:(discriminate)).
  unfold two_report_db. split; [| split].
  - now destruct (serve_accepted_rows (at_station 1000) _ _ _ _ _ _ _ _ _ Hacc)
      as (_ & _ & Hst & _).
  - destruct (serve_accepted_reports (at_station 1000) _ _ _ _ _ _ _ _ _ Hacc)
      as [Hrs _].
    rewrite Hrs, scored_report_at_station. eexists. reflexivity.
  - destruct (serve_accepted_reports (at_station 1000) _ _ _ _ _ _ _ _ _ Hacc)
      as [_ Hfind].
    rewrite Hfind, scored_report_at_station. no_throw.
    change (consensus_group_of (clock_now (at_station 1000)) "S1" "Diesel"
              (crowdsourced_reports one_report_db ++
               [pune_row (next_report_id (crowdsourced_reports one_report_db)) "u2"
                         1000 (trust_for one_report_db "u2")]))
      with [pune_row 1 "u1" 0 0.6; pune_row 2 "u2" 1000 0.5].
    rewrite diesel_pair_passes. reflexivity.
Qed.


(** A rejected submission rewrites an entry that exists.  After two
    submitters have confirmed Diesel at instant 1000, a third submission
    from 3 km away at instant 2000 is rejected, and yet the Verified Fuel
    Entry of (S1, Diesel) is written again: its last-verified time moves
    from 1000 to 2000. *)
Lemma rejected_submission_refreshes_entry :
  let out := serve (at_station 2000) two_report_db (far_request "u3") in
  (exists rid res,
     body (fst out) = BodySubmit true rid res /\ isRejected res = true) /\
  option_map last_verified_at (find_verified "S1" "Diesel" two_report_db)
    = Some 1000%Z /\
  option_map last_verified_at (find_verified "S1" "Diesel" (snd out))
    = Some 2000%Z /\
  ~ rejected_submission_is_inert.
Proof.
  cbn zeta.
  destruct two_report_db_facts as (Hst & (ids & Hrs) & Hfind).
  destruct (far_request_accepted two_report_db "u3" Hst ltac:(discriminate))
    as [Hacc Hv].
  assert (Hresp : exists rid res,
    body (fst (serve (at_station 2000) two_report_db (far_request "u3"))) =
      BodySubmit true rid res /\ isRejected res = true).
  { rewrite (serve_rejected_response (at_station 2000) _ _ _ _ _ _ _ _ _ Hacc Hv).
    rewrite Hrs, consensus_throws_mark. no_throw.
    eexists. eexists. split; [reflexivity |]. cbn [isRejected].
    now destruct (scored_row_rejected (at_station 2000) two_report_db
                    "S1" "Diesel" "u3" _ _ _ _ Hv) as (-> & _). }
  assert (Hold : option_map last_verified_at
                   (find_verified "S1" "Diesel" two_report_db) = Some 1000%Z).
  { rewrite Hfind. reflexivity. }
  assert (Hnew : option_map last_verified_at
                   (find_verified "S1" "Diesel"
                      (snd (serve (at_station 2000) two_report_db (far_request "u3"))))
                 = Some 2000%Z).
  { rewrite (serve_rejected_db (at_station 2000) _ _ _ _ _ _ _ _ _ Hacc Hv).
    unfold find_verified at 1. cbn [insert_report verified_fuel_data].
    fold (find_verified "S1" "Diesel"
            (run_consensus (clock_now (at_station 2000)) "S1"
                           (ensure_trust two_report_db "u3"))).
    destruct (run_consensus_ensure_trust (clock_now (at_station 2000)) "S1" "u3"
                two_report_db) as [_ ->].
    rewrite run_consensus_find, Hrs, consensus_group_of_mark, group_passes_mark,
      consensus_throws_mark.
    no_throw.
    change (consensus_group_of (clock_now (at_station 2000)) "S1" "Diesel"
              [pune_row 1 "u1" 0 0.6; pune_row 2 "u2" 1000 0.5])
      with [pune_row 1 "u1" 0 0.6; pune_row 2 "u2" 1000 0.5].
    rewrite diesel_pair_passes. reflexivity. }
  split; [exact Hresp |]. split; [exact Hold |]. split; [exact Hnew |].
  intros Hinert.
  destruct (Hinert (at_station 2000) two_report_db _ (far_request "u3") _
              (surjective_pairing _) Hresp) as [Hsame _].
  unfold find_verified in Hold, Hnew. rewrite Hsame, Hold in Hnew.
  discriminate.
Qed.

(** ** The admin projection *)

Lemma insert_desc_perm (r : Report) (l : list Report) :
  Permutation (insert_desc r l) (r :: l).
Proof.
  induction l as [| x l IH]; cbn; [reflexivity |].
  destruct (_ <=? _)%Z; [reflexivity |].
  rewrite IH. apply perm_swap.
Qed.

Lemma order_desc_perm (rs : list Report) : Permutation (order_desc rs) rs.
Proof.
  induction rs as [| r rs IH]; cbn; [reflexivity |].
  rewrite insert_desc_perm. now constructor.
Qed.

Lemma insert_desc_sorted (r : Report) (l : list Report) :
  StronglySorted newer_first l -> StronglySorted newer_first (insert_desc r l).
Proof.
  induction l as [| x l IH]; cbn; intros Hs.
  - constructor; constructor.
  - inversion Hs as [| ? ? Hs' Hall]; subst.
    destruct (Z.leb_spec (timestamp x) (timestamp r)) as [Hle | Hgt].
    + constructor; [assumption |]. constructor.
      * exact Hle.
      * eapply Forall_impl; [| exact Hall]. unfold newer_first. intros a Ha. lia.
    + constructor; [now apply IH |].
      apply Forall_forall. intros a Ha.
      apply (Permutation_in _ (insert_desc_perm r l)) in Ha.
      destruct Ha as [<- | Ha]; [unfold newer_first; lia |].
      rewrite Forall_forall in Hall. now apply Hall.
Qed.

Lemma order_desc_sorted (rs : list Report) :
  StronglySorted newer_first (order_desc rs).
Proof.
  induction rs as [| r rs IH]; cbn; [constructor | now apply insert_desc_sorted].
Qed.

Lemma StronglySorted_app_inv {A : Type} (R : A -> A -> Prop) (l1 l2 : list A) :
  StronglySorted R (l1 ++ l2) ->
  StronglySorted R l1 /\ forall x y, In x l1 -> In y l2 -> R x y.
Proof.
  induction l1 as [| a l1 IH]; cbn; intros Hs.
  - split; [constructor | intros x y []].
  - inversion Hs as [| ? ? Hs' Hall]; subst.
    destruct (IH Hs') as [Hl1 Hcross]. split.
    + constructor; [assumption |]. apply Forall_app in Hall. tauto.
    + intros x y [<- | Hx] Hy.
      * rewrite Forall_forall in Hall. apply Hall. apply in_or_app. now right.
      * now apply Hcross.
Qed.

Lemma order_desc_example :
  map report_id
    (order_desc [pune_row 1 "u1" 5 0.5; pune_row 2 "u2" 7 0.5; pune_row 3 "u3" 5 0.5])
  = [2; 1; 3]%nat.
Proof. reflexivity. Qed.

Lemma admin_reports_rows (db : DB) :
  map fst (admin_reports db) = firstn 100 (order_desc (crowdsourced_reports db)).
Proof.
  unfold admin_reports. rewrite map_map. cbn [fst]. apply map_id.
Qed.

(** C9, as the handler has it.  [get_admin_data] answers with status 200,
    every trust-score row, every Verified Fuel Entry, the constants of
    [DVE_CONFIG], and the 100 most recent reports, newest first, each row
    with the name of its station: the stored reports are, up to order, the
    returned ones together with those left out; at most 100 are returned;
    no report left out is newer than a returned one; and none is left out
    when at most 100 are stored.  The store is not changed. *)
Theorem admin_data_projection (clk : Clock) (db : DB) (req : Request) :
  method req <> "OPTIONS"%string ->
  action req = "get_admin_data"%string ->
  exists reps dropped,
    serve clk db req =
      ({| status := 200;
          body := BodyAdmin reps (user_trust_scores db) (admin_verified db)
                            DVE_CONFIG |}, db) /\
    map fst (admin_verified db) = verified_fuel_data db /\
    Forall (fun p => snd p = station_name db (vf_station_id (fst p)))
           (admin_verified db) /\
    Forall (fun p => snd p = station_name db (station_id (fst p))) reps /\
    let returned := map fst reps in
    let rs := crowdsourced_reports db in
    Permutation (returned ++ dropped) rs /\
    List.length returned = Nat.min 100 (List.length rs) /\
    StronglySorted newer_first returned /\
    (forall x y, In x returned -> In y dropped ->
                 (timestamp y <= timestamp x)%Z) /\
    ((List.length rs <= 100)%nat -> dropped = []).
Proof.
  intros Hm Ha.
  exists (admin_reports db), (skipn 100 (order_desc (crowdsourced_reports db))).
  split; [| split; [| split; [| split]]].
  - unfold serve. apply String.eqb_neq in Hm. rewrite Hm, Ha. reflexivity.
  - unfold admin_verified. rewrite map_map. cbn [fst]. apply map_id.
  - unfold admin_verified. rewrite Forall_map. apply Forall_forall.
    intros e _. reflexivity.
  - unfold admin_reports. rewrite Forall_map. apply Forall_forall.
    intros r _. reflexivity.
  - cbn zeta. rewrite admin_reports_rows.
    set (rs := crowdsourced_reports db).
    assert (Hperm := order_desc_perm rs).
    assert (Hsorted := order_desc_sorted rs).
    rewrite <- (firstn_skipn 100 (order_desc rs)) in Hsorted.
    apply StronglySorted_app_inv in Hsorted as [Hfirst Hcross].
    split; [| split; [| split; [| split]]].
    + now rewrite firstn_skipn.
    + rewrite length_firstn, (Permutation_length Hperm). reflexivity.
    + exact Hfirst.
    + intros x y Hx Hy. exact (Hcross x y Hx Hy).
    + intros Hlen. apply skipn_all2. now rewrite (Permutation_length Hperm).
Qed.

Lemma admin_data_projection_witness :
  exists reps dropped,
    serve noon crowded_db
      {| method := "POST"; action := "get_admin_data";
         report_member := ReportAbsent |} =
      ({| status := 200;
          body := BodyAdmin reps (user_trust_scores crowded_db)
                            (admin_verified crowded_db) DVE_CONFIG |},
       crowded_db) /\
    Permutation (map fst reps ++ dropped) (crowdsourced_reports crowded_db) /\
    List.length (map fst reps) = 100%nat /\
    List.length dropped = 1%nat /\
    Forall (fun y => Forall (fun x => (timestamp y <= timestamp x)%Z)
                            (map fst reps)) dropped.
Proof.
  destruct (admin_data_projection noon crowded_db
    {| method := "POST"; action := "get_admin_data";
       report_member := ReportAbsent |})
    as (reps & dropped & Hserve & _ & _ & _ & Hperm & Hlen & _ & Hcross & _).
  - discriminate.
  - reflexivity.
  - cbn zeta in Hperm, Hlen, Hcross.
    assert (Hall : List.length (crowdsourced_reports crowded_db) = 101%nat).
    { unfold crowded_db. cbn [crowdsourced_reports].
      now rewrite length_map, length_seq. }
    rewrite Hall in Hlen. cbn [Nat.min] in Hlen.
    exists reps, dropped. split; [exact Hserve |]. split; [exact Hperm |].
    split; [exact Hlen |]. split.
    + apply Permutation_length in Hperm. rewrite length_app, Hall, Hlen in Hperm.
      lia.
    + apply Forall_forall. intros y Hy. apply Forall_forall. intros x Hx.
      now apply Hcross.
Defined.

(** C9, counterexample.  With 101 stored reports the oldest one is missing
    from the returned [reports[]]. *)
Lemma admin_drops_oldest_report :
  In (pune_row 1 "u1" 1 0.5) (crowdsourced_reports crowded_db) /\
  ~ In (pune_row 1 "u1" 1 0.5) (map fst (admin_reports crowded_db)) /\
  ~ admin_returns_every_report.
Proof.
  assert (Hin : In (pune_row 1 "u1" 1 0.5) (crowdsourced_reports crowded_db))
    by (now left).
  assert (Hout : ~ In (pune_row 1 "u1" 1 0.5) (map fst (admin_reports crowded_db))).
  { intros Habs. apply (in_map report_id) in Habs.
    assert (Hex : existsb (Nat.eqb 1)
                    (map report_id (map fst (admin_reports crowded_db))) = true).
    { apply existsb_exists. exists 1%nat. split; [exact Habs | reflexivity]. }
    vm_compute in Hex. discriminate. }
  split; [exact Hin |]. split; [exact Hout |].
  intros Hall. destruct (Hall crowded_db _ Hin) as (reps & ts & vs & cfg & Hb & Hr).
  cbn [get_admin_data body] in Hb. inversion Hb; subst. contradiction.
Qed.

(** ** A rejected submission that publishes an entry *)

Lemma consensus_fold_none (now : Z) (sid : string)
  (gs : list (string * list Report)) (db : DB) :
  (forall ft grp, In (ft, grp) gs -> group_passes grp = false) ->
  fold_left (consensus_group now sid) gs db = db.
Proof.
  revert db. induction gs as [| [ft grp] gs IH]; intros db Hnone; [reflexivity |].
  cbn [fold_left]. rewrite consensus_group_eq, (Hnone ft grp) by now left.
  apply IH. intros ft' grp' Hin. apply (Hnone ft' grp'). now right.
Qed.

(** A run in which no group passes leaves the store as it is. *)
Lemma run_consensus_none (now : Z) (sid : string) (db : DB) :
  (forall ft, group_passes (consensus_group_of now sid ft (crowdsourced_reports db))
              = false) ->
  run_consensus now sid db = db.
Proof.
  intros Hnone. rewrite run_consensus_eq. destruct (_ && _); [| reflexivity].
  apply consensus_fold_none. intros ft grp Hin.
  destruct (plain_groups_In _ _ _ Hin) as [-> _]. apply Hnone.
Qed.

Lemma filter_all {A : Type} (f : A -> bool) (l : list A) :
  (forall x, In x l -> f x = true) -> filter f l = l.
Proof.
  induction l as [| a l IH]; cbn; intros H; [reflexivity |].
  rewrite (H a) by now left. f_equal. apply IH. intros x Hx. apply H. now right.
Qed.

(** When the window holds Diesel reports only, Diesel is the one group. *)
Lemma diesel_window_group (now : Z) (rs w : list Report) (ft : string) :
  window now "S1" rs = w ->
  (forall r, In r w -> fuel_type r = "Diesel"%string) ->
  consensus_group_of now "S1" ft rs = if ("Diesel" =? ft)%string then w else [].
Proof.
  intros Hw Hd. unfold consensus_group_of. rewrite Hw.
  destruct (String.eqb_spec "Diesel" ft) as [<- | Hne].
  - apply filter_all. intros r Hr. rewrite (Hd r Hr). reflexivity.
  - apply filter_none. intros r Hr. rewrite (Hd r Hr). now apply String.eqb_neq.
Qed.

Lemma group_passes_low (grp : list Report) :
  mean (dve_scores grp) < 0.2 -> group_passes grp = false.
Proof.
  intros Hlow. destruct (group_passes grp) eqn:Hp; [| reflexivity].
  apply group_passes_iff in Hp as [_ Hp].
  unfold finalScore in Hp. rewrite avgScore_mean in Hp. unfold_config.
  unfold Rmin in Hp. destruct (Rle_dec _ _); lra.
Qed.

Lemma diesel_window_pending (now : Z) (db : DB) (w : list Report) :
  window now "S1" (crowdsourced_reports db) = w ->
  (forall r, In r w -> fuel_type r = "Diesel"%string) ->
  mean (dve_scores w) < 0.2 ->
  run_consensus now "S1" db = db.
Proof.
  intros Hw Hd Hlow. apply run_consensus_none. intros ft.
  rewrite (diesel_window_group now _ w ft Hw Hd).
  destruct (_ =? _)%string; [now apply group_passes_low | reflexivity].
Qed.

Ltac all_diesel :=
  let r := fresh "r" in let Hr := fresh "Hr" in
  intros r Hr; cbn [In] in Hr;
  repeat (destruct Hr as [<- | Hr]; [reflexivity |]); destruct Hr.

Ltac low_mean :=
  unfold mean, dve_scores, pune_row;
  cbn [map dve_score or_zero fold_right List.length INR]; lra.

(** [pending_db] is what three submissions leave, starting from
    [low_trust_db]. *)
Lemma pending_db_reached :
  let db1 := snd (serve (at_station 0) low_trust_db (diesel_at_station "u1")) in
  let db2 := snd (serve (at_station hour) db1 (diesel_at_station "u2")) in
  let db3 := snd (serve (at_station (2 * hour)) db2 (diesel_at_station "u3")) in
  db3 = pending_db.
Proof.
  cbn zeta.
  pose (dbA := {| fuel_stations := fuel_stations empty_db;
                  user_trust_scores := user_trust_scores low_trust_db;
                  crowdsourced_reports := [pune_row 1 "u1" 0 0.1];
                  verified_fuel_data := [] |}).
  pose (dbB := {| fuel_stations := fuel_stations empty_db;
                  user_trust_scores := user_trust_scores low_trust_db;
                  crowdsourced_reports :=
                    [pune_row 1 "u1" 0 0.1; pune_row 2 "u2" hour 0.2];
                  verified_fuel_data := [] |}).
  assert (H1 : snd (serve (at_station 0) low_trust_db (diesel_at_station "u1")) = dbA).
  { rewrite (serve_accepted_db (at_station 0) _ _ _ _ _ _ _ _ _
               (diesel_at_station_accepted low_trust_db "u1" eq_refl
                  ltac:(discriminate))).
    rewrite scored_report_at_station. reflexivity. }
  rewrite H1. clear H1.
  assert (H2 : snd (serve (at_station hour) dbA (diesel_at_station "u2")) = dbB).
  { rewrite (serve_accepted_db (at_station hour) _ _ _ _ _ _ _ _ _
               (diesel_at_station_accepted dbA "u2" eq_refl ltac:(discriminate))).
    rewrite scored_report_at_station. cbn [snd].
    apply (diesel_window_pending _ _
             [pune_row 1 "u1" 0 0.1; pune_row 2 "u2" hour 0.2]).
    - reflexivity.
    - all_diesel.
    - low_mean. }
  rewrite H2. clear H2.
  rewrite (serve_accepted_db (at_station (2 * hour)) _ _ _ _ _ _ _ _ _
             (diesel_at_station_accepted dbB "u3" eq_refl ltac:(discriminate))).
  rewrite scored_report_at_station. cbn [snd].
  apply (diesel_window_pending _ _
           [pune_row 1 "u1" 0 0.1; pune_row 2 "u2" hour 0.2;
            pune_row 3 "u3" (2 * hour) 0.25]).
  - reflexivity.
  - all_diesel.
  - low_mean.
Qed.




(** ** Requests on which the handler departs from the claims *)

(** C2, failing input.  On [poisoned_db] a stored report names [toString] as
    its fuel type.  When a second submitter reports Diesel, the Diesel group
    has two distinct submitters and confidence 0.75, yet the request is
    answered with status 500 and no (S1, Diesel) entry is written. *)
Lemma poisoned_window_blocks_publication :
  let out := serve (at_station 1000) poisoned_db (diesel_at_station "u2") in
  let grp := consensus_group_of 1000 "S1" "Diesel" (crowdsourced_reports (snd out)) in
  uniqueUsers grp = 2%nat /\
  Rmin 1.0 (mean (dve_scores grp) + CONSENSUS_BONUS DVE_CONFIG) = 0.75 /\
  status (fst out) = 500%nat /\
  find_verified "S1" "Diesel" (snd out) = None /\
  ~ passing_group_is_published.
Proof.
  cbn zeta.
  assert (Hacc := diesel_at_station_accepted poisoned_db "u2" eq_refl
                    ltac:(discriminate)).
  destruct poisoned_rows as [ids Hrows].
  assert (Hthrows : consensus_throws 1000 "S1"
            (crowdsourced_reports poisoned_db ++
             [scored_row (at_station 1000) poisoned_db "S1" "Diesel" "u2"
                         (Some 18.5204) (Some 73.8567) 18.5204 73.8567]) = true)
    by (apply consensus_throws_snoc; reflexivity).
  assert (Husers : uniqueUsers (consensus_group_of 1000 "S1" "Diesel"
            (crowdsourced_reports
               (snd (serve (at_station 1000) poisoned_db (diesel_at_station "u2")))))
            = 2%nat).
  { rewrite Hrows, consensus_group_of_mark, uniqueUsers_mark. reflexivity. }
  assert (Hconf : Rmin 1.0 (mean (dve_scores (consensus_group_of 1000 "S1" "Diesel"
            (crowdsourced_reports
               (snd (serve (at_station 1000) poisoned_db (diesel_at_station "u2"))))))
            + CONSENSUS_BONUS DVE_CONFIG) = 0.75).
  { rewrite Hrows, consensus_group_of_mark, dve_scores_mark.
    change (consensus_group_of 1000 "S1" "Diesel"
              [pune_row 1 "u1" 0 0.6; poison_row 2 "u9" 500 0.5;
               pune_row 3 "u2" 1000 0.5])
      with [pune_row 1 "u1" 0 0.6; pune_row 3 "u2" 1000 0.5].
    apply poisoned_pair_confidence. }
  assert (Hnone : find_verified "S1" "Diesel"
            (snd (serve (at_station 1000) poisoned_db (diesel_at_station "u2")))
            = None).
  { destruct (serve_accepted_reports (at_station 1000) poisoned_db _ _ _ _ _ _ _ _
                Hacc) as [_ Hfind].
    cbn zeta in Hfind. rewrite Hfind.
    change (clock_now (at_station 1000)) with 1000%Z. rewrite Hthrows.
    reflexivity. }
  split; [exact Husers |]. split; [exact Hconf |]. split; [| split].
  - rewrite (serve_accepted_db _ _ _ _ _ _ _ _ _ _ Hacc). cbn [fst].
    rewrite submission_response_status.
    change (clock_now (at_station 1000)) with 1000%Z. now rewrite Hthrows.
  - exact Hnone.
  - intros Hpub.
    destruct (Hpub (at_station 1000) poisoned_db (diesel_at_station "u2")
                _ _ _ _ _ _ _ "Diesel"%string Hacc) as [e He].
    + change (clock_now (at_station 1000)) with 1000%Z. rewrite Husers.
      unfold_config. lia.
    + change (clock_now (at_station 1000)) with 1000%Z. rewrite Hconf.
      unfold_config. lra.
    + rewrite Hnone in He. discriminate.
Qed.

(** C6, failing input.  On [poisoned_db] a submission from 3 km away is
    persisted as rejected, with score 0, and the caller is answered with
    status 500. *)
Lemma rejected_submission_answered_500 :
  let out := serve (at_station 1000) poisoned_db (far_request "u3") in
  status (fst out) = 500%nat /\
  find_report 3 poisoned_db = None /\
  (exists r, find_report 3 (snd out) = Some r /\
             is_rejected r = true /\ dve_score r = Some 0) /\
  ~ rejection_is_success.
Proof.
  cbn zeta.
  destruct (far_request_accepted poisoned_db "u3" eq_refl ltac:(discriminate))
    as [Hacc Hv].
  assert (Hstatus :
    status (fst (serve (at_station 1000) poisoned_db (far_request "u3"))) = 500%nat).
  { rewrite (serve_accepted_db _ _ _ _ _ _ _ _ _ _ Hacc). cbn [fst].
    rewrite submission_response_status.
    change (clock_now (at_station 1000)) with 1000%Z.
    rewrite consensus_throws_snoc by reflexivity. reflexivity. }
  split; [exact Hstatus |]. split; [reflexivity |]. split.
  - destruct (serve_accepted_rows (at_station 1000) poisoned_db _ _ _ _ _ _ _ _ Hacc)
      as (_ & _ & _ & _ & Hfind). cbn zeta in Hfind.
    eexists. split; [exact Hfind |].
    destruct (scored_row_rejected (at_station 1000) poisoned_db "S1" "Diesel" "u3"
                _ _ _ _ Hv) as (Hrej & _ & Hdve & _).
    match goal with
    | |- context [mark ?ids ?r] =>
        destruct (mark_fields ids r) as (_ & _ & _ & _ & -> & -> & _)
    end.
    split; assumption.
  - intros Hok.
    rewrite (Hok (at_station 1000) poisoned_db (far_request "u3") _ _ _ _ _ _ _
               Hacc Hv) in Hstatus.
    discriminate.
Qed.

(** C7, failing input.  A submission whose latitude is [null] lacks a
    latitude, yet it is scored from latitude 0 and answered with status 200,
    and its report row and the trust row of its submitter are persisted; a
    request without a [report] member lacks every field and is answered
    with status 500. *)
Lemma null_latitude_submission_accepted :
  let out := serve noon empty_db null_latitude_request in
  lacks_field null_latitude_request /\
  status (fst out) = 200%nat /\
  (exists r, find_report 1 (snd out) = Some r /\ user_lat r = None) /\
  user_trust_scores (snd out) =
    [{| ts_anonymous_user_id := "u1";
        trust_score := Some (INITIAL_TRUST_SCORE DVE_CONFIG) |}] /\
  lacks_field bare_request /\
  status (fst (serve noon empty_db bare_request)) = 500%nat /\
  ~ missing_field_is_client_error.
Proof.
  cbn zeta.
  assert (Hacc : validated_input empty_db null_latitude_request
                   "S1" "Diesel" "u1" None (Some 73.8567) 18.5204 73.8567).
  { unfold validated_input, null_latitude_request, report.
    cbn [method action report_member in_station_id in_fuel_type
         in_anonymous_user_id in_user_lat in_user_lon coordinate_value].
    repeat split; try discriminate; try lra.
    exists pune_station. repeat split. }
  assert (Hlacks : lacks_field null_latitude_request).
  { right; right; right; left. intros x. discriminate. }
  assert (Hstatus : status (fst (serve noon empty_db null_latitude_request)) = 200%nat).
  { rewrite (serve_accepted_db _ _ _ _ _ _ _ _ _ _ Hacc). cbn [fst].
    rewrite submission_response_status, consensus_throws_short; [reflexivity |].
    eapply Nat.le_lt_trans; [apply window_length |].
    cbn [empty_db crowdsourced_reports app List.length]. lia. }
  destruct (serve_accepted_rows noon empty_db _ _ _ _ _ _ _ _ Hacc)
    as (_ & Htrust & _ & _ & Hfind). cbn zeta in Hfind.
  split; [exact Hlacks |]. split; [exact Hstatus |]. split; [| split; [| split; [| split]]].
  - eexists. split; [exact Hfind |].
    unfold mark. destruct (existsb _ _); reflexivity.
  - rewrite Htrust. reflexivity.
  - left. reflexivity.
  - reflexivity.
  - intros Hclaim.
    destruct (Hclaim noon empty_db null_latitude_request ltac:(discriminate)
                eq_refl Hlacks) as [H400 _].
    rewrite Hstatus in H400. discriminate.
Qed.

(** * Further properties of the engine *)

(** ** The haversine distance *)

Lemma calculateDistance_swap (lat1 lon1 lat2 lon2 : R) :
  calculateDistance lat1 lon1 lat2 lon2 = calculateDistance lat2 lon2 lat1 lon1.
Proof.
  unfold calculateDistance.
  replace ((lat1 - lat2) * (PI / 180) / 2)
    with (- ((lat2 - lat1) * (PI / 180) / 2)) by lra.
  replace ((lon1 - lon2) * (PI / 180) / 2)
    with (- ((lon2 - lon1) * (PI / 180) / 2)) by lra.
  rewrite !sin_neg.
  set (s1 := sin ((lat2 - lat1) * (PI / 180) / 2)).
  set (s2 := sin ((lon2 - lon1) * (PI / 180) / 2)).
  set (c1 := cos (lat1 * (PI / 180))). set (c2 := cos (lat2 * (PI / 180))).
  replace (- s1 * - s1 + c2 * c1 * - s2 * - s2)
    with (s1 * s1 + c1 * c2 * s2 * s2) by ring.
  reflexivity.
Qed.

(** X1. The distance does not depend on the order of the two points. *)
Theorem calculateDistance_sym (lat1 lon1 lat2 lon2 : R) :
  calculateDistance lat1 lon1 lat2 lon2 = calculateDistance lat2 lon2 lat1 lon1.
Proof. apply calculateDistance_swap. Qed.




(** X4. Two points on one meridian, less than 180 degrees of latitude apart,
    are as far apart as the arc between them is long: [6371] km times the
    difference of latitude in radians. *)
Theorem calculateDistance_along_meridian (lat1 lat2 lon : R) :
  Rabs (lat2 - lat1) < 180 ->
  calculateDistance lat1 lon lat2 lon = 6371 * (Rabs (lat2 - lat1) * (PI / 180)).
Proof.
  intros Habs. generalize PI_bounds; intros HPI.
  assert (Hk : 0 < PI / 180) by lra.
  destruct (Rle_dec lat1 lat2) as [Hle | Hgt].
  - rewrite Rabs_right in * by lra.
    apply calculateDistance_meridian. split; [apply Rmult_le_pos; lra |].
    replace PI with (180 * (PI / 180)) at 2 by lra.
    apply Rmult_lt_compat_r; lra.
  - rewrite Rabs_left in * by lra.
    rewrite calculateDistance_swap, calculateDistance_meridian.
    + f_equal. lra.
    + split; [apply Rmult_le_pos; lra |].
      replace PI with (180 * (PI / 180)) at 2 by lra.
      apply Rmult_lt_compat_r; lra.
Qed.

Lemma calculateDistance_along_meridian_witness :
  calculateDistance 18.5304 73.8567 18.5204 73.8567 =
  6371 * (Rabs (18.5204 - 18.5304) * (PI / 180)).
Proof.
  apply calculateDistance_along_meridian.
  rewrite Rabs_left by lra. lra.
Defined.

(** ** The decay model at its edges *)

Lemma ageHours_shift (dateNow ts k : Z) :
  ageHours (dateNow + k * MS_PER_HOUR) ts = ageHours dateNow ts + IZR k.
Proof.
  unfold ageHours, MS_PER_HOUR.
  replace (dateNow + k * (1000 * 60 * 60) - ts)%Z
    with ((dateNow - ts) + k * 3600000)%Z by lia.
  rewrite plus_IZR, mult_IZR. simpl (1000 * 60 * 60)%Z. field.
Qed.

(** X5. Half-life: while both ages are within the 168 hours, a report that
    is 24 hours older has exactly half the decay factor. *)
Theorem time_decay_halves (dateNow ts : Z) :
  ageHours dateNow ts + 24 <= 168 ->
  calculateTimeDecay (dateNow + 24 * MS_PER_HOUR) ts =
  calculateTimeDecay dateNow ts / 2.
Proof.
  intros Hage.
  rewrite (calculateTimeDecay_young (dateNow + 24 * MS_PER_HOUR) ts)
    by (rewrite ageHours_shift; lra).
  rewrite calculateTimeDecay_young by lra.
  rewrite ageHours_shift.
  replace ((ageHours dateNow ts + 24) / 24) with (ageHours dateNow ts / 24 + 1) by lra.
  rewrite Rpower_plus, Rpower_1 by lra. lra.
Qed.

Lemma time_decay_halves_witness :
  calculateTimeDecay (0 + 24 * MS_PER_HOUR) 0 = calculateTimeDecay 0 0 / 2.
Proof.
  apply time_decay_halves.
  unfold ageHours, MS_PER_HOUR. simpl (0 - 0)%Z. lra.
Defined.

(** X6. The decay factor jumps at the age limit and is not clamped below
    age 0: at exactly 168 hours it is still [1 / 128], one millisecond later
    it is 0; for an age in [[0, 168]] it lies in [[1 / 128, 1]]; and a
    timestamp in the future gives a factor above 1. *)
Theorem time_decay_edges (dateNow ts : Z) :
  let a := ageHours dateNow ts in
  (a = 168 -> calculateTimeDecay dateNow ts = 1 / 128 /\
              calculateTimeDecay (dateNow + 1) ts = 0) /\
  (0 <= a <= 168 -> 1 / 128 <= calculateTimeDecay dateNow ts <= 1) /\
  (a < 0 -> 1 < calculateTimeDecay dateNow ts).
Proof.
  cbn zeta.
  assert (H7 : Rpower 0.5 7 = 1 / 128).
  { replace 7 with (INR 7) by (simpl; lra). rewrite Rpower_pow by lra. lra. }
  split; [| split].
  - intros Ha. split.
    + rewrite calculateTimeDecay_young by lra. rewrite Ha.
      replace (168 / 24) with 7 by lra. exact H7.
    + apply calculateTimeDecay_stale.
      unfold ageHours in *. replace (dateNow + 1 - ts)%Z with ((dateNow - ts) + 1)%Z by lia.
      rewrite plus_IZR. unfold MS_PER_HOUR in *. simpl (1000 * 60 * 60)%Z in *. lra.
  - intros [H0 H168]. rewrite calculateTimeDecay_young by lra. split.
    + rewrite <- H7.
      destruct (Req_dec (ageHours dateNow ts / 24) 7) as [-> | Hne]; [lra |].
      left. apply Rpower_half_decreasing. lra.
    + apply Rpower_half_range. lra.
  - intros Hneg. rewrite calculateTimeDecay_young by lra.
    rewrite <- (Rpower_O 0.5) by lra. apply Rpower_half_decreasing. lra.
Qed.

Lemma time_decay_edges_witness :
  (calculateTimeDecay (168 * 3600000) 0 = 1 / 128 /\
   calculateTimeDecay (168 * 3600000 + 1) 0 = 0) /\
  1 / 128 <= calculateTimeDecay 3600000 0 <= 1 /\
  1 < calculateTimeDecay 0 3600000.
Proof.
  split; [| split].
  - apply (time_decay_edges (168 * 3600000) 0).
    unfold ageHours, MS_PER_HOUR. simpl (168 * 3600000 - 0)%Z. simpl (1000 * 60 * 60)%Z. lra.
  - apply (time_decay_edges 3600000 0).
    unfold ageHours, MS_PER_HOUR. simpl (3600000 - 0)%Z. simpl (1000 * 60 * 60)%Z. lra.
  - apply (time_decay_edges 0 3600000).
    unfold ageHours, MS_PER_HOUR. simpl (0 - 3600000)%Z. simpl (1000 * 60 * 60)%Z. lra.
Defined.

(** ** The location model as a whole *)



(** ** What a request does to the store *)

(** The store after any request. *)
Lemma serve_store_shape (clk : Clock) (db : DB) (req : Request) :
  snd (serve clk db req) = db \/
  exists sid ft uid ulat ulon slat slon,
    validated_input db req sid ft uid ulat ulon slat slon /\
    let r := scored_row clk db sid ft uid ulat ulon slat slon in
    let rs := crowdsourced_reports db ++ [r] in
    fst (serve clk db req) = submission_response (clock_now clk) sid rs r /\
    fuel_stations (snd (serve clk db req)) = fuel_stations db /\
    user_trust_scores (snd (serve clk db req)) =
      user_trust_scores (ensure_trust db uid) /\
    crowdsourced_reports (snd (serve clk db req)) =
      map (mark (verified_ids (clock_now clk) sid rs)) rs.
Proof.
  destruct (serve_cases clk db req) as [[Hdb _] | Hacc]; [now left |].
  right. destruct Hacc as (sid & ft & uid & ulat & ulon & slat & slon & Hacc).
  exists sid, ft, uid, ulat, ulon, slat, slon. split; [exact Hacc |]. cbn zeta.
  destruct (serve_accepted_reports clk db req _ _ _ _ _ _ _ Hacc) as [Hrs _].
  rewrite (serve_accepted_db _ _ _ _ _ _ _ _ _ _ Hacc) in *. cbn [fst snd] in *.
  destruct (run_consensus_frame (clock_now clk) sid
    (insert_report (scored_row clk db sid ft uid ulat ulon slat slon)
                   (ensure_trust db uid))) as (Hst & Htr & _).
  cbn [insert_report fuel_stations user_trust_scores] in Hst, Htr.
  destruct (ensure_trust_frame db uid) as (Hst' & _ & _).
  split; [reflexivity |]. split; [congruence |]. split; assumption.
Qed.

Lemma kept_or_flagged_map (ids : list nat) (rs : list Report) :
  Forall2 kept_or_flagged rs (map (mark ids) rs).
Proof.
  induction rs as [| r rs IH]; cbn; constructor; [| exact IH].
  unfold kept_or_flagged. destruct (mark_cases ids r) as [[-> _] | [-> _]]; auto.
Qed.

(** X8. Reports are append-only.  After any request every stored report is
    still at its place, either unchanged or with [is_verified] set to true
    and nothing else touched, and at most one row has been added at the
    end; a verified report stays verified. *)
Theorem stored_reports_persist (clk : Clock) (db : DB) (req : Request) :
  let rs := crowdsourced_reports db in
  let rs' := crowdsourced_reports (snd (serve clk db req)) in
  (List.length rs <= List.length rs' <= S (List.length rs))%nat /\
  Forall2 kept_or_flagged rs (firstn (List.length rs) rs') /\
  (forall r r', In (r, r') (combine rs rs') ->
                is_verified r = true -> r' = r).
Proof.
  cbn zeta.
  assert (Hshape : exists ids news,
    crowdsourced_reports (snd (serve clk db req)) =
      map (mark ids) (crowdsourced_reports db) ++ news /\
    (List.length news <= 1)%nat).
  { destruct (serve_store_shape clk db req)
      as [-> | (sid & ft & uid & ulat & ulon & slat & slon & _ & H)].
    - exists [], []. rewrite map_mark_nil, app_nil_r. split; [reflexivity | cbn; lia].
    - cbn zeta in H. destruct H as (_ & _ & _ & ->).
      eexists. eexists. rewrite map_app. split; [reflexivity | cbn; lia]. }
  destruct Hshape as (ids & news & -> & Hlen).
  set (rs := crowdsourced_reports db).
  assert (Hl : List.length (map (mark ids) rs) = List.length rs) by apply length_map.
  split; [| split].
  - rewrite length_app, Hl. lia.
  - rewrite <- Hl at 1. rewrite firstn_app, firstn_all, Nat.sub_diag. cbn [firstn].
    rewrite app_nil_r. apply kept_or_flagged_map.
  - intros r r' Hin Hver.
    assert (Hin' : In (r, r') (combine rs (map (mark ids) rs))).
    { clear - Hin. revert Hin. generalize news. induction rs as [| a rs IH];
        intros news' Hin; [destruct Hin |].
      cbn in *. destruct Hin as [Heq | Hin]; [now left |]. right. eapply IH. exact Hin. }
    clear Hin. induction rs as [| a rs IH]; [destruct Hin' |].
    cbn in Hin'. destruct Hin' as [Heq | Hin'].
    + inversion Heq; subst.
      destruct (mark_cases ids r) as [[-> _] | [-> _]]; [reflexivity |].
      destruct r; cbn in *. now subst.
    + apply IH; [| exact Hin']. apply length_map.
Qed.

Lemma select_trust_after_insert (db : DB) (uid : string) :
  (List.length (filter (fun t => (ts_anonymous_user_id t =? uid)%string)
                       (user_trust_scores db)) <= 1)%nat ->
  exists t,
    single (filter (fun t => (ts_anonymous_user_id t =? uid)%string)
                   (user_trust_scores (ensure_trust db uid))) = Some t /\
    nullish (trust_score t) (INITIAL_TRUST_SCORE DVE_CONFIG) = trust_for db uid.
Proof.
  intros Hlen. unfold ensure_trust, trust_for, select_trust.
  destruct (filter _ (user_trust_scores db)) as [| t [| t' l]] eqn:Hf.
  - cbn [single insert_trust user_trust_scores]. rewrite filter_app, Hf.
    cbn [filter ts_anonymous_user_id app]. rewrite String.eqb_refl.
    eexists. split; reflexivity.
  - cbn [single]. rewrite Hf. cbn [single]. exists t. split; reflexivity.
  - cbn in Hlen. lia.
Qed.

(** X9. The trust ledger and the station table.  A request never changes
    the stations and never changes or removes a trust row; it appends at
    most one trust row, for a submitter who had none that could be read, at
    [INITIAL_TRUST_SCORE = 0.5].  When the submitter had at most one row,
    the ledger afterwards holds exactly one row for them, carrying the trust
    score the response reports. *)
Theorem trust_ledger_append_only (clk : Clock) (db : DB) (req : Request) :
  let db' := snd (serve clk db req) in
  let resp := fst (serve clk db req) in
  fuel_stations db' = fuel_stations db /\
  (user_trust_scores db' = user_trust_scores db \/
   exists uid,
     in_anonymous_user_id (report req) = Some uid /\
     select_trust db uid = None /\
     user_trust_scores db' =
       user_trust_scores db ++
       [{| ts_anonymous_user_id := uid;
           trust_score := Some (INITIAL_TRUST_SCORE DVE_CONFIG) |}]) /\
  (forall s rid res,
     body resp = BodySubmit s rid res ->
     exists uid,
       in_anonymous_user_id (report req) = Some uid /\
       (select_trust db uid = None ->
        trustScore res = INITIAL_TRUST_SCORE DVE_CONFIG) /\
       ((List.length (filter (fun t => (ts_anonymous_user_id t =? uid)%string)
                             (user_trust_scores db)) <= 1)%nat ->
        exists t, select_trust db' uid = Some t /\
                  nullish (trust_score t) (INITIAL_TRUST_SCORE DVE_CONFIG)
                  = trustScore res)).
Proof.
  cbn zeta.
  destruct (serve_cases clk db req) as [[Hdb Hbody] | Hacc].
  - rewrite Hdb. split; [reflexivity |]. split; [now left |].
    intros s rid res Hb. exfalso. exact (Hbody _ _ _ Hb).
  - destruct Hacc as (sid & ft & uid & ulat & ulon & slat & slon & Hacc).
    assert (Huid : in_anonymous_user_id (report req) = Some uid) by apply Hacc.
    assert (Hres : forall s rid res,
      body (fst (serve clk db req)) = BodySubmit s rid res ->
      trustScore res = trust_for db uid).
    { intros s rid res Hb.
      rewrite (serve_accepted_db _ _ _ _ _ _ _ _ _ _ Hacc) in Hb. cbn [fst] in Hb.
      destruct (submission_response_body _ _ _ _ _ _ _ Hb) as [_ Heq].
      rewrite Heq in Hb. cbn [submit_response body] in Hb.
      injection Hb as _ _ <-. reflexivity. }
    assert (Hframe :
      fuel_stations (snd (serve clk db req)) = fuel_stations db /\
      user_trust_scores (snd (serve clk db req)) =
        user_trust_scores (ensure_trust db uid)).
    { rewrite (serve_accepted_store clk _ _ _ _ _ _ _ _ _ Hacc).
      destruct (run_consensus_frame (clock_now clk) sid
        (insert_report (scored_row clk db sid ft uid ulat ulon slat slon)
                       (ensure_trust db uid))) as (Hst & Htr & _).
      cbn [insert_report fuel_stations user_trust_scores] in Hst, Htr.
      destruct (ensure_trust_frame db uid) as (Hst' & _ & _).
      split; congruence. }
    destruct Hframe as [Hst Htr].
    split; [exact Hst |]. split.
    + rewrite Htr. unfold ensure_trust.
      destruct (select_trust db uid) eqn:Hsel; [now left |].
      right. exists uid. auto.
    + intros s rid res Hb. exists uid. split; [exact Huid |].
      rewrite (Hres _ _ _ Hb). split.
      * intros Hnone. unfold trust_for. now rewrite Hnone.
      * intros Hlen.
        destruct (select_trust_after_insert db uid Hlen) as (t & Ht & Hv).
        exists t. split; [| exact Hv].
        unfold select_trust. now rewrite Htr.
Qed.

Lemma map_report_id_mark (ids : list nat) (rs : list Report) :
  map report_id (map (mark ids) rs) = map report_id rs.
Proof.
  rewrite map_map. apply map_ext. intros r. apply report_id_mark.
Qed.

Lemma next_report_id_not_stored (rs : list Report) :
  ~ In (next_report_id rs) (map report_id rs).
Proof.
  intros Hin. apply in_map_iff in Hin as (r & Hid & Hr).
  apply next_report_id_fresh in Hr. lia.
Qed.

(** X10. Report identifiers stay unique: when no two stored reports share
    an identifier before a request, none do after it; and the identifier a
    submission response returns was not in use before and names a stored
    row afterwards. *)
Theorem report_ids_stay_unique (clk : Clock) (db : DB) (req : Request) :
  report_ids_unique db ->
  report_ids_unique (snd (serve clk db req)) /\
  (forall s rid res,
     body (fst (serve clk db req)) = BodySubmit s (Some rid) res ->
     ~ In rid (map report_id (crowdsourced_reports db)) /\
     In rid (map report_id (crowdsourced_reports (snd (serve clk db req))))).
Proof.
  intros Hu. unfold report_ids_unique in *.
  destruct (serve_cases clk db req) as [[Hdb Hbody] | _].
  - rewrite Hdb. split; [exact Hu |].
    intros s rid res Hb. exfalso. exact (Hbody _ _ _ Hb).
  - destruct (serve_store_shape clk db req)
      as [Hdb | (sid & ft & uid & ulat & ulon & slat & slon & Hacc & H)].
    + destruct (serve_cases clk db req) as [[_ Hbody] | Hacc].
      * rewrite Hdb. split; [exact Hu |].
        intros s rid res Hb. exfalso. exact (Hbody _ _ _ Hb).
      * exfalso.
        destruct Hacc as (sid & ft & uid & ulat & ulon & slat & slon & Hacc).
        destruct (serve_accepted_reports clk db req _ _ _ _ _ _ _ Hacc) as [Hrs _].
        rewrite Hdb in Hrs. apply (f_equal (@List.length Report)) in Hrs.
        rewrite length_map, length_app in Hrs. cbn in Hrs. lia.
    + cbn zeta in H. destruct H as (Hresp & _ & _ & Hrs).
      rewrite Hrs, map_report_id_mark, map_app. cbn [map scored_row report_id].
      split.
      * apply NoDup_app; [exact Hu | constructor; [intros [] | constructor] |].
        intros n Hn [<- | []]. exact (next_report_id_not_stored _ Hn).
      * intros s rid res Hb. rewrite Hresp in Hb.
        destruct (submission_response_body _ _ _ _ _ _ _ Hb) as [_ Heq].
        rewrite Heq in Hb.
        cbn [submit_response body scored_row report_id] in Hb.
        injection Hb as _ <- _.
        split; [apply next_report_id_not_stored |].
        apply in_or_app. right. now left.
Qed.

Lemma report_ids_stay_unique_witness :
  report_ids_unique
    (snd (serve (at_station 1000) one_report_db (diesel_at_station "u2"))).
Proof.
  apply (report_ids_stay_unique (at_station 1000) one_report_db
           (diesel_at_station "u2")).
  unfold report_ids_unique. cbn. constructor; [intros [] | constructor].
Defined.

Lemma NoDup_map_inj {A B : Type} (f : A -> B) (l : list A) (x y : A) :
  NoDup (map f l) -> In x l -> In y l -> f x = f y -> x = y.
Proof.
  induction l as [| a l IH]; cbn; intros Hnd Hx Hy Hf; [destruct Hx |].
  inversion Hnd as [| ? ? Hnot Hnd']; subst.
  destruct Hx as [-> | Hx], Hy as [-> | Hy].
  - reflexivity.
  - exfalso. apply Hnot. rewrite Hf. now apply in_map.
  - exfalso. apply Hnot. rewrite <- Hf. now apply in_map.
  - now apply IH.
Qed.

(** X11. Rejected reports are never verified.  When identifiers are unique
    and no stored report is both rejected and verified, the same holds
    after any request. *)
Theorem rejected_never_verified (clk : Clock) (db : DB) (req : Request) :
  report_ids_unique db ->
  flags_exclusive db ->
  flags_exclusive (snd (serve clk db req)).
Proof.
  intros Hu Hex.
  destruct (serve_store_shape clk db req)
    as [-> | (sid & ft & uid & ulat & ulon & slat & slon & Hacc & H)];
    [exact Hex |].
  cbn zeta in H. destruct H as (_ & _ & _ & Hrs).
  set (r := scored_row clk db sid ft uid ulat ulon slat slon) in *.
  set (rs := crowdsourced_reports db ++ [r]) in *.
  assert (Hu' : NoDup (map report_id rs)).
  { unfold rs. rewrite map_app. cbn [map].
    apply NoDup_app; [exact Hu | constructor; [intros [] | constructor] |].
    intros n Hn [<- | []]. exact (next_report_id_not_stored _ Hn). }
  assert (Hex' : Forall (fun x => is_rejected x = true -> is_verified x = false) rs).
  { unfold rs. apply Forall_app. split; [exact Hex |].
    constructor; [| constructor]. reflexivity. }
  unfold flags_exclusive. rewrite Hrs, Forall_map. apply Forall_forall.
  intros x Hx. destruct (mark_fields (verified_ids (clock_now clk) sid rs) x)
    as (_ & _ & _ & _ & _ & -> & _).
  intros Hrej. rewrite mark_not_In.
  - rewrite Forall_forall in Hex'. now apply Hex'.
  - intros Hin. apply verified_ids_stored in Hin as (y & Hy & Hid & _ & Hnr).
    assert (y = x) by (apply (NoDup_map_inj report_id rs); assumption).
    congruence.
Qed.

Lemma rejected_never_verified_witness :
  flags_exclusive
    (snd (serve (at_station 2000) one_report_db (far_request "u3"))).
Proof.
  apply (rejected_never_verified (at_station 2000) one_report_db (far_request "u3")).
  - unfold report_ids_unique. cbn. constructor; [intros [] | constructor].
  - unfold flags_exclusive. cbn. constructor; [discriminate | constructor].
Defined.

Lemma upsert_Forall (P : VerifiedFuel -> Prop) (e : VerifiedFuel)
  (tbl : list VerifiedFuel) :
  P e -> Forall P tbl -> Forall P (upsert e tbl).
Proof.
  intros He. induction tbl as [| x tl IH]; cbn; intros Hall.
  - constructor; [exact He | constructor].
  - inversion Hall; subst. destruct (same_key _ _ x); constructor; auto.
Qed.

Lemma consensus_fold_verified_Forall (P : VerifiedFuel -> Prop) (now : Z)
  (sid : string) (gs : list (string * list Report)) (db : DB) :
  (forall ft grp, group_passes grp = true -> P (consensus_entry now sid ft grp)) ->
  Forall P (verified_fuel_data db) ->
  Forall P (verified_fuel_data (fold_left (consensus_group now sid) gs db)).
Proof.
  intros HP. revert db. induction gs as [| [ft grp] gs IH]; intros db Hall;
    [exact Hall |].
  cbn [fold_left]. apply IH. rewrite consensus_group_eq.
  destruct (group_passes grp) eqn:Hp; [| exact Hall].
  cbn [verified_fuel_data]. apply upsert_Forall; [now apply HP | exact Hall].
Qed.

Lemma run_consensus_verified_Forall (P : VerifiedFuel -> Prop) (now : Z)
  (sid : string) (db : DB) :
  (forall ft grp, group_passes grp = true -> P (consensus_entry now sid ft grp)) ->
  Forall P (verified_fuel_data db) ->
  Forall P (verified_fuel_data (run_consensus now sid db)).
Proof.
  intros HP Hall. rewrite run_consensus_eq. destruct (_ && _); [| exact Hall].
  now apply consensus_fold_verified_Forall.
Qed.

Lemma finalScore_le_1 (grp : list Report) : finalScore grp <= 1.
Proof. unfold finalScore. etransitivity; [apply Rmin_l | lra]. Qed.

(** X12. Published entries are well formed and are never withdrawn.  When
    every Verified Fuel Entry says "available", counts at least two
    submitters and has a confidence in [[0.4, 1]], this still holds after any
    request; and a (station, fuel type) that had an entry still has one. *)
Theorem entries_stay_well_formed (clk : Clock) (db : DB) (req : Request) :
  (entries_well_formed db -> entries_well_formed (snd (serve clk db req))) /\
  (forall s ft e,
     find_verified s ft db = Some e ->
     exists e', find_verified s ft (snd (serve clk db req)) = Some e').
Proof.
  destruct (serve_cases clk db req) as [[-> _] | Hacc].
  - split; [auto |]. intros s ft e He. now exists e.
  - destruct Hacc as (sid & ft0 & uid & ulat & ulon & slat & slon & Hacc). split.
    + intros Hwf. rewrite (serve_accepted_db _ _ _ _ _ _ _ _ _ _ Hacc). cbn [snd].
      unfold entries_well_formed. apply run_consensus_verified_Forall.
      * intros ft grp Hp. cbn [consensus_entry is_available verified_by_count
                                confidence_score].
        apply group_passes_iff in Hp as [Hn Hc]. unfold_config.
        generalize (finalScore_le_1 grp). intros Hle.
        split; [reflexivity |]. split; [exact Hn | lra].
      * cbn [insert_report verified_fuel_data].
        destruct (ensure_trust_frame db uid) as (_ & _ & ->). exact Hwf.
    + intros s ft e He.
      destruct (serve_accepted_reports clk db req _ _ _ _ _ _ _ Hacc) as [_ Hfind].
      rewrite Hfind. destruct (_ && _); eexists; [reflexivity | exact He].
Qed.

Lemma entries_stay_well_formed_witness :
  entries_well_formed
    (snd (serve (at_station 1000) one_report_db (diesel_at_station "u2"))).
Proof.
  apply (entries_stay_well_formed (at_station 1000) one_report_db
           (diesel_at_station "u2")).
  constructor.
Defined.

Lemma same_key_vf_key (s ft : string) (e : VerifiedFuel) :
  same_key s ft e = true <-> vf_key e = (s, ft).
Proof.
  rewrite same_key_true. unfold vf_key. split.
  - intros [-> ->]. reflexivity.
  - intros H. inversion H. auto.
Qed.

Lemma upsert_keys (e : VerifiedFuel) (tbl : list VerifiedFuel) :
  (In (vf_key e) (map vf_key tbl) /\ map vf_key (upsert e tbl) = map vf_key tbl) \/
  (~ In (vf_key e) (map vf_key tbl) /\
   map vf_key (upsert e tbl) = map vf_key tbl ++ [vf_key e]).
Proof.
  induction tbl as [| x tl IH]; cbn [upsert map].
  - right. split; [intros [] | reflexivity].
  - destruct (same_key (vf_station_id e) (vf_fuel_type e) x) eqn:Hk.
    + apply same_key_vf_key in Hk. fold (vf_key e) in Hk.
      left. cbn [map]. rewrite Hk. split; [now left | reflexivity].
    + assert (Hne : vf_key x <> vf_key e).
      { intros Heq. apply (proj2 (same_key_vf_key _ _ x)) in Heq. congruence. }
      cbn [map]. destruct IH as [[Hin ->] | [Hnin ->]].
      * left. split; [now right | reflexivity].
      * right. split; [| reflexivity].
        intros [Heq | Hin]; [now apply Hne | now apply Hnin].
Qed.

Lemma upsert_keys_NoDup (e : VerifiedFuel) (tbl : list VerifiedFuel) :
  NoDup (map vf_key tbl) -> NoDup (map vf_key (upsert e tbl)).
Proof.
  intros Hnd. destruct (upsert_keys e tbl) as [[_ ->] | [Hnin ->]]; [exact Hnd |].
  apply NoDup_app; [exact Hnd | constructor; [intros [] | constructor] |].
  intros k Hk [<- | []]. contradiction.
Qed.

Lemma upsert_length (e : VerifiedFuel) (tbl : list VerifiedFuel) :
  (List.length tbl <= List.length (upsert e tbl) <= S (List.length tbl))%nat.
Proof.
  rewrite <- (length_map vf_key (upsert e tbl)).
  destruct (upsert_keys e tbl) as [[_ ->] | [_ ->]];
    rewrite ?length_app, length_map; cbn; lia.
Qed.

(** X13. The verified table keeps one row per key and never shrinks: when no
    two Verified Fuel Entries share (station, fuel type) before a request,
    none do after it, and the table has at least as many rows as before. *)
Theorem verified_keys_stay_unique (clk : Clock) (db : DB) (req : Request) :
  verified_keys_unique db ->
  verified_keys_unique (snd (serve clk db req)) /\
  (List.length (verified_fuel_data db) <=
   List.length (verified_fuel_data (snd (serve clk db req))))%nat.
Proof.
  intros Hu.
  destruct (serve_cases clk db req) as [[-> _] | Hacc]; [split; [exact Hu | lia] |].
  destruct Hacc as (sid & ft0 & uid & ulat & ulon & slat & slon & Hacc).
  rewrite (serve_accepted_db _ _ _ _ _ _ _ _ _ _ Hacc). cbn [snd].
  set (db2 := insert_report _ _).
  assert (Hv2 : verified_fuel_data db2 = verified_fuel_data db).
  { unfold db2. cbn [insert_report verified_fuel_data].
    now destruct (ensure_trust_frame db uid) as (_ & _ & ->). }
  unfold verified_keys_unique in *. rewrite <- Hv2 in *.
  rewrite run_consensus_eq. destruct (_ && _); [| split; [exact Hu | lia]].
  generalize (plain_groups (window (clock_now clk) sid (crowdsourced_reports db2))).
  intros gs. clear Hv2. revert Hu. generalize db2. clear.
  induction gs as [| [ft grp] gs IH]; intros d Hu; [split; [exact Hu | cbn; lia] |].
  cbn [fold_left].
  assert (Hstep : NoDup (map vf_key (verified_fuel_data
                                       (consensus_group (clock_now clk) sid d (ft, grp)))) /\
                  (List.length (verified_fuel_data d) <=
                   List.length (verified_fuel_data
                                  (consensus_group (clock_now clk) sid d (ft, grp))))%nat).
  { rewrite consensus_group_eq. destruct (group_passes grp); [| split; [exact Hu | lia]].
    cbn [verified_fuel_data]. split; [now apply upsert_keys_NoDup |].
    apply upsert_length. }
  destruct Hstep as [Hu' Hlen].
  destruct (IH _ Hu') as [Hnd Hl]. split; [exact Hnd | lia].
Qed.

Lemma verified_keys_stay_unique_witness :
  verified_keys_unique
    (snd (serve (at_station 1000) one_report_db (diesel_at_station "u2"))).
Proof.
  apply (verified_keys_stay_unique (at_station 1000) one_report_db
           (diesel_at_station "u2")).
  constructor.
Defined.

(** ** Running consensus twice *)

Lemma DB_ext (a b : DB) :
  fuel_stations a = fuel_stations b ->
  user_trust_scores a = user_trust_scores b ->
  crowdsourced_reports a = crowdsourced_reports b ->
  verified_fuel_data a = verified_fuel_data b ->
  a = b.
Proof. destruct a, b; cbn; intros; subst; reflexivity. Qed.

Lemma consensus_fold_verified (now : Z) (sid : string)
  (gs : list (string * list Report)) (db : DB) :
  verified_fuel_data (fold_left (consensus_group now sid) gs db) =
  upsert_passing now sid gs (verified_fuel_data db).
Proof.
  unfold upsert_passing. revert db.
  induction gs as [| [ft grp] gs IH]; intros db; [reflexivity |].
  cbn [fold_left fst snd]. rewrite IH, consensus_group_eq.
  destruct (group_passes grp); reflexivity.
Qed.

Lemma push_own_mark (ids : list nat) (r : Report) (g : list (string * list Report)) :
  push_own (fuel_type (mark ids r)) (mark ids r) (mark_groups ids g) =
  mark_groups ids (push_own (fuel_type r) r g).
Proof.
  destruct (mark_fields ids r) as (_ & _ & -> & _).
  unfold mark_groups. induction g as [| [k grp] g IH]; cbn; [reflexivity |].
  destruct (k =? fuel_type r)%string; cbn.
  - now rewrite map_app.
  - now rewrite IH.
Qed.

Lemma plain_groups_mark (ids : list nat) (rs : list Report) :
  plain_groups (map (mark ids) rs) = mark_groups ids (plain_groups rs).
Proof.
  induction rs as [| r rs IH] using rev_ind; [reflexivity |].
  rewrite map_app. cbn [map]. rewrite !plain_groups_snoc, IH.
  apply push_own_mark.
Qed.

Lemma upsert_passing_mark (now : Z) (sid : string) (ids : list nat)
  (gs : list (string * list Report)) (tbl : list VerifiedFuel) :
  upsert_passing now sid (mark_groups ids gs) tbl = upsert_passing now sid gs tbl.
Proof.
  unfold upsert_passing, mark_groups. revert tbl.
  induction gs as [| [ft grp] gs IH]; intros tbl; [reflexivity |].
  cbn [map fold_left fst snd]. rewrite IH, group_passes_mark.
  unfold consensus_entry. now rewrite finalScore_mark, uniqueUsers_mark.
Qed.

Lemma passing_ids_mark (ids : list nat) (gs : list (string * list Report)) :
  passing_ids (mark_groups ids gs) = passing_ids gs.
Proof.
  unfold passing_ids, mark_groups.
  induction gs as [| [ft grp] gs IH]; [reflexivity |].
  cbn [map flat_map fst snd]. rewrite IH, group_passes_mark, map_report_id_mark.
  reflexivity.
Qed.

Lemma upsert_noop (e : VerifiedFuel) (tbl : list VerifiedFuel) :
  find (same_key (vf_station_id e) (vf_fuel_type e)) tbl = Some e ->
  upsert e tbl = tbl.
Proof.
  induction tbl as [| x tl IH]; cbn; [discriminate |].
  destruct (same_key _ _ x).
  - intros H. inversion H. reflexivity.
  - intros H. f_equal. now apply IH.
Qed.

Lemma upsert_passing_noop (now : Z) (sid : string)
  (gs : list (string * list Report)) (tbl : list VerifiedFuel) :
  (forall ft grp, In (ft, grp) gs -> group_passes grp = true ->
                  find (same_key sid ft) tbl = Some (consensus_entry now sid ft grp)) ->
  upsert_passing now sid gs tbl = tbl.
Proof.
  unfold upsert_passing. induction gs as [| [ft grp] gs IH]; intros H; [reflexivity |].
  cbn [fold_left fst snd]. destruct (group_passes grp) eqn:Hp.
  - rewrite upsert_noop.
    + apply IH. intros ft' grp' Hin. apply H. now right.
    + apply (H ft grp); [now left | exact Hp].
  - apply IH. intros ft' grp' Hin. apply H. now right.
Qed.

Lemma upsert_passing_find (now : Z) (sid ft : string)
  (gs : list (string * list Report)) (grp : list Report) (tbl : list VerifiedFuel) :
  NoDup (map fst gs) -> In (ft, grp) gs -> group_passes grp = true ->
  find (same_key sid ft) (upsert_passing now sid gs tbl) =
  Some (consensus_entry now sid ft grp).
Proof.
  intros Hnd Hin Hp.
  pose (db := {| fuel_stations := []; user_trust_scores := [];
                 crowdsourced_reports := []; verified_fuel_data := tbl |}).
  change tbl with (verified_fuel_data db).
  rewrite <- consensus_fold_verified.
  apply (consensus_fold_find_pass now sid ft gs grp db Hnd Hin Hp).
Qed.

Lemma poisoned_mark (ids : list nat) (rs : list Report) :
  poisoned (map (mark ids) rs) = poisoned rs.
Proof.
  unfold poisoned. induction rs as [| r rs IH]; [reflexivity |].
  cbn [map existsb]. rewrite IH.
  now destruct (mark_fields ids r) as (_ & _ & -> & _).
Qed.

Lemma mark_twice (ids : list nat) (rs : list Report) :
  map (mark ids) (map (mark ids) rs) = map (mark ids) rs.
Proof.
  rewrite map_mark_app. apply map_ext. intros r. unfold mark.
  rewrite existsb_app. now destruct (existsb _ ids).
Qed.

(** X14. Consensus is idempotent: running the consensus check for a station
    again at the same instant changes nothing in the store. *)
Theorem run_consensus_idempotent (now : Z) (sid : string) (db : DB) :
  run_consensus now sid (run_consensus now sid db) = run_consensus now sid db.
Proof.
  destruct (run_consensus_frame now sid db) as (Hst & Htr & Hrs).
  rewrite (run_consensus_eq now sid (run_consensus now sid db)).
  rewrite Hrs, window_mark, length_map, poisoned_mark.
  rewrite run_consensus_eq in *. unfold verified_ids in *.
  set (w := window now sid (crowdsourced_reports db)) in *.
  destruct (_ && _); [| reflexivity].
  set (gs := plain_groups w) in *.
  set (db1 := fold_left (consensus_group now sid) gs db) in *.
  rewrite plain_groups_mark. fold gs.
  destruct (consensus_fold_eq now sid (mark_groups (passing_ids gs) gs) db1)
    as (Hst2 & Htr2 & Hrs2). cbn zeta in Hst2, Htr2, Hrs2.
  apply DB_ext.
  - exact Hst2.
  - exact Htr2.
  - rewrite Hrs2, passing_ids_mark, Hrs. apply mark_twice.
  - assert (Hv1 : verified_fuel_data db1 =
                   upsert_passing now sid gs (verified_fuel_data db))
      by apply consensus_fold_verified.
    rewrite consensus_fold_verified, upsert_passing_mark.
    apply upsert_passing_noop. intros ft grp Hin Hp. rewrite Hv1.
    apply upsert_passing_find; [apply plain_groups_NoDup | exact Hin | exact Hp].
Qed.

(** ** What a submission leaves alone *)

Lemma window_In_iff (now : Z) (sid : string) (rs : list Report) (r : Report) :
  In r (window now sid rs) <->
  In r rs /\ station_id r = sid /\ is_rejected r = false /\
  (cutoffDate now <= timestamp r)%Z.
Proof.
  unfold window.
  rewrite filter_In, !andb_true_iff, negb_true_iff, String.eqb_eq, Z.leb_le.
  tauto.
Qed.

(** X15. A submission for one station leaves the rest alone.  The Verified
    Fuel Entries of every other station are as before; and, when report
    identifiers are unique, a stored report of another station, a rejected
    one, or one older than 168 hours at the instant of the request is still
    stored exactly as it was. *)
Theorem submission_frame (clk : Clock) (db : DB) (req : Request) :
  let db' := snd (serve clk db req) in
  (forall s ft,
     in_station_id (report req) <> Some s ->
     find_verified s ft db' = find_verified s ft db) /\
  (report_ids_unique db ->
   forall r,
     In r (crowdsourced_reports db) ->
     in_station_id (report req) <> Some (station_id r) \/
     is_rejected r = true \/
     (timestamp r < clock_now clk - 168 * MS_PER_HOUR)%Z ->
     In r (crowdsourced_reports db')).
Proof.
  cbn zeta.
  destruct (serve_cases clk db req) as [[-> _] | Hacc]; [split; auto |].
  destruct Hacc as (sid & ft0 & uid & ulat & ulon & slat & slon & Hacc).
  assert (Hsid : in_station_id (report req) = Some sid) by apply Hacc.
  destruct (serve_accepted_reports clk db req _ _ _ _ _ _ _ Hacc) as [Hrs Hfind].
  split.
  - intros s ft Hs. rewrite Hfind.
    destruct (String.eqb_spec s sid) as [-> | Hne]; [congruence |].
    now rewrite andb_false_r.
  - intros Hu r Hr Hout. rewrite Hrs.
    set (new := scored_row clk db sid ft0 uid ulat ulon slat slon) in *.
    set (rs := crowdsourced_reports db ++ [new]) in *.
    assert (Hu' : NoDup (map report_id rs)).
    { unfold rs. rewrite map_app. cbn [map].
      apply NoDup_app; [exact Hu | constructor; [intros [] | constructor] |].
      intros n Hn [<- | []]. exact (next_report_id_not_stored _ Hn). }
    assert (Hr' : In r rs) by (apply in_or_app; now left).
    replace r with (mark (verified_ids (clock_now clk) sid rs) r) at 1.
    + now apply in_map.
    + apply mark_not_In. intros Hin.
      apply verified_ids_In in Hin as (_ & y & Hy & Hid & _).
      apply window_In_iff in Hy as (Hy & Hst & Hnr & Hts).
      assert (y = r) by (apply (NoDup_map_inj report_id rs); assumption).
      subst y. unfold cutoffDate in Hts. unfold_config.
      destruct Hout as [Hs | [Hrej | Hold]]; [congruence | congruence | lia].
Qed.

Lemma submission_frame_witness :
  let db' := snd (serve (at_station (169 * hour)) one_report_db
                        (diesel_at_station "u2")) in
  find_verified "S0" "Diesel" db' = find_verified "S0" "Diesel" one_report_db /\
  In (pune_row 1 "u1" 0 0.6) (crowdsourced_reports db').
Proof.
  cbn zeta.
  destruct (submission_frame (at_station (169 * hour)) one_report_db
              (diesel_at_station "u2")) as [Hentries Hrows].
  split.
  - apply Hentries. discriminate.
  - apply Hrows.
    + unfold report_ids_unique. cbn. constructor; [intros [] | constructor].
    + now left.
    + right; right. reflexivity.
Defined.

(** X16. Presence tests on a submission.  An identifier that is present but
    empty counts as missing: the answer is the 400 error and nothing is
    stored.  A submitter coordinate of 0 counts as present: a request from
    latitude 0, longitude 0 that names a resolvable station has its row
    stored, under an identifier that was free, with those coordinates; the
    answer has status 200 and carries that identifier unless the consensus
    block throws, and is the 500 error when it does. *)
Theorem presence_tests (clk : Clock) (db : DB) (req : Request) :
  method req <> "OPTIONS"%string ->
  action req = "submit_report"%string ->
  (in_station_id (report req) = Some ""%string \/
   in_fuel_type (report req) = Some ""%string \/
   in_anonymous_user_id (report req) = Some ""%string ->
   serve clk db req = (json_error 400 "Missing required fields", db)) /\
  (forall sid ft uid slat slon,
     accepted_input db req sid ft uid 0 0 slat slon ->
     let rid := next_report_id (crowdsourced_reports db) in
     let throws :=
       consensus_throws (clock_now clk) sid
         (crowdsourced_reports db ++
          [scored_report clk db sid ft uid 0 0 slat slon]) in
     find_report rid db = None /\
     (exists r,
        find_report rid (snd (serve clk db req)) = Some r /\
        user_lat r = Some 0 /\ user_lon r = Some 0) /\
     (throws = false ->
      exists res,
        fst (serve clk db req) =
          {| status := 200; body := BodySubmit true (Some rid) res |}) /\
     (throws = true -> fst (serve clk db req) = json_error 500 push_error)).
Proof.
  intros Hm Ha. split.
  - intros Hempty. unfold serve. apply String.eqb_neq in Hm. rewrite Hm, Ha.
    cbn [String.eqb].
    change ("submit_report" =? "submit_report")%string with true. cbn iota.
    unfold report in Hempty.
    destruct (report_member req) as [| | members];
      [destruct Hempty as [H | [H | H]]; discriminate ..|].
    unfold submit_report.
    destruct Hempty as [H | [H | H]]; rewrite H; cbn [truthy_string String.eqb negb orb].
    + reflexivity.
    + rewrite orb_true_r. reflexivity.
    + rewrite orb_true_r. reflexivity.
  - intros sid ft uid slat slon Hacc. cbn zeta. unfold accepted_input in Hacc.
    unfold scored_report.
    destruct (serve_accepted_rows clk db req _ _ _ _ _ _ _ Hacc)
      as (_ & _ & _ & Hfree & Hfind). cbn zeta in Hfree, Hfind.
    set (r := scored_row clk db sid ft uid (Some 0) (Some 0) slat slon) in *.
    change (report_id r) with (next_report_id (crowdsourced_reports db)) in *.
    split; [exact Hfree |]. split.
    + eexists. split; [exact Hfind |].
      unfold mark. destruct (existsb _ _); split; reflexivity.
    + rewrite (serve_accepted_db _ _ _ _ _ _ _ _ _ _ Hacc). cbn [fst]. fold r.
      unfold submission_response. split; intros ->; [| reflexivity].
      eexists. reflexivity.
Qed.

Lemma presence_tests_witness :
  serve noon empty_db
    {| method := "POST"; action := "submit_report";
       report_member :=
         ReportObject {| in_station_id := Some "S1"%string;
                         in_fuel_type := Some ""%string;
                         in_anonymous_user_id := Some "u1"%string;
                         in_user_lat := CoordNumber 18.5204;
                         in_user_lon := CoordNumber 73.8567 |} |}
  = (json_error 400 "Missing required fields", empty_db) /\
  (exists res r,
     fst (serve noon empty_db (valid_request "S1" "Diesel" "u1" 0 0)) =
       {| status := 200; body := BodySubmit true (Some 1%nat) res |} /\
     find_report 1 (snd (serve noon empty_db (valid_request "S1" "Diesel" "u1" 0 0)))
       = Some r /\
     user_lat r = Some 0 /\ user_lon r = Some 0) /\
  (exists r,
     fst (serve (at_station 1000) poisoned_db
            (valid_request "S1" "Diesel" "u3" 0 0)) =
       json_error 500 push_error /\
     find_report 3 poisoned_db = None /\
     find_report 3 (snd (serve (at_station 1000) poisoned_db
                           (valid_request "S1" "Diesel" "u3" 0 0))) = Some r /\
     user_lat r = Some 0 /\ user_lon r = Some 0).
Proof.
  split; [| split].
  - apply presence_tests; [discriminate | reflexivity |]. right; left. reflexivity.
  - destruct (presence_tests noon empty_db (valid_request "S1" "Diesel" "u1" 0 0))
      as [_ H]; [discriminate | reflexivity |].
    destruct (H "S1"%string "Diesel"%string "u1"%string 18.5204 73.8567)
      as (_ & (r & Hfind & Hlat & Hlon) & Hok & _).
    { apply pune_request_accepted; [reflexivity | discriminate | discriminate]. }
    destruct Hok as (res & Hres).
    { apply consensus_throws_short. cbn [empty_db crowdsourced_reports app].
      eapply Nat.le_lt_trans; [apply window_length |]. cbn [List.length]. lia. }
    exists res, r. auto.
  - destruct (presence_tests (at_station 1000) poisoned_db
                (valid_request "S1" "Diesel" "u3" 0 0))
      as [_ H]; [discriminate | reflexivity |].
    destruct (H "S1"%string "Diesel"%string "u3"%string 18.5204 73.8567)
      as (Hfree & (r & Hfind & Hlat & Hlon) & _ & Hthrow).
    { apply pune_request_accepted; [reflexivity | discriminate | discriminate]. }
    exists r. split; [| auto].
    apply Hthrow. apply consensus_throws_snoc. reflexivity.
Defined.

(** X17. The response echoes the stored row.  For every submission response
    the row stored under the returned identifier has the score, trust score,
    decay, location factor, rejection flag and reason the response carries;
    the status is 200 and [success] is true; a reason is present exactly when
    the report is rejected, and a rejected report has score and location
    factor 0. *)
Theorem response_echoes_row (clk : Clock) (db : DB) (req : Request)
  (s : bool) (rid : option nat) (res : DveResult) :
  body (fst (serve clk db req)) = BodySubmit s rid res ->
  status (fst (serve clk db req)) = 200%nat /\ s = true /\
  exists n r,
    rid = Some n /\
    find_report n (snd (serve clk db req)) = Some r /\
    dve_score r = Some (score res) /\
    trust_score_at_submission r = Some (trustScore res) /\
    time_decay_factor r = Some (timeDecay res) /\
    location_factor r = Some (locationFactor res) /\
    is_rejected r = isRejected res /\
    rejection_reason r = rejectionReason res /\
    (isRejected res = true <-> rejectionReason res <> None) /\
    (isRejected res = true -> score res = 0 /\ locationFactor res = 0).
Proof.
  intros Hb.
  destruct (serve_cases clk db req) as [[_ Hbody] | Hacc];
    [exfalso; exact (Hbody _ _ _ Hb) |].
  destruct Hacc as (sid & ft & uid & ulat & ulon & slat & slon & Hacc).
  destruct (serve_accepted_reports clk db req _ _ _ _ _ _ _ Hacc) as [Hrs _].
  rewrite (serve_accepted_db _ _ _ _ _ _ _ _ _ _ Hacc) in *. cbn [fst snd] in *.
  set (r := scored_row clk db sid ft uid ulat ulon slat slon) in *.
  set (ids := verified_ids (clock_now clk) sid (crowdsourced_reports db ++ [r])) in *.
  destruct (submission_response_body _ _ _ _ _ _ _ Hb) as [_ Heq].
  rewrite Heq in *.
  cbn [submit_response body status] in *. inversion Hb as [[Hs Hrid Hres]].
  split; [reflexivity |]. split; [reflexivity |].
  exists (report_id r), (mark ids r). split; [reflexivity |]. split.
  - unfold find_report. rewrite Hrs. apply find_report_last.
    intros x Hx. now apply (scored_row_fresh clk db sid ft uid ulat ulon slat slon).
  - destruct (mark_fields ids r)
      as (_ & _ & _ & _ & Hdve & Hrej & Hreason & Hts & Htd & Hlf).
    rewrite Hdve, Hrej, Hreason, Hts, Htd, Hlf.
    cbn [score trustScore timeDecay locationFactor isRejected rejectionReason].
    unfold r, scored_row.
    cbn [dve_score trust_score_at_submission time_decay_factor location_factor
         is_rejected rejection_reason or_zero].
    repeat (split; [reflexivity |]).
    destruct (isValid (calculateLocationFactor (ToNumber ulat) (ToNumber ulon)
                                               slat slon)) eqn:Hv; cbn [negb].
    + split; [split; [discriminate | intros H; now contradiction H] | discriminate].
    + split; [split; [discriminate | reflexivity] |]. intros _.
      apply calculateLocationFactor_valid_iff in Hv.
      rewrite calculateLocationFactor_far by exact Hv. split; reflexivity.
Qed.

Lemma response_echoes_row_witness :
  exists n r,
    find_report n (snd (serve noon empty_db (far_request "u1"))) = Some r /\
    is_rejected r = true /\ dve_score r = Some 0.
Proof.
  destruct (far_request_accepted empty_db "u1" eq_refl ltac:(discriminate))
    as [Hacc Hv].
  assert (Hb : exists res,
    body (fst (serve noon empty_db (far_request "u1"))) =
      BodySubmit true (Some 1%nat) res /\ isRejected res = true).
  { rewrite (serve_rejected_response _ _ _ _ _ _ _ _ _ _ Hacc Hv).
    change (clock_now noon) with 1000%Z. no_throw.
    cbn [submit_response body].
    eexists. split; [reflexivity |]. cbn [isRejected].
    now destruct (scored_row_rejected noon empty_db "S1" "Diesel" "u1" _ _ _ _ Hv)
      as (-> & _). }
  destruct Hb as (res & Hb & Hrej).
  destruct (response_echoes_row noon empty_db (far_request "u1") _ _ _ Hb)
    as (_ & _ & n & r & _ & Hfind & Hdve & _ & _ & _ & Hr & _ & _ & Hzero).
  exists n, r. split; [exact Hfind |]. split; [congruence |].
  destruct (Hzero Hrej) as [H0 _]. now rewrite Hdve, H0.
Defined.

(** ** The two-decimal format *)

(** X18. [toFixed2] prints two decimals and rounds to the nearest hundredth.
    For [0 <= x < 10^21] the result is an integer part of at least one digit,
    without a leading zero unless it is ["0"], a point and exactly two
    digits, with no sign; read back as a decimal numeral, the digits give
    the integer [n = floor (100 x + 1/2)], and [n / 100] differs from [x] by
    at most 0.005. *)
Theorem toFixed2_format (x : R) :
  0 <= x < 10 ^ 21 ->
  exists (int frac : string) (d : Decimal.uint) (n : Z),
    toFixed2 x = (int ++ "." ++ frac)%string /\
    (1 <= String.length int)%nat /\
    String.length frac = 2%nat /\
    (int = "0"%string \/ forall rest, int <> String "0" rest) /\
    NilZero.uint_of_string (int ++ frac) = Some d /\
    Z.of_N (N.of_uint d) = n /\
    n = Zfloor (x * 100 + / 2) /\
    Rabs (IZR n / 100 - x) <= / 200.
Proof.
  intros [Hx _].
  destruct (toFixed2_shape x Hx) as (int & frac & d & Heq & Hint & Hfrac & Hlead & Hd & Hn).
  exists int, frac, d, (Zfloor (x * 100 + / 2)).
  repeat (split; [assumption || reflexivity |]).
  generalize (Zfloor_bound (x * 100 + / 2)). intros [Hlo Hhi].
  apply Rabs_le. lra.
Qed.

Lemma toFixed2_format_witness :
  exists (int frac : string),
    toFixed2 (314159 / 100000) = (int ++ "." ++ frac)%string /\
    String.length frac = 2%nat.
Proof.
  destruct (toFixed2_format (314159 / 100000)) as (int & frac & d & n & H1 & _ & H3 & _).
  - cbn [pow]. lra.
  - exists int, frac. split; assumption.
Defined.

(** ** Reading a line of the station file *)

Lemma parseCSVLine_from_result (line : string) (result : list string)
  (current : string) (inQuotes : bool) :
  parseCSVLine_from line result current inQuotes =
  result ++ parseCSVLine_from line [] current inQuotes.
Proof.
  revert result current inQuotes.
  induction line as [| c rest IH]; intros result current inQuotes; cbn.
  - reflexivity.
  - destruct (c =? dquote)%char; [apply IH |].
    destruct ((c =? comma)%char && negb inQuotes).
    + rewrite IH, (IH [current]). now rewrite <- app_assoc.
    + apply IH.
Qed.

(** Reading [a ++ b] is reading [b] from the state [a] leaves. *)
Lemma parseCSVLine_from_app (a b : string) (result : list string)
  (current : string) (inQuotes : bool) :
  parseCSVLine_from (a ++ b) result current inQuotes =
  let fields := parseCSVLine_from a result current inQuotes in
  parseCSVLine_from b (removelast fields) (last fields EmptyString)
    (xorb inQuotes (Nat.odd (count_char dquote a))).
Proof.
  revert result current inQuotes.
  induction a as [| c a IH]; intros result current inQuotes; cbn -[Nat.odd].
  - rewrite removelast_last, last_last. cbn. now rewrite xorb_false_r.
  - destruct (c =? dquote)%char eqn:Hq.
    + rewrite IH. cbn zeta. f_equal.
      rewrite Nat.odd_succ, <- Nat.negb_odd.
      destruct inQuotes, (Nat.odd (count_char dquote a)); reflexivity.
    + destruct ((c =? comma)%char && negb inQuotes); rewrite IH; reflexivity.
Qed.

Lemma parseCSVLine_from_plain (line current : string) (inQuotes : bool) :
  has_char dquote line = false ->
  (inQuotes = true \/ has_char comma line = false) ->
  parseCSVLine_from line [] current inQuotes = [(current ++ line)%string].
Proof.
  revert current. induction line as [| c rest IH]; intros current Hq Hc; cbn.
  - now rewrite string_app_nil_r.
  - cbn in Hq. apply orb_false_iff in Hq as [Hq1 Hq2]. rewrite Hq1.
    assert (Hno : (c =? comma)%char && negb inQuotes = false).
    { destruct Hc as [-> | Hc]; [apply andb_false_r |].
      cbn in Hc. apply orb_false_iff in Hc as [-> _]. reflexivity. }
    rewrite Hno, IH.
    + now rewrite string_app_assoc.
    + exact Hq2.
    + destruct Hc as [Hc | Hc]; [now left |]. right.
      cbn in Hc. now apply orb_false_iff in Hc as [_ Hc].
Qed.

Lemma parseCSVLine_from_nonempty (line : string) (result : list string)
  (current : string) (inQuotes : bool) :
  parseCSVLine_from line result current inQuotes <> [].
Proof.
  revert result current inQuotes.
  induction line as [| c rest IH]; intros result current inQuotes; cbn.
  - destruct result; discriminate.
  - destruct (c =? dquote)%char; [apply IH |].
    destruct ((c =? comma)%char && negb inQuotes); apply IH.
Qed.

(** X19. Fields split at commas outside quotes.  When the text before a
    comma holds an even number of double quotes, the line splits there: the
    fields of [a ++ "," ++ b] are the fields of [a] followed by the fields
    of [b]. *)
Theorem parseCSVLine_split (a b : string) :
  Nat.even (count_char dquote a) = true ->
  parseCSVLine (a ++ String comma b) = parseCSVLine a ++ parseCSVLine b.
Proof.
  intros Heven. unfold parseCSVLine.
  rewrite parseCSVLine_from_app. cbn zeta.
  rewrite <- Nat.negb_even, Heven. cbn [negb xorb].
  set (fields := parseCSVLine_from a [] EmptyString false).
  assert (Hne : fields <> []) by apply parseCSVLine_from_nonempty.
  cbn [parseCSVLine_from]. unfold comma at 1 2, dquote at 1. cbn [Ascii.eqb Bool.eqb andb negb].
  rewrite parseCSVLine_from_result.
  rewrite <- (app_removelast_last EmptyString Hne). reflexivity.
Qed.

Lemma parseCSVLine_split_witness :
  parseCSVLine ("IOCL,Pune" ++ String comma "4.5") =
  parseCSVLine "IOCL,Pune" ++ parseCSVLine "4.5".
Proof. apply parseCSVLine_split. reflexivity. Defined.

Lemma has_char_app (c : ascii) (a b : string) :
  has_char c (a ++ b) = has_char c a || has_char c b.
Proof.
  induction a as [| x a IH]; cbn; [reflexivity |]. now rewrite IH, orb_assoc.
Qed.

Lemma parseCSVLine_from_unquoted (line current : string) :
  has_char dquote line = false ->
  has_char comma current = false ->
  has_char dquote current = false ->
  let fields := parseCSVLine_from line [] current false in
  String.concat (String comma EmptyString) fields = (current ++ line)%string /\
  Forall (fun f => has_char comma f = false /\ has_char dquote f = false) fields /\
  List.length fields = S (count_char comma line).
Proof.
  revert current. induction line as [| c rest IH]; intros current Hq Hc Hd; cbn zeta.
  - cbn. rewrite string_app_nil_r. repeat split. constructor; [auto | constructor].
  - cbn in Hq. apply orb_false_iff in Hq as [Hq1 Hq2].
    cbn [parseCSVLine_from]. rewrite Hq1. cbn [negb]. rewrite andb_true_r.
    destruct (c =? comma)%char eqn:Hcomma.
    + apply Ascii.eqb_eq in Hcomma. subst c.
      rewrite parseCSVLine_from_result.
      destruct (IH EmptyString Hq2 eq_refl eq_refl) as (Hcat & Hall & Hlen).
      cbn zeta in Hcat, Hall, Hlen. cbn [String.append] in Hcat.
      set (fs := parseCSVLine_from rest [] EmptyString false) in *.
      split; [| split].
      * cbn [app String.concat]. destruct fs as [| f fs'] eqn:Hfs; [discriminate |].
        rewrite Hcat. cbn [count_char]. reflexivity.
      * constructor; [auto | exact Hall].
      * cbn [app List.length count_char]. rewrite Ascii.eqb_refl. cbn. now rewrite Hlen.
    + destruct (IH (current ++ String c EmptyString)%string Hq2) as (Hcat & Hall & Hlen).
      * rewrite has_char_app, Hc. cbn. now rewrite Hcomma.
      * rewrite has_char_app, Hd. cbn. now rewrite Hq1.
      * cbn zeta in Hcat, Hall, Hlen. split; [| split].
        -- rewrite Hcat, string_app_assoc. reflexivity.
        -- exact Hall.
        -- cbn [count_char]. rewrite Hcomma. exact Hlen.
Qed.

(** X20. A line without double quotes is split at its commas and nothing is
    lost: joining the fields with commas gives the line back, no field holds
    a comma, and there is one field more than there are commas. *)
Theorem parseCSVLine_unquoted (line : string) :
  has_char dquote line = false ->
  String.concat (String comma EmptyString) (parseCSVLine line) = line /\
  Forall (fun f => has_char comma f = false) (parseCSVLine line) /\
  List.length (parseCSVLine line) = S (count_char comma line).
Proof.
  intros Hq.
  destruct (parseCSVLine_from_unquoted line EmptyString Hq eq_refl eq_refl)
    as (Hcat & Hall & Hlen).
  cbn zeta in Hcat, Hall, Hlen. unfold parseCSVLine.
  split; [exact Hcat |]. split; [| exact Hlen].
  eapply Forall_impl; [| exact Hall]. cbn beta. tauto.
Qed.

Lemma parseCSVLine_unquoted_witness :
  String.concat (String comma EmptyString)
    (parseCSVLine "P001,HP Petrol Pump,HPCL,Good,4.2,Pune,Maharashtra,18.52,73.85")
  = "P001,HP Petrol Pump,HPCL,Good,4.2,Pune,Maharashtra,18.52,73.85"%string /\
  List.length
    (parseCSVLine "P001,HP Petrol Pump,HPCL,Good,4.2,Pune,Maharashtra,18.52,73.85")
  = 9%nat.
Proof.
  destruct (parseCSVLine_unquoted
    "P001,HP Petrol Pump,HPCL,Good,4.2,Pune,Maharashtra,18.52,73.85" eq_refl)
    as (H1 & _ & H3).
  split; [exact H1 | exact H3].
Defined.

Lemma parseCSVLine_from_no_quote (line : string) (result : list string)
  (current : string) (inQuotes : bool) :
  Forall (fun f => has_char dquote f = false) result ->
  has_char dquote current = false ->
  Forall (fun f => has_char dquote f = false)
         (parseCSVLine_from line result current inQuotes).
Proof.
  revert result current inQuotes.
  induction line as [| c rest IH]; intros result current inQuotes Hres Hcur; cbn.
  - apply Forall_app. split; [exact Hres | constructor; [exact Hcur | constructor]].
  - destruct (c =? dquote)%char eqn:Hq; [now apply IH |].
    destruct ((c =? comma)%char && negb inQuotes).
    + apply IH; [| reflexivity].
      apply Forall_app. split; [exact Hres | constructor; [exact Hcur | constructor]].
    + apply IH; [exact Hres |]. rewrite has_char_app, Hcur. cbn. now rewrite Hq.
Qed.

(** X21. Whatever the line, [parseCSVLine] returns at least one field and
    no field holds a double quote: quotes only switch the quoting state, so
    a doubled quote inside a quoted field yields no character. *)
Theorem parseCSVLine_strips_quotes (line : string) :
  parseCSVLine line <> [] /\
  Forall (fun f => has_char dquote f = false) (parseCSVLine line).
Proof.
  split; [apply parseCSVLine_from_nonempty |].
  apply parseCSVLine_from_no_quote; [constructor | reflexivity].
Qed.

(** X22. A quoted field keeps its commas, closed or not.  When [s] holds no
    double quote, the line ["s"] in quotes is the single field [s], and so is
    the line that opens a quote before [s] and never closes it: the rest of
    such a line, commas included, lands in one field. *)
Theorem parseCSVLine_quoted (s : string) :
  has_char dquote s = false ->
  parseCSVLine (String dquote (s ++ String dquote EmptyString)) = [s] /\
  parseCSVLine (String dquote s) = [s].
Proof.
  intros Hq. unfold parseCSVLine. cbn [parseCSVLine_from].
  unfold dquote at 1 3. cbn [Ascii.eqb Bool.eqb andb negb].
  split.
  - rewrite parseCSVLine_from_app. cbn zeta.
    rewrite (parseCSVLine_from_plain s EmptyString true Hq) by now left.
    cbn [removelast last String.append parseCSVLine_from].
    unfold dquote at 1. cbn [Ascii.eqb Bool.eqb]. reflexivity.
  - rewrite (parseCSVLine_from_plain s EmptyString true Hq) by now left.
    reflexivity.
Qed.

Lemma parseCSVLine_quoted_witness :
  parseCSVLine (String dquote ("Pune, MH" ++ String dquote EmptyString)) =
    ["Pune, MH"%string] /\
  parseCSVLine (String dquote "Pune, MH,4.5,18.52") = ["Pune, MH,4.5,18.52"%string].
Proof.
  split.
  - apply (parseCSVLine_quoted "Pune, MH"). reflexivity.
  - apply (parseCSVLine_quoted "Pune, MH,4.5,18.52"). reflexivity.
Defined.

(** ** The report form and the engine *)

(** A request that passes validation is not answered with 404. *)
Lemma serve_accepted_found (clk : Clock) (db : DB) (req : Request)
  (sid ft uid : string) (ulat ulon : option R) (slat slon : R) (message : string) :
  validated_input db req sid ft uid ulat ulon slat slon ->
  serve clk db req <> (json_error 404 message, db).
Proof.
  intros Hacc Heq. apply (f_equal (fun p => status (fst p))) in Heq.
  rewrite (serve_accepted_db _ _ _ _ _ _ _ _ _ _ Hacc) in Heq.
  cbn [fst json_error status] in Heq. rewrite submission_response_status in Heq.
  destruct (consensus_throws _ _ _); discriminate.
Qed.

(** X23. What the engine answers to the report form.  A request the form
    sends always carries station, fuel type and both coordinates; the form
    does not check the submitter identifier.  With an empty identifier the
    engine answers 400 and stores nothing.  With a non-empty identifier it
    never answers "Missing required fields": it answers 404 and stores
    nothing, or it scores the report from the location of the form and
    answers 200 with a submission body that carries the identifier of the
    new row, unless the consensus block throws, and 500 when it does. *)
Theorem handleSubmit_answer (clk : Clock) (db : DB) (form : ReportForm)
  (req : Request) :
  handleSubmit form = Some req ->
  (anonymousUserId form = ""%string ->
   serve clk db req = (json_error 400 "Missing required fields", db)) /\
  (anonymousUserId form <> ""%string ->
   serve clk db req =
     (json_error 404 "Station not found or missing coordinates", db) \/
   exists lat lon slat slon,
     userLocation form = Some (lat, lon) /\
     let r := scored_report clk db (selectedStation form) (fuelType form)
                            (anonymousUserId form) lat lon slat slon in
     let throws :=
       consensus_throws (clock_now clk) (selectedStation form)
                        (crowdsourced_reports db ++ [r]) in
     (throws = false ->
      exists res,
        fst (serve clk db req) =
          {| status := 200; body := BodySubmit true (Some (report_id r)) res |}) /\
     (throws = true -> fst (serve clk db req) = json_error 500 push_error)).
Proof.
  unfold handleSubmit.
  destruct (truthy_string (Some (selectedStation form))) eqn:Hs; [| discriminate].
  destruct (truthy_string (Some (fuelType form))) eqn:Hf; [| discriminate].
  destruct (userLocation form) as [[lat lon] |] eqn:Hloc; [| discriminate].
  cbn [negb orb is_some]. intros Hreq. inversion Hreq; subst req. clear Hreq.
  unfold serve. cbn [method action report_member String.eqb Ascii.eqb Bool.eqb].
  unfold submit_report.
  cbn [in_station_id in_fuel_type in_anonymous_user_id in_user_lat in_user_lon
       is_undefined coordinate_value].
  rewrite Hs, Hf. cbn [negb orb is_some]. split.
  - intros ->. reflexivity.
  - intros Hu. apply truthy_string_Some in Hu. rewrite Hu. cbn [negb orb].
    destruct (select_station db (selectedStation form)) as [stn |];
      [| left; reflexivity].
    cbn [opt_chain].
    destruct (stn_lat stn) as [slat |]; [| left; reflexivity].
    destruct (truthy_number (Some slat)); [| left; reflexivity].
    destruct (stn_lon stn) as [slon |]; [| left; reflexivity].
    destruct (truthy_number (Some slon)); [| left; reflexivity].
    cbn [negb orb]. right. rewrite process_report_eq. cbn [fst].
    exists lat, lon, slat, slon. split; [reflexivity |]. cbn zeta.
    unfold scored_report, submission_response.
    split; intros ->; [eexists |]; reflexivity.
Qed.

Lemma handleSubmit_answer_witness :
  serve noon empty_db (valid_request "S1" "Diesel" "" 18.5204 73.8567)
  = (json_error 400 "Missing required fields", empty_db) /\
  (exists rid res,
     fst (serve noon empty_db (diesel_at_station "u1")) =
       {| status := 200; body := BodySubmit true (Some rid) res |}) /\
  fst (serve (at_station 1000) poisoned_db (diesel_at_station "u2")) =
    json_error 500 push_error.
Proof.
  split; [| split].
  - apply (handleSubmit_answer noon empty_db
             {| selectedStation := "S1"; fuelType := "Diesel";
                anonymousUserId := ""; userLocation := Some (18.5204, 73.8567) |}).
    + reflexivity.
    + reflexivity.
  - destruct (handleSubmit_answer noon empty_db
                {| selectedStation := "S1"; fuelType := "Diesel";
                   anonymousUserId := "u1";
                   userLocation := Some (18.5204, 73.8567) |}
                (diesel_at_station "u1") eq_refl) as [_ H].
    destruct (H ltac:(discriminate))
      as [H404 | (lat & lon & slat & slon & _ & Hok & _)].
    + exfalso. revert H404. apply (serve_accepted_found noon empty_db _ _ _ _ _ _ _ _ _
        (diesel_at_station_accepted empty_db "u1" eq_refl ltac:(discriminate))).
    + cbn zeta in Hok. destruct Hok as (res & Hres).
      * apply consensus_throws_short.
        eapply Nat.le_lt_trans; [apply window_length |].
        cbn [empty_db crowdsourced_reports app List.length]. lia.
      * eexists. eexists. exact Hres.
  - destruct (handleSubmit_answer (at_station 1000) poisoned_db
                {| selectedStation := "S1"; fuelType := "Diesel";
                   anonymousUserId := "u2";
                   userLocation := Some (18.5204, 73.8567) |}
                (diesel_at_station "u2") eq_refl) as [_ H].
    destruct (H ltac:(discriminate))
      as [H404 | (lat & lon & slat & slon & _ & _ & Hthrow)].
    + exfalso. revert H404.
      apply (serve_accepted_found (at_station 1000) poisoned_db _ _ _ _ _ _ _ _ _
        (diesel_at_station_accepted poisoned_db "u2" eq_refl ltac:(discriminate))).
    + apply Hthrow. apply consensus_throws_snoc. reflexivity.
Defined.

(** ** The threshold in terms of the mean score *)

(** X24. The loop body publishes a group exactly when it has at least two
    distinct submitters and a mean score of at least 0.2: the bonus of 0.2 is
    added before the comparison with [VERIFICATION_THRESHOLD = 0.4], and
    [CONSENSUS_THRESHOLD] plays no part.  Otherwise the store is left as it
    is. *)
Theorem publication_threshold (now : Z) (sid ft : string) (db : DB)
  (grp : list Report) :
  ((2 <= uniqueUsers grp)%nat /\ mean (dve_scores grp) >= 0.2 ->
   find_verified sid ft (consensus_group now sid db (ft, grp)) =
   Some {| vf_station_id := sid; vf_fuel_type := ft; is_available := true;
           confidence_score := Rmin 1 (mean (dve_scores grp) + 0.2);
           verified_by_count := uniqueUsers grp;
           last_verified_at := now |}) /\
  (~ ((2 <= uniqueUsers grp)%nat /\ mean (dve_scores grp) >= 0.2) ->
   consensus_group now sid db (ft, grp) = db).
Proof.
  assert (Hiff : group_passes grp = true <->
                 (2 <= uniqueUsers grp)%nat /\ mean (dve_scores grp) >= 0.2).
  { rewrite group_passes_iff. unfold finalScore. rewrite avgScore_mean. unfold_config.
    unfold Rmin. destruct (Rle_dec 1.0 (mean (dve_scores grp) + 0.2)); split;
      intros [Hn Hm]; (split; [exact Hn | lra]). }
  rewrite consensus_group_eq. split.
  - intros H. apply Hiff in H. rewrite H. unfold find_verified.
    cbn [verified_fuel_data].
    rewrite (find_upsert_same (consensus_entry now sid ft grp)).
    unfold consensus_entry, finalScore. rewrite avgScore_mean. unfold_config.
    do 2 f_equal. f_equal. lra.
  - intros H. destruct (group_passes grp) eqn:Hp; [| reflexivity].
    exfalso. apply H. now apply Hiff.
Qed.

Lemma publication_threshold_witness :
  find_verified "S1" "Diesel"
    (consensus_group 1000 "S1" empty_db
       ("Diesel"%string, [pune_row 1 "u1" 0 0.6; pune_row 2 "u2" 1000 0.5])) =
  Some {| vf_station_id := "S1"; vf_fuel_type := "Diesel"; is_available := true;
          confidence_score :=
            Rmin 1 (mean (dve_scores [pune_row 1 "u1" 0 0.6;
                                      pune_row 2 "u2" 1000 0.5]) + 0.2);
          verified_by_count :=
            uniqueUsers [pune_row 1 "u1" 0 0.6; pune_row 2 "u2" 1000 0.5];
          last_verified_at := 1000 |}.
Proof.
  apply publication_threshold. split.
  - apply Nat.leb_le. reflexivity.
  - unfold mean, dve_scores, pune_row.
    cbn [map dve_score or_zero fold_right List.length INR]. lra.
Defined.

(** ** A ledger that never moves caps the confidence *)

Lemma sum_le (c : R) (xs : list R) :
  Forall (fun x => x <= c) xs -> fold_right Rplus 0 xs <= INR (List.length xs) * c.
Proof.
  induction 1 as [| y ys Hy Hall IH].
  - cbn. lra.
  - cbn [fold_right List.length]. rewrite S_INR. lra.
Qed.

Lemma mean_le (c : R) (xs : list R) :
  0 <= c -> Forall (fun x => x <= c) xs -> mean xs <= c.
Proof.
  intros Hc Hall. unfold mean. generalize (sum_le c xs Hall). intros Hsum.
  destruct xs as [| x xs'].
  - cbn. unfold Rdiv. rewrite Rmult_0_l. exact Hc.
  - assert (Hpos : 0 < INR (List.length (x :: xs'))) by (apply lt_0_INR; cbn; lia).
    apply Rmult_le_reg_r with (INR (List.length (x :: xs'))); [exact Hpos |].
    unfold Rdiv. rewrite Rmult_assoc, Rinv_l by lra. lra.
Qed.

Lemma consensus_fold_verified_In (P : VerifiedFuel -> Prop) (now : Z)
  (sid : string) (gs : list (string * list Report)) (db : DB) :
  (forall ft grp, In (ft, grp) gs -> group_passes grp = true ->
                  P (consensus_entry now sid ft grp)) ->
  Forall P (verified_fuel_data db) ->
  Forall P (verified_fuel_data (fold_left (consensus_group now sid) gs db)).
Proof.
  revert db. induction gs as [| [ft grp] gs IH]; intros db HP Hall; [exact Hall |].
  cbn [fold_left]. apply IH.
  - intros ft' grp' Hin. apply HP. now right.
  - rewrite consensus_group_eq. destruct (group_passes grp) eqn:Hp; [| exact Hall].
    cbn [verified_fuel_data]. apply upsert_Forall; [| exact Hall].
    apply HP; [now left | exact Hp].
Qed.

Lemma trust_for_initial (db : DB) (uid : string) :
  ledger_at_initial db -> trust_for db uid = 0.5.
Proof.
  intros Hl. unfold trust_for.
  destruct (select_trust db uid) as [t |] eqn:Ht; [| reflexivity].
  unfold select_trust in Ht. apply single_In in Ht. apply filter_In in Ht as [Ht _].
  unfold ledger_at_initial in Hl. rewrite Forall_forall in Hl. exact (Hl t Ht).
Qed.

(** X25. The trust increment is never applied, and that caps every
    confidence.  When the ledger holds only rows that read as 0.5, the
    stored scores are in [[0, 0.5]] and no published confidence exceeds 0.7,
    then all three still hold after any request: with the ledger the engine
    itself creates, no Verified Fuel Entry ever has a confidence above 0.7. *)
Theorem confidence_capped (clk : Clock) (db : DB) (req : Request) :
  ledger_at_initial db ->
  scores_at_most_half db ->
  confidence_at_most_07 db ->
  let db' := snd (serve clk db req) in
  ledger_at_initial db' /\ scores_at_most_half db' /\ confidence_at_most_07 db'.
Proof.
  intros Hl Hs Hc. cbn zeta.
  destruct (serve_store_shape clk db req)
    as [-> | (sid & ft & uid & ulat & ulon & slat & slon & Hacc & H)]; [auto |].
  cbn zeta in H. destruct H as (_ & _ & Htr & Hrs).
  set (r := scored_row clk db sid ft uid ulat ulon slat slon) in *.
  set (rs := crowdsourced_reports db ++ [r]) in *.
  assert (Hr : 0 <= or_zero (dve_score r) <= 0.5).
  { unfold r, scored_row. cbn [dve_score or_zero].
    rewrite (trust_for_initial db uid Hl).
    generalize (calculateTimeDecay_lag_range (clock_now clk) (clock_lag clk))
               (calculateLocationFactor_range (ToNumber ulat) (ToNumber ulon)
                                              slat slon).
    intros Hd Hf. destruct (isValid _); [| lra]. split.
    - apply Rmult_le_pos; [apply Rmult_le_pos |]; lra.
    - assert (0 <= calculateTimeDecay (clock_now clk + Z.of_N (clock_lag clk))
                                      (clock_now clk)
                   * factor (calculateLocationFactor (ToNumber ulat) (ToNumber ulon)
                                                     slat slon) <= 1) by nra.
      nra. }
  assert (Hrs_ok : Forall (fun x => 0 <= or_zero (dve_score x) <= 0.5) rs).
  { unfold rs. apply Forall_app. split; [exact Hs | constructor; [exact Hr | constructor]]. }
  split; [| split].
  - unfold ledger_at_initial. rewrite Htr. unfold ensure_trust.
    destruct (select_trust db uid); [exact Hl |].
    cbn [insert_trust user_trust_scores]. apply Forall_app. split; [exact Hl |].
    constructor; [reflexivity | constructor].
  - unfold scores_at_most_half. rewrite Hrs, Forall_map.
    eapply Forall_impl; [| exact Hrs_ok]. cbn beta. intros x Hx.
    now destruct (mark_fields (verified_ids (clock_now clk) sid rs) x)
      as (_ & _ & _ & _ & -> & _).
  - unfold confidence_at_most_07.
    rewrite (serve_accepted_db _ _ _ _ _ _ _ _ _ _ Hacc). cbn [snd]. fold r.
    rewrite run_consensus_eq. cbn [insert_report crowdsourced_reports].
    destruct (ensure_trust_frame db uid) as (_ & Hrs' & Hvf'). rewrite Hrs'. fold rs.
    assert (Hc' : Forall (fun e => confidence_score e <= 0.7)
                    (verified_fuel_data (insert_report r (ensure_trust db uid)))).
    { cbn [insert_report verified_fuel_data]. now rewrite Hvf'. }
    destruct (_ && _); [| exact Hc'].
    apply consensus_fold_verified_In; [| exact Hc'].
    intros ft' grp Hin _. cbn [consensus_entry confidence_score].
    destruct (plain_groups_In _ _ _ Hin) as [-> _].
    unfold finalScore. rewrite avgScore_mean. unfold_config.
    etransitivity; [apply Rmin_r |].
    assert (Hm : mean (dve_scores
                         (filter (fun x => (fuel_type x =? ft')%string)
                                 (window (clock_now clk) sid rs))) <= 0.5).
    { apply mean_le; [lra |]. unfold dve_scores. rewrite Forall_map.
      apply Forall_forall. intros x Hx. apply filter_In in Hx as [Hx _].
      apply window_In in Hx as [Hx _]. rewrite Forall_forall in Hrs_ok.
      now apply Hrs_ok. }
    lra.
Qed.

Lemma first_pair_score :
  finalScore [pune_row 1 "u1" 0 0.5; pune_row 2 "u2" 1000 0.5] = 0.7.
Proof.
  unfold finalScore. rewrite avgScore_mean.
  unfold mean, dve_scores, pune_row. unfold_config.
  cbn [map dve_score or_zero fold_right List.length INR].
  rewrite Rmin_right; lra.
Qed.

Lemma first_pair_passes :
  group_passes [pune_row 1 "u1" 0 0.5; pune_row 2 "u2" 1000 0.5] = true.
Proof.
  apply group_passes_iff. split; [apply Nat.leb_le; reflexivity |].
  rewrite first_pair_score. unfold_config. lra.
Qed.

Lemma confidence_capped_witness :
  let db' := snd (serve (at_station 1000) first_report_db (diesel_at_station "u2")) in
  (ledger_at_initial db' /\ scores_at_most_half db' /\ confidence_at_most_07 db') /\
  user_trust_scores db' =
    [{| ts_anonymous_user_id := "u1"; trust_score := Some 0.5 |};
     {| ts_anonymous_user_id := "u2"; trust_score := Some 0.5 |}] /\
  exists e,
    find_verified "S1" "Diesel" db' = Some e /\
    verified_by_count e = 2%nat /\ confidence_score e = 0.7.
Proof.
  cbn zeta.
  assert (Hacc := diesel_at_station_accepted first_report_db "u2" eq_refl
                    ltac:(discriminate)).
  split; [| split].
  - apply (confidence_capped (at_station 1000) first_report_db
             (diesel_at_station "u2")).
    + constructor; [reflexivity | constructor].
    + constructor; [| constructor].
      unfold pune_row. cbn [dve_score or_zero]. lra.
    + constructor.
  - destruct (serve_accepted_rows (at_station 1000) first_report_db _ _ _ _ _ _ _ _
                Hacc) as (_ & -> & _).
    reflexivity.
  - destruct (serve_accepted_reports (at_station 1000) first_report_db _ _ _ _ _ _ _ _
                Hacc) as [_ Hfind].
    cbn zeta in Hfind. rewrite Hfind, scored_report_at_station.
    change (clock_now (at_station 1000)) with 1000%Z. no_throw.
    change (consensus_group_of 1000 "S1" "Diesel" _)
      with [pune_row 1 "u1" 0 0.5; pune_row 2 "u2" 1000 0.5].
    rewrite first_pair_passes. cbn [String.eqb Ascii.eqb Bool.eqb andb].
    eexists. split; [reflexivity |]. split; [reflexivity |].
    cbn [consensus_entry confidence_score]. apply first_pair_score.
Defined.

(** ** Reading the station file *)

Lemma parseCSV_row_spec (trim : string -> string) (parseFloat : string -> option R)
  (i : nat) (raw : string) (p : PumpData) :
  In p (parseCSV_row trim parseFloat i raw) ->
  parseCSV_row trim parseFloat i raw = [p] /\
  pd_id p = i /\ trim raw <> ""%string /\
  (9 <= List.length (parseCSVLine (trim raw)))%nat /\
  pumpId p = trim (nth 0 (parseCSVLine (trim raw)) ""%string) /\
  rating p = rating_or_4 parseFloat (nth 4 (parseCSVLine (trim raw)) ""%string) /\
  pd_lat p = parseFloat (nth 7 (parseCSVLine (trim raw)) ""%string) /\
  pd_lon p = parseFloat (nth 8 (parseCSVLine (trim raw)) ""%string) /\
  servicesRating p = Math_round (rating p) /\
  staffRating p = Math_round (rating p) /\
  pure p = true /\ diesel p = true.
Proof.
  unfold parseCSV_row.
  destruct (String.eqb_spec (trim raw) "") as [Heq | Hne]; [intros [] |].
  destruct (Nat.leb_spec 9 (List.length (parseCSVLine (trim raw)))) as [Hlen | Hlt];
    [| intros []].
  destruct (parseCSVLine (trim raw))
    as [| v0 [| v1 [| v2 [| v3 [| v4 [| v5 [| v6 [| v7 [| v8 vs]]]]]]]]];
    try (cbn in Hlen; lia).
  intros [<- | []]. cbn. repeat split; auto.
Qed.

Lemma parseCSV_from_spec (trim : string -> string) (parseFloat : string -> option R)
  (lines : list string) (i : nat) (p : PumpData) :
  In p (parseCSV_from trim parseFloat i lines) ->
  (i <= pd_id p < i + List.length lines)%nat /\
  In p (parseCSV_row trim parseFloat (pd_id p) (nth (pd_id p - i) lines ""%string)).
Proof.
  revert i. induction lines as [| raw rest IH]; intros i; cbn [parseCSV_from];
    [intros [] |].
  intros Hin. apply in_app_or in Hin as [Hin | Hin].
  - destruct (parseCSV_row_spec _ _ _ _ _ Hin) as (_ & Hid & _).
    rewrite Hid, Nat.sub_diag. cbn [nth List.length]. split; [lia | exact Hin].
  - destruct (IH _ Hin) as [Hrange Hrow]. cbn [List.length]. split; [lia |].
    replace (pd_id p - i)%nat with (S (pd_id p - S i)) by lia. exact Hrow.
Qed.

Lemma parseCSV_from_sorted (trim : string -> string) (parseFloat : string -> option R)
  (lines : list string) (i : nat) :
  StronglySorted lt (map pd_id (parseCSV_from trim parseFloat i lines)).
Proof.
  revert i. induction lines as [| raw rest IH]; intros i; cbn [parseCSV_from];
    [constructor |].
  assert (Hrest : Forall (fun n => (i < n)%nat)
                    (map pd_id (parseCSV_from trim parseFloat (S i) rest))).
  { rewrite Forall_map. apply Forall_forall. intros p Hp.
    apply parseCSV_from_spec in Hp as [Hp _]. lia. }
  destruct (parseCSV_row trim parseFloat i raw) as [| p [| q l]] eqn:Hrow.
  - apply IH.
  - cbn [app map]. constructor; [apply IH |].
    assert (Hid : pd_id p = i).
    { apply (parseCSV_row_spec trim parseFloat i raw p). rewrite Hrow. now left. }
    now rewrite Hid.
  - exfalso.
    destruct (parseCSV_row_spec trim parseFloat i raw p) as (Habs & _);
      [rewrite Hrow; now left |].
    rewrite Hrow in Habs. discriminate.
Qed.

Lemma parseCSV_from_length (trim : string -> string)
  (parseFloat : string -> option R) (lines : list string) (i : nat) :
  (List.length (parseCSV_from trim parseFloat i lines) <= List.length lines)%nat.
Proof.
  revert i. induction lines as [| raw rest IH]; intros i; cbn [parseCSV_from];
    [cbn; lia |].
  rewrite length_app. specialize (IH (S i)). cbn [List.length].
  assert (Hrow : (List.length (parseCSV_row trim parseFloat i raw) <= 1)%nat).
  { destruct (parseCSV_row trim parseFloat i raw) as [| p l] eqn:Hrow; [cbn; lia |].
    destruct (parseCSV_row_spec trim parseFloat i raw p) as (Heq & _);
      [rewrite Hrow; now left |].
    rewrite Hrow in Heq. inversion Heq. cbn. lia. }
  lia.
Qed.

(** X26. A pump's [id] is the number of its line.  Every pump [parseCSV]
    returns comes from the line of the trimmed text whose index is the
    pump's [id]; that index is at least 1, so the header line gives no pump;
    the line is not blank and has at least nine fields, of which the first,
    eighth and ninth give [pumpId], [lat] and [lon].  The ids increase
    strictly along the result: none repeats, and skipped lines leave gaps. *)
Theorem parseCSV_ids (trim : string -> string) (parseFloat : string -> option R)
  (csvText : string) :
  let lines := split_lines (trim csvText) in
  let pumps := parseCSV trim parseFloat csvText in
  StronglySorted lt (map pd_id pumps) /\
  (List.length pumps <= List.length lines - 1)%nat /\
  forall p, In p pumps ->
    (1 <= pd_id p < List.length lines)%nat /\
    let line := trim (nth (pd_id p) lines ""%string) in
    line <> ""%string /\
    (9 <= List.length (parseCSVLine line))%nat /\
    pumpId p = trim (nth 0 (parseCSVLine line) ""%string) /\
    pd_lat p = parseFloat (nth 7 (parseCSVLine line) ""%string) /\
    pd_lon p = parseFloat (nth 8 (parseCSVLine line) ""%string).
Proof.
  cbn zeta. unfold parseCSV.
  set (lines := split_lines (trim csvText)).
  split; [apply parseCSV_from_sorted |]. split.
  - etransitivity; [apply parseCSV_from_length |]. now rewrite length_skipn.
  - intros p Hp. apply parseCSV_from_spec in Hp as [Hrange Hrow].
    rewrite length_skipn in Hrange.
    assert (Hnth : nth (pd_id p - 1) (skipn 1 lines) ""%string =
                   nth (pd_id p) lines ""%string).
    { destruct lines as [| h t]; [cbn in Hrange; lia |]. cbn [skipn].
      replace (pd_id p) with (S (pd_id p - 1)) at 2 by lia. reflexivity. }
    rewrite Hnth in Hrow.
    destruct (parseCSV_row_spec _ _ _ _ _ Hrow)
      as (_ & _ & Hne & Hlen & Hpid & _ & Hlat & Hlon & _).
    split; [lia |]. auto.
Qed.

(** X27. Ratings read from the file.  A pump's [rating] is never 0: a
    rating field that does not parse, or parses to 0, is replaced by 4, and
    any other parsed value is kept.  The service and staff ratings are the
    rating rounded to the nearest integer, and every pump is listed as
    selling petrol and diesel. *)
Theorem parseCSV_ratings (trim : string -> string) (parseFloat : string -> option R)
  (csvText : string) (p : PumpData) :
  In p (parseCSV trim parseFloat csvText) ->
  rating p <> 0 /\
  (exists field,
     rating p = rating_or_4 parseFloat field /\
     (parseFloat field = None \/ parseFloat field = Some 0 -> rating p = 4) /\
     (forall v, parseFloat field = Some v -> v <> 0 -> rating p = v)) /\
  servicesRating p = Math_round (rating p) /\
  staffRating p = Math_round (rating p) /\
  Rabs (servicesRating p - rating p) <= / 2 /\
  pure p = true /\ diesel p = true.
Proof.
  unfold parseCSV. intros Hp. apply parseCSV_from_spec in Hp as [_ Hrow].
  destruct (parseCSV_row_spec _ _ _ _ _ Hrow)
    as (_ & _ & _ & _ & _ & Hr & _ & _ & Hs & Hst & Hpure & Hdiesel).
  set (field := nth 4 _ _) in Hr.
  assert (Hnz : rating p <> 0).
  { rewrite Hr. unfold rating_or_4. destruct (parseFloat field) as [v |]; [| lra].
    destruct (Req_dec_T v 0); [lra | assumption]. }
  split; [exact Hnz |]. split.
  - exists field. split; [exact Hr |]. split.
    + intros [Hn | Hz]; rewrite Hr; unfold rating_or_4; rewrite ?Hn, ?Hz;
        [reflexivity |]. destruct (Req_dec_T 0 0); [reflexivity | contradiction].
    + intros v Hv Hv0. rewrite Hr. unfold rating_or_4. rewrite Hv.
      destruct (Req_dec_T v 0); [contradiction | reflexivity].
  - split; [exact Hs |]. split; [exact Hst |]. split; [| auto].
    rewrite Hs. unfold Math_round.
    generalize (Zfloor_bound (rating p + / 2)). intros [Hlo Hhi].
    apply Rabs_le. lra.
Qed.

Lemma parseCSV_ratings_witness :
  let trim := fun s : string => s in
  let parseFloat := fun s : string =>
    if (s =? "4.5")%string then Some 4.5 else
    if (s =? "0")%string then Some 0 else None in
  let pumps :=
    parseCSV trim parseFloat
      (String.concat (String newline EmptyString)
         ["pumpId,name,brand,review,rating,city,state,lat,lon"%string;
          "P1,A,HP,ok,4.5,Pune,MH,18.5,73.8"%string;
          "P2,B,HP,ok,0,Pune,MH,18.5,73.8"%string]) in
  map pumpId pumps = ["P1"%string; "P2"%string] /\
  Forall (fun p => rating p <> 0) pumps.
Proof.
  cbn zeta. split; [reflexivity |].
  apply Forall_forall. intros p Hp.
  apply (parseCSV_ratings _ _ _ p Hp).
Defined.
